(** * fv.cpp: the scrolling file viewer, its searches and its key handling

    A shallow embedding of [src/fv.cpp]: the four free search functions
    over [std::vector<std::string>], the [Document] wrapper around them,
    and the [FileViewer] component with its commands and [OnEvent].

    Conventions of the embedding.
    - An [int] is a [Z] kept in the 32-bit two's complement range by
      [to_int]; a [size_t] is a [Z] reduced by [to_size_t]; these are
      written out where the source does arithmetic or converts.
    - A computation whose behaviour the C++ standard leaves undefined
      (an iterator moved outside its vector, [operator[]] out of range,
      [std::clamp] with [hi < lo]) returns a [Fault]; so does a loop of
      the model that runs out of its iteration budget, which the
      totality lemmas below show not to happen.
    - Signed [int] overflow, undefined in C++, is not a fault of the
      model: [to_int] wraps.  [bounded] and [in_view] below give the sizes
      and offsets under which no [int] computation of the viewer leaves
      the range.
    - [std::string] is [string] (a sequence of bytes). *)

From Stdlib Require Import ZArith List String Ascii Bool Lia DecimalString.
Import ListNotations.
Open Scope string_scope.
Open Scope Z_scope.

(** ** Machine integers *)

Definition INT_MIN : Z := - 2 ^ 31.
Definition INT_MAX : Z := 2 ^ 31 - 1.

(** Conversion to [int] (and the result of [int] arithmetic). *)
Definition to_int (z : Z) : Z := (z + 2 ^ 31) mod 2 ^ 32 - 2 ^ 31.

(** Conversion to [size_t] (and the result of [size_t] arithmetic). *)
Definition to_size_t (z : Z) : Z := z mod 2 ^ 64.

(** Conversion to [std::ptrdiff_t], the iterators' [difference_type]. *)
Definition to_ptrdiff (z : Z) : Z := (z + 2 ^ 63) mod 2 ^ 64 - 2 ^ 63.

Definition is_int (z : Z) : Prop := INT_MIN <= z <= INT_MAX.

(** ** Faults and the error monad *)

Inductive fault : Type :=
| IteratorOutOfRange   (* an iterator moved outside [begin, end] *)
| IndexOutOfRange      (* operator[] outside [0, size) *)
| ClampBounds          (* std::clamp called with hi < lo *)
| FuelExhausted.       (* a loop of the model ran out of budget *)

Inductive M (A : Type) : Type :=
| Ok (a : A)
| Fault (f : fault).
Arguments Ok {A} a.
Arguments Fault {A} f.

Definition bind {A B : Type} (m : M A) (k : A -> M B) : M B :=
  match m with
  | Ok a => k a
  | Fault f => Fault f
  end.

Definition fmap {A B : Type} (g : A -> B) (m : M A) : M B :=
  bind m (fun a => Ok (g a)).

Notation "x <- m ;; k" := (bind m (fun x => k))
  (at level 61, m at next level, right associativity).
Notation "' pat <- m ;; k" := (bind m (fun x => match x with pat => k end))
  (at level 61, pat pattern, m at next level, right associativity).

(** [while cond body s]: the loop [while (cond) body;], at most [fuel]
    iterations. *)
Fixpoint while {S : Type} (fuel : nat) (cond : S -> bool) (body : S -> M S)
    (s : S) : M S :=
  if cond s then
    match fuel with
    | O => Fault FuelExhausted
    | Datatypes.S n => s' <- body s ;; while n cond body s'
    end
  else Ok s.

(** ** The standard library pieces the source uses *)

(** [line.find(pattern)]: position of the first occurrence, [None] for
    [npos]. *)
Definition str_find (line pattern : string) : option nat :=
  index 0 pattern line.

(** The lambda passed to [std::find_if]:
    [line.find(pattern) != std::string::npos]. *)
Definition contains (pattern line : string) : bool :=
  match str_find line pattern with
  | Some _ => true
  | None => false
  end.

(** [pattern.empty()] *)
Definition empty (s : string) : bool :=
  match s with
  | EmptyString => true
  | String _ _ => false
  end.

(** [pattern.pop_back()] on a non-empty string. *)
Fixpoint pop_back (s : string) : string :=
  match s with
  | EmptyString => EmptyString
  | String _ EmptyString => EmptyString
  | String c s' => String c (pop_back s')
  end.

(** An iterator into a vector is its offset from the start of the range
    it walks ([cbegin] for a forward, [crbegin] for a reverse iterator).
    [advance len n] is [begin + n] in a range of [len] elements. *)
Definition advance (len : nat) (n : Z) : M nat :=
  if (0 <=? n) && (n <=? Z.of_nat len) then Ok (Z.to_nat n)
  else Fault IteratorOutOfRange.

Fixpoint find_if_from {A : Type} (pred : A -> bool) (l : list A) (pos : nat)
    : nat :=
  match l with
  | [] => pos
  | x :: l' => if pred x then pos else find_if_from pred l' (S pos)
  end.

(** [std::find_if(first, last, pred)] with [last] the end of the range [l]:
    the first position at or after [first] whose element satisfies
    [pred], and [List.length l] (the end iterator) when there is none. *)
Definition find_if {A : Type} (pred : A -> bool) (l : list A) (first : nat)
    : nat :=
  find_if_from pred (skipn first l) first.

(** [std::clamp(v, lo, hi)]; undefined when [hi < lo]. *)
Definition clamp (v lo hi : Z) : M Z :=
  if hi <? lo then Fault ClampBounds
  else Ok (if v <? lo then lo else if hi <? v then hi else v).

(** [lines.size()] *)
Definition size (lines : list string) : Z := Z.of_nat (List.length lines).

(** ** The search functions of the anonymous namespace

    [current] is an [int] and [lines.size()] a [size_t]: in
    [current >= lines.size() - 1] and in
    [(lines.size() - 1) - (current - 1)] the [int] is converted to
    [size_t] and the arithmetic is modulo [2 ^ 64]; an iterator is moved
    by a [difference_type].  The result of [std::distance] is cast to
    [int]; for a reverse iterator at offset [it] from [crbegin] the
    distance to [crend] is [size - it]. *)

Definition FindPreviousMatchingLine (lines : list string) (current : Z)
    (pattern : string) : M Z :=
  (* If there is no previous line... *)
  if current <? 1 then Ok (-1)
  else
    (* Search backwards from the line before the current line. *)
    first <- advance (List.length lines)
               (to_ptrdiff (to_size_t (to_size_t (size lines - 1)
                                       - to_size_t (to_int (current - 1))))) ;;
    let it := find_if (contains pattern) (rev lines) first in
    if negb (it =? List.length lines)%nat
    then Ok (to_int (to_int (Z.of_nat (List.length lines - it)) - 1))
    else Ok (-1).

Definition FindNextMatchingLine (lines : list string) (current : Z)
    (pattern : string) : M Z :=
  (* If there is no next line... *)
  if to_size_t current >=? to_size_t (size lines - 1) then Ok (-1)
  else
    (* Search forwards from the line after the current line. *)
    first <- advance (List.length lines) (to_int (current + 1)) ;;
    let it := find_if (contains pattern) lines first in
    if negb (it =? List.length lines)%nat
    then Ok (to_int (Z.of_nat it))
    else Ok (-1).

Definition LocatePreviousMatch (lines : list string) (current : Z)
    (pattern : string) : M Z :=
  if negb (empty pattern) then
    line <- FindPreviousMatchingLine lines current pattern ;;
    line <- (if line =? -1
             then (* Wrap and start the search to include line size-1. *)
                  FindPreviousMatchingLine lines (to_int (size lines)) pattern
             else Ok line) ;;
    Ok (if negb (line =? -1) then line else current)
  else Ok current.

Definition LocateNextMatch (lines : list string) (current : Z)
    (pattern : string) : M Z :=
  if negb (empty pattern) then
    line <- FindNextMatchingLine lines current pattern ;;
    line <- (if line =? -1
             then (* Wrap and start the search to include line zero. *)
                  FindNextMatchingLine lines (-1) pattern
             else Ok line) ;;
    Ok (if negb (line =? -1) then line else current)
  else Ok current.

(** ** class Document *)

Module Document.

Record t : Type := mk { lines_ : list string }.

Definition FindPreviousMatchingLine (d : t) (current : Z) (pattern : string)
    : M Z :=
  FindPreviousMatchingLine (lines_ d) current pattern.

Definition FindNextMatchingLine (d : t) (current : Z) (pattern : string)
    : M Z :=
  FindNextMatchingLine (lines_ d) current pattern.

Definition LocatePreviousMatch (d : t) (current : Z) (pattern : string)
    : M Z :=
  LocatePreviousMatch (lines_ d) current pattern.

Definition LocateNextMatch (d : t) (current : Z) (pattern : string) : M Z :=
  LocateNextMatch (lines_ d) current pattern.

Definition Size (d : t) : Z := to_int (size (lines_ d)).

(** [operator[]]: [lines_[line]], the [int] converted to [size_type]. *)
Definition at_ (d : t) (line : Z) : M string :=
  if to_size_t line <? size (lines_ d) then
    match nth_error (lines_ d) (Z.to_nat (to_size_t line)) with
    | Some l => Ok l
    | None => Fault IndexOutOfRange
    end
  else Fault IndexOutOfRange.

(** [std::getline(file, line)] on the rest of the file: the characters up
    to the next newline, which is consumed and not stored, or up to the
    end of the file; and what is left of the file. *)
Fixpoint getline (file : string) : string * string :=
  match file with
  | EmptyString => (EmptyString, EmptyString)
  | String c rest =>
      if Ascii.eqb c "010" then (EmptyString, rest)
      else let (line, rest') := getline rest in (String c line, rest')
  end.

(** The constructor.  [file] is the content of the file, [None] when it
    cannot be opened: [std::getline] then fails at once, as it does when
    nothing is left to read.  Every line read takes at least one
    character of the file, so the length of the file is the budget of the
    loop. *)
Definition Document (file : option string) : M t :=
  match file with
  | None => Ok (mk [])
  | Some content =>
      '(_, lines) <-
        while (String.length content)
          (fun '(file, _) => negb (empty file))
          (fun '(file, lines) =>
             let (line, rest) := getline file in
           Ok (rest, (lines ++ [line])%list))
          (content, []) ;;
      Ok (mk lines)
  end.

End Document.

(** ** Events

    An FTXUI event carries the bytes the terminal sent ([input]) and
    whether it is a character; [==] compares the bytes. *)

Module Event.

Record t : Type := mk { is_character : bool; input : string }.

Definition character (e : t) : string := input e.

Definition Character (ch : string) : t := mk true ch.

Definition Special (bytes : list nat) : t :=
  mk false (string_of_list_ascii (map ascii_of_nat bytes)).

Definition eqb (e other : t) : bool := String.eqb (input e) (input other).

(** The constants of FTXUI the viewer compares with. *)
Definition ArrowLeft : t := Special [27; 91; 68]%nat.
Definition ArrowRight : t := Special [27; 91; 67]%nat.
Definition ArrowUp : t := Special [27; 91; 65]%nat.
Definition ArrowDown : t := Special [27; 91; 66]%nat.
Definition Backspace : t := Special [127]%nat.
Definition Escape : t := Special [27]%nat.
Definition Return : t := Special [10]%nat.

End Event.

Module keyevents.

Definition Home : Event.t := Event.Special [27; 91; 72]%nat.
Definition End_ : Event.t := Event.Special [27; 91; 70]%nat.
Definition PgUp : Event.t := Event.Special [27; 91; 53; 126]%nat.
Definition PgDown : Event.t := Event.Special [27; 91; 54; 126]%nat.

Definition CtrlHome : Event.t := Event.Special [27; 91; 49; 59; 53; 72]%nat.
Definition CtrlEnd : Event.t := Event.Special [27; 91; 49; 59; 53; 70]%nat.
Definition CtrlPgUp : Event.t := Event.Special [27; 91; 53; 59; 53; 126]%nat.
Definition CtrlPgDown : Event.t := Event.Special [27; 91; 54; 59; 53; 126]%nat.

Definition CtrlL : Event.t := Event.Special [12]%nat.
Definition CtrlT : Event.t := Event.Special [20]%nat.

End keyevents.

(** [Terminal::Size()] *)
Record Dimensions : Type := mkDimensions { dimx : Z; dimy : Z }.

(** ** What is drawn

    Of FTXUI's canvas the viewer uses the constructor and [DrawText]; a
    canvas is modelled as its size and the texts drawn on it, in the
    order of the calls.  The element [Render] returns is the three
    canvases it lays out. *)

Inductive Color : Type :=
| Cyan1 | DarkCyan | Yellow1 | Aquamarine1 | DarkGoldenrod.

Record Text : Type := mkText {
  text_x : Z;
  text_y : Z;
  text_value : string;
  text_color : option Color
}.

Record Canvas : Type := mkCanvas {
  canvas_width : Z;
  canvas_height : Z;
  canvas_texts : list Text
}.

Definition DrawText (c : Canvas) (x y : Z) (value : string)
    (color : option Color) : Canvas :=
  mkCanvas (canvas_width c) (canvas_height c)
    (canvas_texts c ++ [mkText x y value color])%list.

(** [vbox(hbox(canvas(lineNumberArea), canvas(contentArea)),
    canvas(statusArea))] *)
Record Element : Type := mkElement {
  lineNumberArea : Canvas;
  contentArea : Canvas;
  statusArea : Canvas
}.

(** [std::to_string] of an [int]. *)
Definition to_string (n : Z) : string := NilZero.string_of_int (Z.to_int n).

(** [line.find(pattern, pos)] *)
Definition str_find_from (line pattern : string) (pos : nat) : option nat :=
  index pos pattern line.

(** ** class FileViewer *)

Module FileViewer.

Definition lineNumberMargin_ : Z := 8.
Definition xFactor_ : Z := 2.
Definition yFactor_ : Z := 4.

Record t : Type := mk {
  topLine_ : Z;
  leftEdge_ : Z;
  matchingLine_ : Z;
  pattern_ : string;
  isCapturing_ : bool;
  showLineNumbers_ : bool;
  isFiltering_ : bool
}.

(** The viewer as constructed. *)
Definition init : t := mk 0 0 (-1) "" false true false.

Definition set_topLine (v : Z) (fv : t) : t :=
  mk v (leftEdge_ fv) (matchingLine_ fv) (pattern_ fv) (isCapturing_ fv)
     (showLineNumbers_ fv) (isFiltering_ fv).
Definition set_leftEdge (v : Z) (fv : t) : t :=
  mk (topLine_ fv) v (matchingLine_ fv) (pattern_ fv) (isCapturing_ fv)
     (showLineNumbers_ fv) (isFiltering_ fv).
Definition set_matchingLine (v : Z) (fv : t) : t :=
  mk (topLine_ fv) (leftEdge_ fv) v (pattern_ fv) (isCapturing_ fv)
     (showLineNumbers_ fv) (isFiltering_ fv).
Definition set_pattern (v : string) (fv : t) : t :=
  mk (topLine_ fv) (leftEdge_ fv) (matchingLine_ fv) v (isCapturing_ fv)
     (showLineNumbers_ fv) (isFiltering_ fv).
Definition set_isCapturing (v : bool) (fv : t) : t :=
  mk (topLine_ fv) (leftEdge_ fv) (matchingLine_ fv) (pattern_ fv) v
     (showLineNumbers_ fv) (isFiltering_ fv).
Definition set_showLineNumbers (v : bool) (fv : t) : t :=
  mk (topLine_ fv) (leftEdge_ fv) (matchingLine_ fv) (pattern_ fv)
     (isCapturing_ fv) v (isFiltering_ fv).
Definition set_isFiltering (v : bool) (fv : t) : t :=
  mk (topLine_ fv) (leftEdge_ fv) (matchingLine_ fv) (pattern_ fv)
     (isCapturing_ fv) (showLineNumbers_ fv) v.

Section Commands.

(** [doc_], and the terminal the viewer asks for its size. *)
Variable doc_ : Document.t.
Variable term : Dimensions.

Definition ViewWidth : Z := dimx term.
Definition ViewHeight : Z := dimy term.

Definition UpdateMatchFromPattern (fv : t) : M t :=
  line <- Document.FindNextMatchingLine doc_ (topLine_ fv) (pattern_ fv) ;;
  Ok (set_matchingLine line fv).

Definition CmdStartCapture (fv : t) : t :=
  set_pattern "" (set_isCapturing true fv).

Definition CmdEndCapture (fv : t) : t :=
  if isCapturing_ fv
  then set_topLine (matchingLine_ fv) (set_isCapturing false fv)
  else fv.

Definition CmdCancelCapture (fv : t) : t :=
  if isCapturing_ fv
  then set_matchingLine (-1) (set_pattern "" (set_isCapturing false fv))
  else fv.

Definition CmdBackspaceCapture (fv : t) : M t :=
  if isCapturing_ fv then
    if negb (Nat.eqb (String.length (pattern_ fv)) 0)
    then UpdateMatchFromPattern (set_pattern (pop_back (pattern_ fv)) fv)
    else Ok fv
  else Ok fv.

Definition CmdPreviousMatch (fv : t) : M t :=
  line <- Document.LocatePreviousMatch doc_ (topLine_ fv) (pattern_ fv) ;;
  Ok (set_topLine line fv).

Definition CmdNextMatch (fv : t) : M t :=
  line <- Document.LocateNextMatch doc_ (topLine_ fv) (pattern_ fv) ;;
  Ok (set_topLine line fv).

Definition CmdPreviousLine (fv : t) : t :=
  set_topLine (to_int (topLine_ fv - 1)) fv.

Definition CmdNextLine (fv : t) : t :=
  set_topLine (to_int (topLine_ fv + 1)) fv.

Definition CmdPreviousColumn (fv : t) : t :=
  set_leftEdge (to_int (leftEdge_ fv - 1)) fv.

Definition CmdNextColumn (fv : t) : t :=
  set_leftEdge (to_int (leftEdge_ fv + 1)) fv.

Definition CmdStartOfDocument (fv : t) : t := set_topLine 0 fv.

Definition CmdEndOfDocument (fv : t) : t :=
  set_topLine (to_int (Document.Size doc_ - to_int (ViewHeight - 1))) fv.

Definition CmdPreviousPage (fv : t) : t :=
  set_topLine (to_int (topLine_ fv - to_int (ViewHeight - 1))) fv.

Definition CmdNextPage (fv : t) : t :=
  set_topLine (to_int (topLine_ fv + to_int (ViewHeight - 1))) fv.

(** The loop of [CmdPreviousFilteredPage] over [(line, hits)]; every
    iteration but the last counts a hit, so [viewHeight - 1]
    iterations are its budget. *)
Definition PreviousFilteredPage_loop (pattern : string) (viewHeight : Z)
    (line hits : Z) : M (Z * Z) :=
  while (Z.to_nat (to_int (viewHeight - 1)))
    (fun '(line, hits) =>
       negb (line =? -1) && (line >=? 0)
       && (hits <? to_int (viewHeight - 1)))
    (fun '(line, hits) =>
       line <- Document.FindPreviousMatchingLine doc_ (to_int (line - 1))
                 pattern ;;
       Ok (line, if negb (line =? -1) then to_int (hits + 1) else hits))
    (line, hits).

Definition CmdPreviousFilteredPage (fv : t) : M t :=
  let viewHeight := ViewHeight in
  '(line, hits) <- PreviousFilteredPage_loop (pattern_ fv) viewHeight
                     (topLine_ fv) 0 ;;
  Ok (set_topLine (if hits =? to_int (viewHeight - 1) then line else 0) fv).

Definition NextFilteredPage_loop (pattern : string) (viewHeight : Z)
    (line hits : Z) : M (Z * Z) :=
  while (Z.to_nat (to_int (viewHeight - 1)))
    (fun '(line, hits) =>
       negb (line =? -1) && (line <? Document.Size doc_)
       && (hits <? to_int (viewHeight - 1)))
    (fun '(line, hits) =>
       line <- Document.FindNextMatchingLine doc_ (to_int (line + 1))
                 pattern ;;
       Ok (line, if negb (line =? -1) then to_int (hits + 1) else hits))
    (line, hits).

Definition CmdNextFilteredPage (fv : t) : M t :=
  let viewHeight := ViewHeight in
  '(line, hits) <- NextFilteredPage_loop (pattern_ fv) viewHeight
                     (topLine_ fv) 0 ;;
  Ok (if hits =? to_int (viewHeight - 1) then set_topLine line fv else fv).

Definition CmdLeftmostColumn (fv : t) : t := set_leftEdge 0 fv.

(** The [for] loop of [CmdRightmostColumn] over
    [(line, numLines, length)]; [line] grows by one up to the size of
    the document. *)
Definition RightmostColumn_loop (isFiltering : bool) (pattern : string)
    (line numLines length : Z) : M (Z * Z * Z) :=
  while (Z.to_nat (Document.Size doc_ - line))
    (fun '(line, numLines, length) =>
       (numLines >? 0) && (line <? Document.Size doc_))
    (fun '(line, numLines, length) =>
       counted <-
         (if negb isFiltering then Ok true
          else if negb (empty pattern) then
                 l <- Document.at_ doc_ line ;;
                 Ok (contains pattern l)
               else Ok false) ;;
       '(numLines, length) <-
         (if counted : bool then
            l <- Document.at_ doc_ line ;;
            Ok (to_int (numLines - 1),
                Z.max length (to_int (Z.of_nat (String.length l))))
          else Ok (numLines, length)) ;;
       Ok (to_int (line + 1), numLines, length))
    (line, numLines, length).

Definition CmdRightmostColumn (fv : t) : M t :=
  '(_, _, length) <- RightmostColumn_loop (isFiltering_ fv) (pattern_ fv)
                       (topLine_ fv) ViewHeight 0 ;;
  let margin := if showLineNumbers_ fv then lineNumberMargin_ else 0 in
  Ok (if length >? to_int (ViewWidth - margin)
      then set_leftEdge (to_int (to_int (length - ViewWidth) + margin)) fv
      else set_leftEdge 0 fv).

Definition CmdToggleLineNumbers (fv : t) : t :=
  set_showLineNumbers (negb (showLineNumbers_ fv)) fv.

Definition CmdToggleFiltering (fv : t) : t :=
  set_isFiltering (negb (isFiltering_ fv)) fv.

(** The first part of [OnEvent]: the commands run for the event [e]. *)
Definition dispatch (fv : t) (e : Event.t) : M t :=
  if Event.is_character e then
    let ch := Event.character e in
    if isCapturing_ fv then
      UpdateMatchFromPattern (set_pattern (pattern_ fv ++ ch) fv)
    else if String.eqb ch "/" then Ok (CmdStartCapture fv)
    else if String.eqb ch "n" then CmdNextMatch fv
    else if String.eqb ch "p" then CmdPreviousMatch fv
    else Ok fv
  else (* usually special *)
    fv <- (if Event.eqb e Event.Return then Ok (CmdEndCapture fv)
           else if Event.eqb e Event.Escape then Ok (CmdCancelCapture fv)
           else if Event.eqb e Event.Backspace then CmdBackspaceCapture fv
           else Ok fv) ;;
    if Event.eqb e Event.ArrowUp then
      if isFiltering_ fv && negb (empty (pattern_ fv))
      then CmdPreviousMatch fv
      else Ok (CmdPreviousLine fv)
    else if Event.eqb e Event.ArrowDown then
      if isFiltering_ fv && negb (empty (pattern_ fv))
      then CmdNextMatch fv
      else Ok (CmdNextLine fv)
    else if Event.eqb e Event.ArrowLeft then Ok (CmdPreviousColumn fv)
    else if Event.eqb e Event.ArrowRight then Ok (CmdNextColumn fv)
    else if Event.eqb e keyevents.CtrlHome then Ok (CmdStartOfDocument fv)
    else if Event.eqb e keyevents.CtrlEnd then Ok (CmdEndOfDocument fv)
    else if Event.eqb e keyevents.PgUp then
      if negb (isFiltering_ fv)
      then Ok (CmdPreviousPage fv)
      else CmdPreviousFilteredPage fv
    else if Event.eqb e keyevents.PgDown then
      if negb (isFiltering_ fv)
      then Ok (CmdNextPage fv)
      else CmdNextFilteredPage fv
    else if Event.eqb e keyevents.Home then Ok (CmdLeftmostColumn fv)
    else if Event.eqb e keyevents.End_ then CmdRightmostColumn fv
    else if Event.eqb e keyevents.CtrlL then Ok (CmdToggleLineNumbers fv)
    else if Event.eqb e keyevents.CtrlT then Ok (CmdToggleFiltering fv)
    else Ok fv.

(** The two closing statements of [OnEvent]. *)
Definition clamp_view (fv : t) : M t :=
  leftEdge <- clamp (leftEdge_ fv) 0 (to_int (ViewWidth - 1)) ;;
  let fv := set_leftEdge leftEdge fv in
  topLine <- clamp (topLine_ fv) 0 (to_int (Document.Size doc_ - 1)) ;;
  Ok (set_topLine topLine fv).

Definition OnEvent (fv : t) (e : Event.t) : M t :=
  fv <- dispatch fv e ;;
  clamp_view fv.

(** Note: this returns the canvas size in "pixels". *)
Definition CanvasSize : Z * Z :=
  (to_int (dimx term * xFactor_), to_int (dimy term * yFactor_)).

(** The loop of [Render] that highlights the matches of one line by
    overdrawing, over [(where, contentArea)]; [where + pattern_.size()] is
    taken without wrap-around, the sizes of strings being far below
    [2 ^ 63].  A match starts after the one before it, so the length of
    the line and one more is the budget. *)
Definition Render_highlights (fv : t) (line : string) (row : Z)
    (where_ : option nat) (contentArea : Canvas) : M Canvas :=
  '(_, contentArea) <-
    while (S (String.length line))
      (fun '(where_, _) =>
         match where_ with Some _ => true | None => false end)
      (fun '(where_, contentArea) =>
         match where_ with
         | Some w =>
             let x := to_int (to_int (to_int (Z.of_nat w) * xFactor_)
                              - to_int (leftEdge_ fv * xFactor_)) in
             Ok (str_find_from line (pattern_ fv)
                   (w + String.length (pattern_ fv)),
                 DrawText contentArea x (to_int (row * yFactor_))
                   (substring w (String.length (pattern_ fv)) line)
                   (Some Yellow1))
         | None => Ok (where_, contentArea)
         end)
      (where_, contentArea) ;;
  Ok contentArea.

(** The loop of [Render] over the lines from [it] to the end of the
    document ([rest]), with [row], [lineNumber] and the two canvases it
    draws on. *)
Fixpoint Render_lines (fv : t) (rest : list string) (row lineNumber : Z)
    (lineNumberArea contentArea : Canvas) : M (Canvas * Canvas) :=
  match rest with
  | [] => Ok (lineNumberArea, contentArea)
  | line :: rest' =>
      if row <? to_int (ViewHeight - 1) then
        let where_ :=
          if empty (pattern_ fv) then None else str_find line (pattern_ fv) in
        let found := match where_ with Some _ => true | None => false end in
        '(row, lineNumberArea, contentArea) <-
          (if negb (isFiltering_ fv) || empty (pattern_ fv) || found then
             (* Draw the line number. *)
             let colour := if found then Cyan1 else DarkCyan in
             let lineNumberArea :=
               DrawText lineNumberArea 0 (to_int (row * yFactor_))
                 (to_string lineNumber) (Some colour) in
             (* Draw this line's text. *)
             let contentArea :=
               DrawText contentArea (to_int (to_int (- leftEdge_ fv) * xFactor_))
                 (to_int (row * yFactor_)) line None in
             (* Highlight matches by overdrawing in a different colour. *)
             contentArea <- Render_highlights fv line row where_ contentArea ;;
             Ok (to_int (row + 1), lineNumberArea, contentArea)
           else Ok (row, lineNumberArea, contentArea)) ;;
        Render_lines fv rest' row (to_int (lineNumber + 1))
          lineNumberArea contentArea
      else Ok (lineNumberArea, contentArea)
  end.

Definition Render (fv : t) : M Element :=
  let marginWidth :=
    to_int ((if showLineNumbers_ fv then lineNumberMargin_ else 0) * xFactor_)
  in
  let '(canvasWidth, canvasHeight) := CanvasSize in
  let lineNumberArea :=
    mkCanvas marginWidth (to_int (canvasHeight - yFactor_)) [] in
  let contentArea :=
    mkCanvas (to_int (canvasWidth - marginWidth))
      (to_int (canvasHeight - yFactor_)) [] in
  let statusArea := mkCanvas canvasWidth yFactor_ [] in
  it <- advance (List.length (Document.lines_ doc_)) (topLine_ fv) ;;
  '(lineNumberArea, contentArea) <-
    Render_lines fv (skipn it (Document.lines_ doc_)) 0
      (to_int (topLine_ fv + 1)) lineNumberArea contentArea ;;
  (* Update the status area. *)
  let lineIndicator :=
    to_string (to_int (topLine_ fv + 1)) ++ "/"
    ++ to_string (Document.Size doc_) in
  let statusArea := DrawText statusArea 0 0 lineIndicator (Some Aquamarine1) in
  let statusArea :=
    if isCapturing_ fv
    then DrawText statusArea 30 0 "/" (Some DarkGoldenrod)
    else statusArea in
  let statusArea :=
    DrawText statusArea 32 0 (pattern_ fv) (Some DarkGoldenrod) in
  Ok (mkElement lineNumberArea contentArea statusArea).

End Commands.

End FileViewer.

Definition doc5 : list string := ["alpha"; "beta"; "alpha2"; "gamma"; "alpha3"].

(** ** The backward scan of the filtered page up, in the specification's words

    [n] times, move to the matching line that
    [findPreviousMatchingLine(line - 1, pattern)] finds; [None] when one
    of the steps finds none. *)
Fixpoint scan_back (lines : list string) (pattern : string) (n : nat)
    (line : Z) : option Z :=
  match n with
  | O => Some line
  | S n' =>
      match FindPreviousMatchingLine lines (line - 1) pattern with
      | Ok r => if r =? -1 then None else scan_back lines pattern n' r
      | Fault _ => None
      end
  end.

(** ** The dispatch table of [OnEvent]

    The special events that [OnEvent] tells apart, and the command each
    one runs; [dispatch_special] below shows that the chain of comparisons
    in [OnEvent] computes exactly this table. *)

Inductive key : Type :=
| K_Return | K_Escape | K_Backspace
| K_ArrowUp | K_ArrowDown | K_ArrowLeft | K_ArrowRight
| K_CtrlHome | K_CtrlEnd | K_PgUp | K_PgDown | K_Home | K_End
| K_CtrlL | K_CtrlT
| K_other.

Definition classify (e : Event.t) : key :=
  if Event.eqb e Event.Return then K_Return
  else if Event.eqb e Event.Escape then K_Escape
  else if Event.eqb e Event.Backspace then K_Backspace
  else if Event.eqb e Event.ArrowUp then K_ArrowUp
  else if Event.eqb e Event.ArrowDown then K_ArrowDown
  else if Event.eqb e Event.ArrowLeft then K_ArrowLeft
  else if Event.eqb e Event.ArrowRight then K_ArrowRight
  else if Event.eqb e keyevents.CtrlHome then K_CtrlHome
  else if Event.eqb e keyevents.CtrlEnd then K_CtrlEnd
  else if Event.eqb e keyevents.PgUp then K_PgUp
  else if Event.eqb e keyevents.PgDown then K_PgDown
  else if Event.eqb e keyevents.Home then K_Home
  else if Event.eqb e keyevents.End_ then K_End
  else if Event.eqb e keyevents.CtrlL then K_CtrlL
  else if Event.eqb e keyevents.CtrlT then K_CtrlT
  else K_other.

Definition run_key (doc : Document.t) (term : Dimensions) (fv : FileViewer.t)
    (k : key) : M FileViewer.t :=
  match k with
  | K_Return => Ok (FileViewer.CmdEndCapture fv)
  | K_Escape => Ok (FileViewer.CmdCancelCapture fv)
  | K_Backspace => FileViewer.CmdBackspaceCapture doc fv
  | K_ArrowUp =>
      if FileViewer.isFiltering_ fv && negb (empty (FileViewer.pattern_ fv))
      then FileViewer.CmdPreviousMatch doc fv
      else Ok (FileViewer.CmdPreviousLine fv)
  | K_ArrowDown =>
      if FileViewer.isFiltering_ fv && negb (empty (FileViewer.pattern_ fv))
      then FileViewer.CmdNextMatch doc fv
      else Ok (FileViewer.CmdNextLine fv)
  | K_ArrowLeft => Ok (FileViewer.CmdPreviousColumn fv)
  | K_ArrowRight => Ok (FileViewer.CmdNextColumn fv)
  | K_CtrlHome => Ok (FileViewer.CmdStartOfDocument fv)
  | K_CtrlEnd => Ok (FileViewer.CmdEndOfDocument doc term fv)
  | K_PgUp =>
      if negb (FileViewer.isFiltering_ fv)
      then Ok (FileViewer.CmdPreviousPage term fv)
      else FileViewer.CmdPreviousFilteredPage doc term fv
  | K_PgDown =>
      if negb (FileViewer.isFiltering_ fv)
      then Ok (FileViewer.CmdNextPage term fv)
      else FileViewer.CmdNextFilteredPage doc term fv
  | K_Home => Ok (FileViewer.CmdLeftmostColumn fv)
  | K_End => FileViewer.CmdRightmostColumn doc term fv
  | K_CtrlL => Ok (FileViewer.CmdToggleLineNumbers fv)
  | K_CtrlT => Ok (FileViewer.CmdToggleFiltering fv)
  | K_other => Ok fv
  end.

(** The keys that move the view. *)
Definition navigation (k : key) : bool :=
  match k with
  | K_ArrowUp | K_ArrowDown | K_ArrowLeft | K_ArrowRight
  | K_CtrlHome | K_CtrlEnd | K_PgUp | K_PgDown | K_Home | K_End => true
  | _ => false
  end.

(** ** The documents and the terminal of the scenarios *)

Definition d5 : Document.t := Document.mk doc5.

(** The document read from an empty or unreadable file. *)
Definition empty_document : Document.t := Document.mk [].

Definition t80x3 : Dimensions := mkDimensions 80 3.

(** The viewer after a sequence of events, one [OnEvent] each. *)
Fixpoint run (doc : Document.t) (term : Dimensions) (fv : FileViewer.t)
    (events : list Event.t) : M FileViewer.t :=
  match events with
  | [] => Ok fv
  | e :: events' =>
      fv' <- FileViewer.OnEvent doc term fv e ;; run doc term fv' events'
  end.

(** The events of the navigation keys. *)
Definition navigation_events : list Event.t :=
  [Event.ArrowUp; Event.ArrowDown; Event.ArrowLeft; Event.ArrowRight;
   keyevents.CtrlHome; keyevents.CtrlEnd; keyevents.PgUp; keyevents.PgDown;
   keyevents.Home; keyevents.End_].

(** ** Predicates of the statements *)

(** Line [k] of the document exists and contains the pattern. *)
Definition matches_at (lines : list string) (pattern : string) (k : Z) : bool :=
  (0 <=? k)
  && match nth_error lines (Z.to_nat k) with
     | Some l => contains pattern l
     | None => false
     end.

(** [locatePreviousMatch(locateNextMatch(i, p), p)] *)
Definition locate_round_trip (lines : list string) (i : Z) (p : string) : M Z :=
  j <- LocateNextMatch lines i p ;; LocatePreviousMatch lines j p.

(** Line [m] is the one line of the document that contains the pattern. *)
Definition unique_match (lines : list string) (p : string) (m : Z) : Prop :=
  matches_at lines p m = true
  /\ forall k, matches_at lines p k = true -> k = m.

(** The round trip as the specification states it: with a single
    matching line it returns to the line it started from. *)
Definition round_trip_is_identity : Prop :=
  forall (lines : list string) (p : string) (m i : Z),
    size lines <= INT_MAX ->
    1 < size lines ->
    unique_match lines p m ->
    0 <= i < size lines ->
    i <> m ->
    locate_round_trip lines i p = Ok i.

(** The viewer's first line is a line of the document. *)
Definition wf (doc : Document.t) (fv : FileViewer.t) : Prop :=
  0 <= FileViewer.topLine_ fv < size (Document.lines_ doc).

(** The filtered page up as the specification states it: with too few
    matches above, it leaves the first line where it is. *)
Definition page_up_keeps_topLine : Prop :=
  forall (doc : Document.t) (term : Dimensions) (fv fv' : FileViewer.t),
    1 <= size (Document.lines_ doc) <= INT_MAX ->
    1 <= dimx term <= INT_MAX ->
    1 <= dimy term <= INT_MAX ->
    wf doc fv ->
    FileViewer.isFiltering_ fv = true ->
    scan_back (Document.lines_ doc) (FileViewer.pattern_ fv)
      (Z.to_nat (dimy term - 1)) (FileViewer.topLine_ fv) = None ->
    FileViewer.OnEvent doc term fv keyevents.PgUp = Ok fv' ->
    FileViewer.topLine_ fv' = FileViewer.topLine_ fv.

(** The computation did not stop for lack of budget: what it returns is
    what the source returns. *)
Definition within_budget {A : Type} (m : M A) : Prop :=
  m <> Fault FuelExhausted.

(** The view is inside the document and the terminal: the first line is
    a line of the document and the left edge a column of the terminal. *)
Definition in_view (doc : Document.t) (term : Dimensions)
    (fv : FileViewer.t) : Prop :=
  0 <= FileViewer.topLine_ fv < size (Document.lines_ doc)
  /\ 0 <= FileViewer.leftEdge_ fv <= dimx term - 1.

(** The document has a line and the terminal a column, and both sizes fit
    an [int]. *)
Definition fits (doc : Document.t) (term : Dimensions) : Prop :=
  1 <= size (Document.lines_ doc) <= INT_MAX /\ 1 <= dimx term <= INT_MAX.

(** The events that the viewer [fv] has no command for: a special event
    outside the table; Return, Escape and Backspace when nothing is being
    captured, and Backspace on an empty pattern; a character other than
    [/], [n] and [p] when nothing is being captured. *)
Definition ignored (fv : FileViewer.t) (e : Event.t) : bool :=
  if Event.is_character e then
    negb (FileViewer.isCapturing_ fv)
    && negb (String.eqb (Event.character e) "/")
    && negb (String.eqb (Event.character e) "n")
    && negb (String.eqb (Event.character e) "p")
  else
    match classify e with
    | K_other => true
    | K_Return | K_Escape => negb (FileViewer.isCapturing_ fv)
    | K_Backspace =>
        negb (FileViewer.isCapturing_ fv)
        || Nat.eqb (String.length (FileViewer.pattern_ fv)) 0
    | _ => false
    end.

(** The forward scan of the filtered page down: [n] times, move to the
    matching line that [FindNextMatchingLine(line + 1, pattern)] finds;
    [None] when one of the steps finds none. *)
Fixpoint scan_forward (lines : list string) (pattern : string) (n : nat)
    (line : Z) : option Z :=
  match n with
  | O => Some line
  | S n' =>
      match FindNextMatchingLine lines (line + 1) pattern with
      | Ok r => if r =? -1 then None else scan_forward lines pattern n' r
      | Fault _ => None
      end
  end.

(** The lines the End key measures: the first [viewHeight] of the lines
    from the first line on that it counts, which are all lines when the
    viewer is not filtering, and the lines that contain the pattern, none
    when it is empty, when the viewer is filtering. *)
Definition counted (fv : FileViewer.t) (line : string) : bool :=
  negb (FileViewer.isFiltering_ fv)
  || (negb (empty (FileViewer.pattern_ fv))
      && contains (FileViewer.pattern_ fv) line).

Definition End_rows (lines : list string) (viewHeight : Z)
    (fv : FileViewer.t) : list string :=
  firstn (Z.to_nat viewHeight)
    (filter (counted fv) (skipn (Z.to_nat (FileViewer.topLine_ fv)) lines)).

(** The greatest length among [rows], 0 when there is none. *)
Definition longest (rows : list string) : Z :=
  fold_right (fun line m => Z.max (to_int (Z.of_nat (String.length line))) m)
    0 rows.

(** The lines written back to a file: each followed by a newline. *)
Fixpoint unlines (ls : list string) : string :=
  match ls with
  | [] => EmptyString
  | l :: ls' => (l ++ String "010" (unlines ls'))%string
  end.

(** The content of a file with its last line closed: a newline is added
    when the content is not empty and does not end with one. *)
Fixpoint terminated (content : string) : string :=
  match content with
  | EmptyString => EmptyString
  | String c EmptyString =>
      if Ascii.eqb c "010" then content else String c (String "010" "")
  | String c rest => String c (terminated rest)
  end.

Fixpoint has_newline (s : string) : bool :=
  match s with
  | EmptyString => false
  | String c rest => Ascii.eqb c "010" || has_newline rest
  end.

(** ** What [Render] shows

    A line is shown when the viewer is not filtering, or the pattern is
    empty, or the line contains the pattern. *)
Definition visible (fv : FileViewer.t) (line : string) : bool :=
  negb (FileViewer.isFiltering_ fv)
  || empty (FileViewer.pattern_ fv)
  || contains (FileViewer.pattern_ fv) line.

(** The lines of the document with their indices. *)
Definition numbered (lines : list string) : list (nat * string) :=
  combine (seq 0 (List.length lines)) lines.

(** The rows of the content area: the first [viewHeight - 1] shown lines
    from the first line on. *)
Definition shown_rows (lines : list string) (viewHeight : Z)
    (fv : FileViewer.t) : list (nat * string) :=
  firstn (Z.to_nat (viewHeight - 1))
    (filter (fun r => visible fv (snd r))
       (skipn (Z.to_nat (FileViewer.topLine_ fv)) (numbered lines))).

(** [f row r] for each row [r], the rows counted from [row]. *)
Fixpoint on_rows {A : Type} (f : Z -> nat * string -> A) (row : Z)
    (rows : list (nat * string)) : list A :=
  match rows with
  | [] => []
  | r :: rows' => f row r :: on_rows f (row + 1) rows'
  end.

(** The number drawn for the line [r] on row [row]: the index of the line
    and one, at the left of the row, [Cyan1] when the line contains the
    pattern (which is not empty) and [DarkCyan] otherwise. *)
Definition number_text (fv : FileViewer.t) (row : Z) (r : nat * string)
    : Text :=
  mkText 0 (to_int (row * FileViewer.yFactor_))
    (to_string (Z.of_nat (fst r) + 1))
    (Some (if negb (empty (FileViewer.pattern_ fv))
              && contains (FileViewer.pattern_ fv) (snd r)
           then Cyan1 else DarkCyan)).

(** The text drawn for the line [r] on row [row]: the whole line, moved
    left by the left edge. *)
Definition line_text (fv : FileViewer.t) (row : Z) (r : nat * string)
    : Text :=
  mkText (to_int (to_int (- FileViewer.leftEdge_ fv) * FileViewer.xFactor_))
    (to_int (row * FileViewer.yFactor_)) (snd r) None.

(** The highlight drawn for the match at position [w] on row [row]: the
    pattern, in [Yellow1], [w] columns right of the start of the line. *)
Definition highlight_text (fv : FileViewer.t) (row : Z) (w : nat) : Text :=
  mkText
    (to_int (to_int (to_int (Z.of_nat w) * FileViewer.xFactor_)
             - to_int (FileViewer.leftEdge_ fv * FileViewer.xFactor_)))
    (to_int (row * FileViewer.yFactor_)) (FileViewer.pattern_ fv)
    (Some Yellow1).


(** [ws] are the positions of the matches of [p] in [line] taken from
    the left, from position [from] on, each one at or after the end of
    the one before: [w] is the first position from [from] on where [p]
    occurs, the next one is searched from [w + length p], and after the
    last one [p] does not occur. *)
Fixpoint leftmost_matches (p line : string) (from : nat) (ws : list nat)
    : Prop :=
  match ws with
  | [] => forall q, (from <= q)%nat -> substring q (String.length p) line <> p
  | w :: ws' =>
      (from <= w)%nat
      /\ substring w (String.length p) line = p
      /\ (forall q, (from <= q < w)%nat ->
                    substring q (String.length p) line <> p)
      /\ leftmost_matches p line (w + String.length p) ws'
  end.

(** [texts] are the texts of the content area for [rows], the rows
    counted from [row]: row by row, the text of the line, then the
    highlights of the matches of the pattern in that line taken from the
    left, none when the pattern is empty. *)
Inductive content_rows (fv : FileViewer.t)
    : Z -> list (nat * string) -> list Text -> Prop :=
| content_rows_nil (row : Z) : content_rows fv row [] []
| content_rows_cons (row : Z) (r : nat * string) (rows : list (nat * string))
    (ws : list nat) (texts : list Text) :
    (if empty (FileViewer.pattern_ fv) then ws = []
     else leftmost_matches (FileViewer.pattern_ fv) (snd r) 0 ws) ->
    content_rows fv (row + 1) rows texts ->
    content_rows fv row (r :: rows)
      (line_text fv row r :: map (highlight_text fv row) ws ++ texts).

(** ** Sizes inside the [int] range

    Signed overflow is undefined in C++.  [bounded doc term] gives sizes
    under which no [int] computation of the commands, of [OnEvent] and of
    [Render] leaves the [int] range when the first line is a line of the
    document and the left edge a column of the terminal: the number of
    lines and the height of the terminal together fit an [int]
    ([topLine_ += ViewHeight() - 1], [++lineNumber]), so do the canvas
    sizes [x * xFactor_] and [y * yFactor_], and every line is short
    enough for the column [where * xFactor_] of a highlight and for the
    left edge [length - ViewWidth() + margin] of the End key. *)
Definition bounded (doc : Document.t) (term : Dimensions) : Prop :=
  size (Document.lines_ doc) + dimy term <= INT_MAX
  /\ (1 <= dimx term /\ dimx term * FileViewer.xFactor_ <= INT_MAX)
  /\ (1 <= dimy term /\ dimy term * FileViewer.yFactor_ <= INT_MAX)
  /\ Forall
       (fun line =>
          Z.of_nat (String.length line) * FileViewer.xFactor_
          + FileViewer.lineNumberMargin_ <= INT_MAX)
       (Document.lines_ doc).

(** ** What the navigation keys do

    [r] is the line the viewer moves to from [current] on the way down:
    the first line after [current] that contains the pattern, [current]
    itself when no line after it does. *)
Definition next_match (lines : list string) (p : string) (current r : Z)
    : Prop :=
  (r = current /\ forall k, current < k -> matches_at lines p k = false)
  \/ (current < r < size lines
      /\ matches_at lines p r = true
      /\ forall k, current < k < r -> matches_at lines p k = false).

(** [r] is the line the viewer moves to from [current] on the way up: the
    last line before [current] that contains the pattern; when no line
    before it does, the last line of the document that does; [current]
    itself when no line of the document does. *)
Definition previous_match (lines : list string) (p : string) (current r : Z)
    : Prop :=
  (0 <= r < current
   /\ matches_at lines p r = true
   /\ forall k, r < k < current -> matches_at lines p k = false)
  \/ (current <= r < size lines
      /\ matches_at lines p r = true
      /\ (forall k, k < current -> matches_at lines p k = false)
      /\ forall k, r < k -> matches_at lines p k = false)
  \/ (r = current /\ forall k, matches_at lines p k = false).

(** The left edge that shows the end of the longest line the End key
    measures: its length less the width of the terminal without the
    line-number margin, 0 when the line is not wider than that. *)
Definition End_edge (doc : Document.t) (term : Dimensions)
    (fv : FileViewer.t) : Z :=
  let margin :=
    if FileViewer.showLineNumbers_ fv then FileViewer.lineNumberMargin_ else 0
  in
  let length := longest (End_rows (Document.lines_ doc) (dimy term) fv) in
  if length >? dimx term - margin then length - dimx term + margin else 0.

(** [navigates doc term fv e fv'] is the table of the navigation keys:
    [fv'] is the viewer that the key [e] makes of the viewer [fv], whose
    first line is a line of the document and whose left edge is a column
    of the terminal.  The arrows up and down move by one line, or to the
    previous and next line that contains the pattern when the viewer is
    filtering on a pattern that is not empty; the arrows left and right
    move by one column; Home and End go to the first column and to the
    end of the longest line; Ctrl+Home and Ctrl+End go to the first line
    and to the last page; PageUp and PageDown move by the height of the
    content area, counted in lines that contain the pattern when the
    viewer is filtering.  Each move stops at the ends of the document and
    of the terminal. *)
Inductive navigates (doc : Document.t) (term : Dimensions)
    (fv : FileViewer.t) : Event.t -> FileViewer.t -> Prop :=
| navigates_ArrowDown :
    FileViewer.isFiltering_ fv = false \/ FileViewer.pattern_ fv = "" ->
    navigates doc term fv Event.ArrowDown
      (FileViewer.set_topLine
         (Z.min (FileViewer.topLine_ fv + 1) (size (Document.lines_ doc) - 1))
         fv)
| navigates_ArrowDown_filtering (r : Z) :
    FileViewer.isFiltering_ fv = true ->
    empty (FileViewer.pattern_ fv) = false ->
    next_match (Document.lines_ doc) (FileViewer.pattern_ fv)
      (FileViewer.topLine_ fv) r ->
    navigates doc term fv Event.ArrowDown (FileViewer.set_topLine r fv)
| navigates_ArrowUp :
    FileViewer.isFiltering_ fv = false \/ FileViewer.pattern_ fv = "" ->
    navigates doc term fv Event.ArrowUp
      (FileViewer.set_topLine (Z.max (FileViewer.topLine_ fv - 1) 0) fv)
| navigates_ArrowUp_filtering (r : Z) :
    FileViewer.isFiltering_ fv = true ->
    empty (FileViewer.pattern_ fv) = false ->
    previous_match (Document.lines_ doc) (FileViewer.pattern_ fv)
      (FileViewer.topLine_ fv) r ->
    navigates doc term fv Event.ArrowUp (FileViewer.set_topLine r fv)
| navigates_ArrowRight :
    navigates doc term fv Event.ArrowRight
      (FileViewer.set_leftEdge
         (Z.min (FileViewer.leftEdge_ fv + 1) (dimx term - 1)) fv)
| navigates_ArrowLeft :
    navigates doc term fv Event.ArrowLeft
      (FileViewer.set_leftEdge (Z.max (FileViewer.leftEdge_ fv - 1) 0) fv)
| navigates_Home :
    navigates doc term fv keyevents.Home (FileViewer.set_leftEdge 0 fv)
| navigates_End :
    navigates doc term fv keyevents.End_
      (FileViewer.set_leftEdge
         (Z.min (End_edge doc term fv) (dimx term - 1)) fv)
| navigates_CtrlHome :
    navigates doc term fv keyevents.CtrlHome (FileViewer.set_topLine 0 fv)
| navigates_CtrlEnd :
    navigates doc term fv keyevents.CtrlEnd
      (FileViewer.set_topLine
         (Z.max 0
            (Z.min (size (Document.lines_ doc) - (dimy term - 1))
               (size (Document.lines_ doc) - 1)))
         fv)
| navigates_PgDown :
    FileViewer.isFiltering_ fv = false ->
    navigates doc term fv keyevents.PgDown
      (FileViewer.set_topLine
         (Z.min (FileViewer.topLine_ fv + (dimy term - 1))
            (size (Document.lines_ doc) - 1))
         fv)
| navigates_PgDown_filtering :
    FileViewer.isFiltering_ fv = true ->
    navigates doc term fv keyevents.PgDown
      (match scan_forward (Document.lines_ doc) (FileViewer.pattern_ fv)
               (Z.to_nat (dimy term - 1)) (FileViewer.topLine_ fv)
       with
       | Some l => FileViewer.set_topLine l fv
       | None => fv
       end)
| navigates_PgUp :
    FileViewer.isFiltering_ fv = false ->
    navigates doc term fv keyevents.PgUp
      (FileViewer.set_topLine
         (Z.max (FileViewer.topLine_ fv - (dimy term - 1)) 0) fv)
| navigates_PgUp_filtering :
    FileViewer.isFiltering_ fv = true ->
    navigates doc term fv keyevents.PgUp
      (FileViewer.set_topLine
         (match scan_back (Document.lines_ doc) (FileViewer.pattern_ fv)
                  (Z.to_nat (dimy term - 1)) (FileViewer.topLine_ fv)
          with
          | Some l => l
          | None => 0
          end)
         fv).

(** * Properties *)

Arguments to_int : simpl never.
Arguments to_size_t : simpl never.
Arguments to_ptrdiff : simpl never.
Arguments clamp : simpl never.
Arguments FindPreviousMatchingLine : simpl never.
Arguments FindNextMatchingLine : simpl never.
Arguments LocatePreviousMatch : simpl never.
Arguments LocateNextMatch : simpl never.
Arguments Document.at_ : simpl never.
Arguments Document.Size : simpl never.

(** ** Integers *)

Lemma to_int_id (z : Z) : is_int z -> to_int z = z.
Proof.
  unfold is_int, INT_MIN, INT_MAX, to_int. intros H.
  rewrite Z.mod_small; lia.
Qed.

Lemma to_int_range (z : Z) : is_int (to_int z).
Proof.
  unfold is_int, INT_MIN, INT_MAX, to_int.
  pose proof (Z.mod_pos_bound (z + 2 ^ 31) (2 ^ 32)). lia.
Qed.

Lemma to_size_t_id (z : Z) : 0 <= z < 2 ^ 64 -> to_size_t z = z.
Proof. unfold to_size_t. intros H. apply Z.mod_small; lia. Qed.

Lemma to_size_t_neg (z : Z) : - 2 ^ 64 <= z < 0 -> to_size_t z = z + 2 ^ 64.
Proof.
  unfold to_size_t. intros H.
  rewrite <- (Z.mod_small (z + 2 ^ 64) (2 ^ 64)) by lia.
  rewrite <- Z.add_mod_idemp_r by lia.
  rewrite Z.mod_same by lia. f_equal. lia.
Qed.

Lemma to_size_t_bound (z : Z) : 0 <= to_size_t z < 2 ^ 64.
Proof. unfold to_size_t. apply Z.mod_pos_bound. lia. Qed.

Lemma to_ptrdiff_id (z : Z) : - 2 ^ 63 <= z < 2 ^ 63 -> to_ptrdiff z = z.
Proof.
  unfold to_ptrdiff. intros H. rewrite Z.mod_small; lia.
Qed.

Lemma bind_ret_r {A : Type} (m : M A) : bind m Ok = m.
Proof. destruct m; reflexivity. Qed.

(** ** Loops

    A loop whose body keeps an invariant and lowers a measure runs to its
    end within a budget of that measure, and ends with the invariant and
    with its condition false. *)

Section While.

Context {S : Type}.
Variable cond : S -> bool.
Variable body : S -> M S.
Variable inv : S -> Prop.
Variable measure : S -> nat.

Hypothesis step :
  forall s, inv s -> cond s = true ->
    exists s', body s = Ok s' /\ inv s' /\ (measure s' < measure s)%nat.

Lemma while_inv (fuel : nat) :
  forall s, inv s -> (measure s <= fuel)%nat ->
    exists r, while fuel cond body s = Ok r /\ inv r /\ cond r = false.
Proof.
  induction fuel as [|fuel IH]; intros s Hs Hm; simpl;
    destruct (cond s) eqn:E.
  - destruct (step s Hs E) as (s' & _ & _ & Hlt). lia.
  - exists s. auto.
  - destruct (step s Hs E) as (s' & -> & Hs' & Hlt). simpl.
    apply IH; [assumption | lia].
  - exists s. auto.
Qed.

End While.

(** The same for a body that may fault: the loop does not stop for lack of
    budget. *)

Section WhileBudget.

Context {S : Type}.
Variable cond : S -> bool.
Variable body : S -> M S.
Variable inv : S -> Prop.
Variable measure : S -> nat.

Hypothesis step :
  forall s, inv s -> cond s = true ->
    match body s with
    | Ok s' => inv s' /\ (measure s' < measure s)%nat
    | Fault f => f <> FuelExhausted /\ (0 < measure s)%nat
    end.

Lemma while_within_budget (fuel : nat) :
  forall s, inv s -> (measure s <= fuel)%nat ->
    within_budget (while fuel cond body s).
Proof.
  unfold within_budget.
  induction fuel as [|fuel IH]; intros s Hs Hm; simpl;
    destruct (cond s) eqn:E; try discriminate;
    specialize (step s Hs E); destruct (body s) as [s'|f]; simpl.
  - lia.
  - lia.
  - apply IH; [tauto | lia].
  - intros [= ->]. tauto.
Qed.

End WhileBudget.

Lemma within_budget_bind {A B : Type} (m : M A) (k : A -> M B) :
  within_budget m ->
  (forall a, m = Ok a -> within_budget (k a)) ->
  within_budget (bind m k).
Proof.
  unfold within_budget. destruct m as [a|f]; simpl; intros Hm Hk.
  - apply Hk. reflexivity.
  - intros [= ->]. apply Hm. reflexivity.
Qed.

Lemma within_budget_Ok {A : Type} (a : A) : within_budget (Ok a).
Proof. discriminate. Qed.

(** ** [std::find_if] *)

Section FindIf.

Context {A : Type} (pred : A -> bool).

Lemma find_if_from_bounds (l : list A) (pos : nat) :
  (pos <= find_if_from pred l pos <= pos + List.length l)%nat.
Proof.
  revert pos. induction l as [|x l IH]; intros pos; simpl.
  - lia.
  - destruct (pred x); [lia|]. specialize (IH (S pos)). lia.
Qed.

Lemma find_if_from_before (l : list A) (pos j : nat) :
  (pos + j < find_if_from pred l pos)%nat ->
  exists x, nth_error l j = Some x /\ pred x = false.
Proof.
  revert pos j. induction l as [|x l IH]; intros pos j; simpl.
  - lia.
  - destruct (pred x) eqn:E; [lia|]. intros H. destruct j as [|j].
    + exists x. split; [reflexivity | exact E].
    + simpl. apply (IH (S pos)). lia.
Qed.

Lemma find_if_from_found (l : list A) (pos : nat) :
  (find_if_from pred l pos < pos + List.length l)%nat ->
  exists x, nth_error l (find_if_from pred l pos - pos) = Some x
            /\ pred x = true.
Proof.
  revert pos. induction l as [|x l IH]; intros pos; simpl.
  - lia.
  - destruct (pred x) eqn:E.
    + intros _. rewrite Nat.sub_diag. exists x. split; [reflexivity | exact E].
    + intros H. pose proof (find_if_from_bounds l (S pos)) as B.
      destruct (IH (S pos)) as (y & Hy & Py); [lia|].
      exists y. split; [|exact Py].
      replace (find_if_from pred l (S pos) - pos)%nat
        with (S (find_if_from pred l (S pos) - S pos)) by lia.
      exact Hy.
Qed.

Variable l : list A.
Variable first : nat.
Hypothesis first_in_range : (first <= List.length l)%nat.

Lemma find_if_bounds : (first <= find_if pred l first <= List.length l)%nat.
Proof.
  unfold find_if.
  pose proof (find_if_from_bounds (skipn first l) first) as B.
  rewrite length_skipn in B. lia.
Qed.

Lemma find_if_before (j : nat) :
  (first <= j < find_if pred l first)%nat ->
  exists x, nth_error l j = Some x /\ pred x = false.
Proof.
  unfold find_if. intros H.
  destruct (find_if_from_before (skipn first l) first (j - first))
    as (x & Hx & Px).
  - lia.
  - exists x. split; [|exact Px].
    rewrite nth_error_skipn in Hx.
    replace (first + (j - first))%nat with j in Hx by lia. exact Hx.
Qed.

Lemma find_if_found :
  (find_if pred l first < List.length l)%nat ->
  exists x, nth_error l (find_if pred l first) = Some x /\ pred x = true.
Proof.
  pose proof find_if_bounds as B. unfold find_if in *. intros H.
  destruct (find_if_from_found (skipn first l) first) as (x & Hx & Px).
  - rewrite length_skipn. lia.
  - exists x. split; [|exact Px].
    rewrite nth_error_skipn in Hx.
    replace (first + (find_if_from pred (skipn first l) first - first))%nat
      with (find_if_from pred (skipn first l) first) in Hx by lia.
    exact Hx.
Qed.

End FindIf.

(** ** The two scans *)

Lemma matches_at_outside (lines : list string) (p : string) (k : Z) :
  k < 0 \/ size lines <= k -> matches_at lines p k = false.
Proof.
  unfold matches_at, size. intros [H|H].
  - destruct (Z.leb_spec 0 k); [lia | reflexivity].
  - destruct (Z.leb_spec 0 k); [|reflexivity]. simpl.
    destruct (nth_error lines (Z.to_nat k)) eqn:E; [|reflexivity].
    assert (Z.to_nat k < List.length lines)%nat
      by (apply nth_error_Some; congruence).
    lia.
Qed.

Section Scans.

Variable lines : list string.
Variable pattern : string.
Hypothesis size_is_int : size lines <= INT_MAX.

(** The forward scan never runs from [-1]: as a [size_t], [-1] is the
    largest value, so the test for "no next line" succeeds. *)
Lemma FindNextMatchingLine_minus_one :
  FindNextMatchingLine lines (-1) pattern = Ok (-1).
Proof.
  unfold FindNextMatchingLine.
  pose proof (to_size_t_bound (size lines - 1)) as B.
  rewrite (to_size_t_neg (-1)) by lia.
  destruct (Z.geb_spec (-1 + 2 ^ 64) (to_size_t (size lines - 1))) as [_|H];
    [reflexivity | lia].
Qed.

Lemma FindNextMatchingLine_spec (current : Z) :
  1 <= size lines -> is_int current ->
  exists r,
    FindNextMatchingLine lines current pattern = Ok r
    /\ ((r = -1
         /\ (0 <= current ->
             forall k, current < k -> matches_at lines pattern k = false))
        \/ (0 <= current < r /\ r < size lines
            /\ matches_at lines pattern r = true
            /\ forall k, current < k < r ->
                         matches_at lines pattern k = false)).
Proof.
  intros Hsz Hcur. unfold FindNextMatchingLine.
  unfold is_int, INT_MIN, INT_MAX in *.
  rewrite (to_size_t_id (size lines - 1)) by lia.
  destruct (Z.lt_ge_cases current 0) as [Hneg|Hpos].
  - rewrite to_size_t_neg by lia.
    destruct (Z.geb_spec (current + 2 ^ 64) (size lines - 1)); [|lia].
    exists (-1). split; [reflexivity|]. left. split; [reflexivity | lia].
  - rewrite to_size_t_id by lia.
    destruct (Z.geb_spec current (size lines - 1)) as [Hge|Hlt].
    + exists (-1). split; [reflexivity|]. left. split; [reflexivity|].
      intros _ k Hk. apply matches_at_outside. lia.
    + rewrite to_int_id by (unfold is_int, INT_MIN, INT_MAX; lia).
      unfold advance, size in *.
      destruct (Z.leb_spec 0 (current + 1)); [|lia].
      destruct (Z.leb_spec (current + 1) (Z.of_nat (List.length lines)));
        [|lia].
      simpl.
      set (first := Z.to_nat (current + 1)).
      assert (Hfirst : (first <= List.length lines)%nat) by lia.
      pose proof (find_if_bounds (contains pattern) lines first Hfirst) as B.
      pose proof (find_if_before (contains pattern) lines first Hfirst) as Hb.
      pose proof (find_if_found (contains pattern) lines first Hfirst) as Hf.
      set (it := find_if (contains pattern) lines first) in *.
      destruct (Nat.eqb_spec it (List.length lines)) as [Heq|Hne]; simpl.
      * exists (-1). split; [reflexivity|]. left. split; [reflexivity|].
        intros _ k Hk.
        destruct (Z.lt_ge_cases k (Z.of_nat (List.length lines)));
          [|apply matches_at_outside; unfold size; lia].
        destruct (Hb (Z.to_nat k)) as (x & Hx & Px); [lia|].
        unfold matches_at. rewrite Hx, Px. apply andb_false_r.
      * exists (Z.of_nat it).
        rewrite to_int_id by (unfold is_int, INT_MIN, INT_MAX; lia).
        split; [reflexivity|]. right.
        destruct Hf as (x & Hx & Px); [lia|].
        repeat split; try lia.
        -- unfold matches_at. rewrite Nat2Z.id, Hx, Px.
           destruct (Z.leb_spec 0 (Z.of_nat it)); [reflexivity | lia].
        -- intros k Hk.
           destruct (Hb (Z.to_nat k)) as (y & Hy & Py); [lia|].
           unfold matches_at. rewrite Hy, Py. apply andb_false_r.
Qed.

Lemma FindPreviousMatchingLine_spec (current : Z) :
  is_int current -> current <= size lines ->
  exists r,
    FindPreviousMatchingLine lines current pattern = Ok r
    /\ ((r = -1
         /\ forall k, k < current -> matches_at lines pattern k = false)
        \/ (0 <= r < current
            /\ matches_at lines pattern r = true
            /\ forall k, r < k < current ->
                         matches_at lines pattern k = false)).
Proof.
  intros Hcur Hle. unfold FindPreviousMatchingLine.
  unfold is_int, INT_MIN, INT_MAX in *.
  destruct (Z.ltb_spec current 1) as [Hlt|Hge].
  - exists (-1). split; [reflexivity|]. left. split; [reflexivity|].
    intros k Hk. apply matches_at_outside. lia.
  - rewrite (to_int_id (current - 1))
      by (unfold is_int, INT_MIN, INT_MAX; lia).
    rewrite (to_size_t_id (size lines - 1)) by lia.
    rewrite (to_size_t_id (current - 1)) by lia.
    rewrite to_size_t_id by lia.
    rewrite to_ptrdiff_id by lia.
    unfold advance, size in *.
    destruct (Z.leb_spec 0 (Z.of_nat (List.length lines) - 1 - (current - 1)));
      [|lia].
    destruct (Z.leb_spec (Z.of_nat (List.length lines) - 1 - (current - 1))
                         (Z.of_nat (List.length lines))); [|lia].
    simpl.
    set (first := Z.to_nat (Z.of_nat (List.length lines) - 1 - (current - 1))).
    assert (Hfirst : (first <= List.length (rev lines))%nat)
      by (rewrite length_rev; lia).
    pose proof (find_if_bounds (contains pattern) _ first Hfirst) as B.
    pose proof (find_if_before (contains pattern) _ first Hfirst) as Hb.
    pose proof (find_if_found (contains pattern) _ first Hfirst) as Hf.
    set (it := find_if (contains pattern) (rev lines) first) in *.
    rewrite length_rev in B, Hf.
    assert (Hrev : forall j, (j < List.length lines)%nat ->
              nth_error (rev lines) j
              = nth_error lines (List.length lines - S j)).
    { intros j Hj. rewrite nth_error_rev.
      destruct (Nat.ltb_spec j (List.length lines)); [reflexivity | lia]. }
    destruct (Nat.eqb_spec it (List.length lines)) as [Heq|Hne]; simpl.
    + exists (-1). split; [reflexivity|]. left. split; [reflexivity|].
      intros k Hk.
      destruct (Z.lt_ge_cases k 0); [apply matches_at_outside; lia|].
      destruct (Hb (List.length lines - S (Z.to_nat k))%nat)
        as (x & Hx & Px); [lia|].
      rewrite Hrev in Hx by lia.
      replace (List.length lines - S (List.length lines - S (Z.to_nat k)))%nat
        with (Z.to_nat k) in Hx by lia.
      unfold matches_at. rewrite Hx, Px. apply andb_false_r.
    + exists (Z.of_nat (List.length lines - it) - 1).
      rewrite (to_int_id (Z.of_nat _))
        by (unfold is_int, INT_MIN, INT_MAX; lia).
      rewrite to_int_id by (unfold is_int, INT_MIN, INT_MAX; lia).
      split; [reflexivity|]. right.
      destruct Hf as (x & Hx & Px); [lia|].
      rewrite Hrev in Hx by lia.
      repeat split; try lia.
      * unfold matches_at.
        replace (Z.to_nat (Z.of_nat (List.length lines - it) - 1))
          with (List.length lines - S it)%nat by lia.
        rewrite Hx, Px.
        destruct (Z.leb_spec 0 (Z.of_nat (List.length lines - it) - 1));
          [reflexivity | lia].
      * intros k Hk.
        destruct (Hb (List.length lines - S (Z.to_nat k))%nat)
          as (y & Hy & Py); [lia|].
        rewrite Hrev in Hy by lia.
        replace (List.length lines - S (List.length lines - S (Z.to_nat k)))%nat
          with (Z.to_nat k) in Hy by lia.
        unfold matches_at. rewrite Hy, Py. apply andb_false_r.
Qed.

End Scans.

(** ** Wrap-around searches *)

Lemma contains_empty (l : string) : contains "" l = true.
Proof. unfold contains, str_find. destruct l; reflexivity. Qed.

Lemma unique_match_range (lines : list string) (p : string) (m : Z) :
  unique_match lines p m -> 0 <= m < size lines.
Proof.
  intros [Hm _].
  destruct (Z.lt_ge_cases m 0) as [H|H];
    [rewrite matches_at_outside in Hm by lia; discriminate|].
  destruct (Z.lt_ge_cases m (size lines)) as [H'|H'];
    [lia | rewrite matches_at_outside in Hm by lia; discriminate].
Qed.

Section UniqueMatch.

Variable lines : list string.
Variable p : string.
Variable m : Z.
Hypothesis size_is_int : size lines <= INT_MAX.
Hypothesis p_not_empty : empty p = false.
Hypothesis m_unique : unique_match lines p m.

Lemma LocateNextMatch_unique (i : Z) :
  0 <= i < size lines ->
  LocateNextMatch lines i p = Ok (if i <? m then m else i).
Proof.
  intros Hi. unfold LocateNextMatch. rewrite p_not_empty. simpl.
  pose proof (unique_match_range _ _ _ m_unique) as Hm.
  destruct m_unique as [Hmm Huniq].
  destruct (FindNextMatchingLine_spec lines p size_is_int i)
    as (r & -> & [[-> Hnone] | (Hr1 & Hr2 & Hr3 & _)]).
  - lia.
  - unfold is_int, INT_MIN, INT_MAX in *. lia.
  - simpl. rewrite FindNextMatchingLine_minus_one. simpl.
    destruct (Z.ltb_spec i m) as [Hlt|Hge]; [|reflexivity].
    rewrite (Hnone ltac:(lia) m Hlt) in Hmm. discriminate.
  - apply Huniq in Hr3. subst r. simpl.
    destruct (Z.eqb_spec m (-1)); [lia|]. simpl.
    destruct (Z.eqb_spec m (-1)); [lia|]. simpl.
    destruct (Z.ltb_spec i m); [reflexivity | lia].
Qed.

Lemma LocatePreviousMatch_unique (j : Z) :
  is_int j -> j <= size lines ->
  LocatePreviousMatch lines j p = Ok m.
Proof.
  intros Hj Hle. unfold LocatePreviousMatch. rewrite p_not_empty. simpl.
  pose proof (unique_match_range _ _ _ m_unique) as Hm.
  destruct m_unique as [Hmm Huniq].
  destruct (FindPreviousMatchingLine_spec lines p size_is_int j Hj Hle)
    as (r & -> & [[-> Hnone] | (Hr1 & Hr2 & _)]).
  - simpl.
    assert (Hsz : is_int (size lines))
      by (unfold is_int, INT_MIN, INT_MAX, size in *; lia).
    rewrite (to_int_id _ Hsz).
    destruct (FindPreviousMatchingLine_spec lines p size_is_int (size lines)
                Hsz (Z.le_refl _))
      as (r & -> & [[-> Hnone'] | (Hr1 & Hr2 & _)]).
    + rewrite (Hnone' m) in Hmm by lia. discriminate.
    + apply Huniq in Hr2. subst r. simpl.
      destruct (Z.eqb_spec m (-1)); [lia | reflexivity].
  - apply Huniq in Hr2. subst r. simpl.
    destruct (Z.eqb_spec m (-1)); [lia|]. simpl.
    destruct (Z.eqb_spec m (-1)); [lia | reflexivity].
Qed.

End UniqueMatch.

(** C1. On the five-line document the wrap of [LocateNextMatch] does not
    happen: from line 4 the search for "alpha" stays on line 4 although
    line 0 contains the pattern, and on a document whose only match lies
    before [current] the result is a line without the pattern. *)
Theorem C1_LocateNextMatch_does_not_wrap :
  LocateNextMatch doc5 4 "alpha" = Ok 4
  /\ matches_at doc5 "alpha" 0 = true
  /\ LocateNextMatch ["alpha"; "beta"] 1 "alpha" = Ok 1
  /\ matches_at ["alpha"; "beta"] "alpha" 1 = false.
Proof. repeat split; reflexivity. Qed.

(** The same for every document: when nothing matches after [current],
    [LocateNextMatch] returns [current], whatever the lines before it hold. *)
Lemma LocateNextMatch_never_wraps (lines : list string) (current : Z)
    (p : string) :
  FindNextMatchingLine lines current p = Ok (-1) ->
  LocateNextMatch lines current p = Ok current.
Proof.
  intros H. unfold LocateNextMatch. destruct (empty p); [reflexivity|].
  simpl. rewrite H. simpl. rewrite FindNextMatchingLine_minus_one.
  reflexivity.
Qed.

(** C7. With the empty pattern both locate operations return the index
    they were given, on every document and for every index. *)
Theorem C7_locate_empty_pattern_identity (lines : list string) (i : Z) :
  LocateNextMatch lines i "" = Ok i
  /\ LocatePreviousMatch lines i "" = Ok i.
Proof. split; reflexivity. Qed.

Lemma unique_match_abc : unique_match ["a"; "b"; "c"] "b" 1.
Proof.
  split; [reflexivity|]. intros k Hk.
  destruct (Z.lt_ge_cases k 0) as [H|H];
    [rewrite matches_at_outside in Hk by lia; discriminate|].
  destruct (Z.lt_ge_cases k 3) as [H'|H'];
    [|rewrite matches_at_outside in Hk by (unfold size; simpl; lia);
      discriminate].
  assert (Hc : k = 0 \/ k = 1 \/ k = 2) by lia.
  destruct Hc as [-> | [-> | ->]];
    [vm_compute in Hk; discriminate | reflexivity
     | vm_compute in Hk; discriminate].
Qed.

(** C8, as stated, fails: on ["a"; "b"; "c"] with pattern "b" the round
    trip from line 0 ends on line 1. *)
Lemma C8_round_trip_counterexample : ~ round_trip_is_identity.
Proof.
  intros H.
  specialize (H ["a"; "b"; "c"] "b" 1 0).
  assert (E : locate_round_trip ["a"; "b"; "c"] 0 "b" = Ok 1) by reflexivity.
  rewrite E in H.
  assert (Ok 1 = Ok 0 :> M Z) as Habs.
  { apply H.
    - vm_compute. discriminate.
    - reflexivity.
    - exact unique_match_abc.
    - unfold size. simpl. lia.
    - lia. }
  discriminate Habs.
Qed.

(** C8, amended. When exactly one line [m] contains the pattern, the
    round trip from every line [i] of the document ends on [m]. *)
Theorem C8_round_trip_lands_on_unique_match
    (lines : list string) (p : string) (m i : Z) :
  size lines <= INT_MAX ->
  unique_match lines p m ->
  0 <= i < size lines ->
  locate_round_trip lines i p = Ok m.
Proof.
  intros Hsz Hu Hi. unfold locate_round_trip.
  destruct (empty p) eqn:Ep.
  - destruct p; [|discriminate]. simpl.
    destruct Hu as [_ Huniq]. change (Ok i = Ok m :> M Z). f_equal.
    apply Huniq. unfold matches_at.
    destruct (Z.leb_spec 0 i); [|lia]. simpl.
    destruct (nth_error lines (Z.to_nat i)) eqn:E.
    + apply contains_empty.
    + apply nth_error_None in E. unfold size in Hi. lia.
  - rewrite (LocateNextMatch_unique lines p m Hsz Ep Hu i Hi). simpl.
    pose proof (unique_match_range _ _ _ Hu) as Hm.
    apply (LocatePreviousMatch_unique lines p m Hsz Ep Hu).
    + unfold is_int, INT_MIN, INT_MAX in *. destruct (i <? m); lia.
    + destruct (i <? m); lia.
Qed.

Lemma C8_round_trip_witness :
  unique_match ["a"; "b"; "c"] "b" 1
  /\ locate_round_trip ["a"; "b"; "c"] 0 "b" = Ok 1.
Proof.
  split; [exact unique_match_abc|].
  apply (C8_round_trip_lands_on_unique_match ["a"; "b"; "c"] "b" 1 0).
  - vm_compute. discriminate.
  - exact unique_match_abc.
  - unfold size. simpl. lia.
Defined.

(** ** The viewer *)

Lemma clamp_ok (v lo hi : Z) :
  lo <= hi ->
  exists r, clamp v lo hi = Ok r
            /\ lo <= r <= hi
            /\ (lo <= v <= hi -> r = v)
            /\ (v < lo -> r = lo).
Proof.
  intros H. unfold clamp.
  destruct (Z.ltb_spec hi lo); [lia|].
  eexists. split; [reflexivity|].
  destruct (Z.ltb_spec v lo); destruct (Z.ltb_spec hi v); lia.
Qed.

Lemma clamp_bad_bounds (v lo hi : Z) :
  hi < lo -> clamp v lo hi = Fault ClampBounds.
Proof.
  intros H. unfold clamp. destruct (Z.ltb_spec hi lo); [reflexivity | lia].
Qed.

(** The chain of comparisons in [OnEvent] is the dispatch table. *)
Lemma dispatch_special (doc : Document.t) (term : Dimensions)
    (fv : FileViewer.t) (e : Event.t) :
  Event.is_character e = false ->
  FileViewer.dispatch doc term fv e = run_key doc term fv (classify e).
Proof.
  destruct e as [ic inp]. simpl. intros ->.
  unfold FileViewer.dispatch, classify, Event.eqb.
  cbn [Event.is_character Event.input].
  repeat match goal with
         | |- context [String.eqb inp ?s] =>
             destruct (String.eqb_spec inp s) as [->|?];
             [first [reflexivity | apply bind_ret_r]|]
         end.
  reflexivity.
Qed.

Section Viewer.

Import FileViewer.

Variable doc : Document.t.
Variable term : Dimensions.

Local Abbreviation lines := (Document.lines_ doc).

Hypothesis doc_not_empty : 1 <= size lines.
Hypothesis size_is_int : size lines <= INT_MAX.
Hypothesis width_positive : 1 <= dimx term <= INT_MAX.

Lemma Size_eq : Document.Size doc = size lines.
Proof.
  unfold Document.Size. apply to_int_id.
  unfold is_int, INT_MIN, INT_MAX in *. lia.
Qed.

Lemma clamp_view_ok (fv : t) :
  exists l tl,
    clamp_view doc term fv = Ok (set_topLine tl (set_leftEdge l fv))
    /\ 0 <= l <= dimx term - 1
    /\ 0 <= tl <= size lines - 1
    /\ (0 <= topLine_ fv <= size lines - 1 -> tl = topLine_ fv)
    /\ (topLine_ fv < 0 -> tl = 0).
Proof.
  unfold clamp_view, ViewWidth. rewrite Size_eq.
  unfold INT_MAX in *.
  rewrite (to_int_id (dimx term - 1))
    by (unfold is_int, INT_MIN, INT_MAX; lia).
  rewrite (to_int_id (size lines - 1))
    by (unfold is_int, INT_MIN, INT_MAX; lia).
  destruct (clamp_ok (leftEdge_ fv) 0 (dimx term - 1)) as (l & -> & Hl & _);
    [lia|].
  simpl.
  destruct (clamp_ok (topLine_ fv) 0 (size lines - 1))
    as (tl & -> & Ht & Hid & Hlo); [lia|].
  simpl. exists l, tl. repeat split; try lia; assumption.
Qed.

(** *** The loops *)

Lemma at_ok (line : Z) :
  0 <= line < size lines -> exists l, Document.at_ doc line = Ok l.
Proof.
  intros H. unfold Document.at_.
  unfold INT_MAX in *.
  rewrite to_size_t_id by lia.
  destruct (Z.ltb_spec line (size lines)); [|lia].
  destruct (nth_error lines (Z.to_nat line)) eqn:E; [eauto|].
  apply nth_error_None in E. unfold size in *. lia.
Qed.

Lemma RightmostColumn_loop_total (isFiltering : bool) (pattern : string)
    (line numLines length : Z) :
  0 <= line ->
  exists r,
    RightmostColumn_loop doc isFiltering pattern line numLines length = Ok r.
Proof.
  intros Hline. unfold RightmostColumn_loop. rewrite Size_eq.
  match goal with
  | |- context [while ?ff ?cc ?bb ?ss] =>
      destruct (while_inv cc bb
        (fun '(line, _, _) => 0 <= line)
        (fun '(line, _, _) => Z.to_nat (size lines - line)))
        with (fuel := ff) (s := ss) as (r & Hr & _)
  end.
  - intros [[ln n] len] Hln Hcond.
    apply andb_prop in Hcond. destruct Hcond as [_ Hlt].
    apply Z.ltb_lt in Hlt. cbv beta iota.
    destruct (at_ok ln) as (l & Hl); [lia|]. rewrite Hl.
    assert (Hnext : to_int (ln + 1) = ln + 1)
      by (apply to_int_id; unfold is_int, INT_MIN, INT_MAX in *; lia).
    rewrite Hnext.
    destruct (negb isFiltering); simpl;
      [eexists; split; [reflexivity | split; lia]|].
    destruct (negb (empty pattern)); simpl;
      [destruct (contains pattern l); simpl|];
      eexists; (split; [reflexivity | split; lia]).
  - exact Hline.
  - lia.
  - eauto.
Qed.

Lemma PreviousFilteredPage_loop_spec (pattern : string) (viewHeight top : Z) :
  0 <= top < size lines ->
  exists line hits,
    PreviousFilteredPage_loop doc pattern viewHeight top 0 = Ok (line, hits)
    /\ (0 <= to_int (viewHeight - 1) ->
        match scan_back lines pattern (Z.to_nat (to_int (viewHeight - 1))) top
        with
        | Some l => line = l /\ hits = to_int (viewHeight - 1) /\ 0 <= l <= top
        | None => hits <> to_int (viewHeight - 1)
        end)
    /\ (to_int (viewHeight - 1) < 0 -> hits = 0).
Proof.
  intros Htop. unfold PreviousFilteredPage_loop.
  set (H := to_int (viewHeight - 1)).
  set (goal := scan_back lines pattern (Z.to_nat H) top).
  match goal with
  | |- context [while ?ff ?cc ?bb ?ss] =>
      destruct (while_inv cc bb
        (fun '(line, hits) =>
           0 <= hits /\ -1 <= line <= top
           /\ (0 <= H ->
               hits <= H
               /\ ((0 <= line
                    /\ scan_back lines pattern (Z.to_nat (H - hits)) line
                       = goal)
                   \/ (line = -1 /\ hits < H /\ goal = None)))
           /\ (H < 0 -> hits = 0))
        (fun '(line, hits) =>
           if line =? -1 then O else Z.to_nat (H - hits)))
        with (fuel := ff) (s := ss) as ([line hits] & Hr & Hinv & Hc)
  end.
  - intros [line hits] (Hh & Hl & Hpos & Hneg) Hcond.
    apply andb_prop in Hcond. destruct Hcond as [Hcond Hlt].
    apply andb_prop in Hcond. destruct Hcond as [Hne Hge].
    apply Z.ltb_lt in Hlt. apply Z.geb_le in Hge.
    apply negb_true_iff in Hne. apply Z.eqb_neq in Hne.
    destruct (Hpos ltac:(lia)) as (_ & [[_ Hscan] | [? _]]); [|lia].
    unfold Document.FindPreviousMatchingLine.
    assert (Hint : is_int (line - 1))
      by (unfold is_int, INT_MIN, INT_MAX in *; lia).
    rewrite (to_int_id _ Hint).
    replace (Z.to_nat (H - hits)) with (S (Z.to_nat (H - (hits + 1))))
      in Hscan by lia.
    simpl in Hscan.
    destruct (FindPreviousMatchingLine_spec lines pattern size_is_int
                (line - 1) Hint ltac:(lia))
      as (r & Hfind & [[-> _] | (Hr & _)]);
      rewrite Hfind in *; simpl.
    + exists (-1, hits). split; [reflexivity|]. split.
      * repeat split; try lia. right. repeat split; try lia.
        symmetry. exact Hscan.
      * simpl. destruct (Z.eqb_spec line (-1)); lia.
    + destruct (Z.eqb_spec r (-1)) as [|_]; [lia|]. simpl.
      assert (Hinc : to_int (hits + 1) = hits + 1).
      { apply to_int_id. pose proof (to_int_range (viewHeight - 1)).
        fold H in H0. unfold is_int, INT_MIN, INT_MAX in *. lia. }
      rewrite Hinc.
      exists (r, hits + 1). split; [reflexivity|]. split.
      * repeat split; try lia. left. split; [lia | exact Hscan].
      * destruct (Z.eqb_spec r (-1)); [lia|].
        destruct (Z.eqb_spec line (-1)); lia.
  - repeat split; try lia. left. split; [lia|].
    rewrite Z.sub_0_r. reflexivity.
  - destruct (top =? -1); [lia|]. rewrite Z.sub_0_r. lia.
  - exists line, hits. split; [exact Hr|].
    destruct Hinv as (Hh & Hl & Hpos & Hneg). split; [|exact Hneg].
    intros HH. destruct (Hpos HH) as (Hle & [[Hline Hscan] | (-> & Hlt & ->)]);
      [|lia].
    assert (hits = H) as ->.
    { destruct (Z.eqb_spec line (-1)); [lia|].
      destruct (Z.geb_spec line 0); [|lia].
      destruct (Z.ltb_spec hits H); [discriminate | lia]. }
    rewrite Z.sub_diag in Hscan. simpl in Hscan. rewrite <- Hscan.
    repeat split; lia.
Qed.

Lemma NextFilteredPage_loop_total (pattern : string) (viewHeight top : Z) :
  is_int top ->
  exists line hits,
    NextFilteredPage_loop doc pattern viewHeight top 0 = Ok (line, hits).
Proof.
  intros Htop. unfold NextFilteredPage_loop. rewrite Size_eq.
  set (H := to_int (viewHeight - 1)).
  match goal with
  | |- context [while ?ff ?cc ?bb ?ss] =>
      destruct (while_inv cc bb
        (fun '(line, hits) => 0 <= hits /\ is_int line)
        (fun '(line, hits) =>
           if line =? -1 then O else Z.to_nat (H - hits)))
        with (fuel := ff) (s := ss) as ([line hits] & Hr & _)
  end.
  - intros [line hits] (Hh & Hl) Hcond.
    apply andb_prop in Hcond. destruct Hcond as [Hcond Hlt].
    apply andb_prop in Hcond. destruct Hcond as [Hne Hsz].
    apply Z.ltb_lt in Hlt, Hsz.
    apply negb_true_iff in Hne. apply Z.eqb_neq in Hne.
    unfold Document.FindNextMatchingLine.
    destruct (FindNextMatchingLine_spec lines pattern size_is_int
                (to_int (line + 1)) doc_not_empty (to_int_range _))
      as (r & -> & Hres).
    simpl.
    assert (Hinc : to_int (hits + 1) = hits + 1).
    { apply to_int_id. pose proof (to_int_range (viewHeight - 1)).
      fold H in H0. unfold is_int, INT_MIN, INT_MAX in *. lia. }
    rewrite Hinc.
    eexists. split; [reflexivity|].
    destruct (Z.eqb_spec line (-1)); [lia|].
    destruct Hres as [[-> _] | (Hr1 & Hr2 & _)]; simpl.
    + split; [|lia]. split; [lia|].
      unfold is_int, INT_MIN, INT_MAX. lia.
    + destruct (Z.eqb_spec r (-1)); [lia|]. simpl.
      split; [|lia]. split; [lia|].
      unfold is_int, INT_MIN, INT_MAX in *. lia.
  - split; [lia | exact Htop].
  - destruct (top =? -1); [lia|]. rewrite Z.sub_0_r. lia.
  - eauto.
Qed.

(** *** Every command returns *)

Lemma wf_is_int (fv : t) : wf doc fv -> is_int (topLine_ fv).
Proof. unfold wf, is_int, INT_MIN, INT_MAX in *. lia. Qed.

Lemma LocateNextMatch_total (current : Z) (p : string) :
  is_int current -> exists r, LocateNextMatch lines current p = Ok r.
Proof.
  intros Hc. unfold LocateNextMatch. destruct (negb (empty p)); [|eauto].
  destruct (FindNextMatchingLine_spec lines p size_is_int current
              doc_not_empty Hc) as (r & -> & _).
  simpl. destruct (r =? -1); simpl; [|eauto].
  rewrite FindNextMatchingLine_minus_one. simpl. eauto.
Qed.

Lemma LocatePreviousMatch_total (current : Z) (p : string) :
  is_int current -> current <= size lines ->
  exists r, LocatePreviousMatch lines current p = Ok r.
Proof.
  intros Hc Hle. unfold LocatePreviousMatch.
  destruct (negb (empty p)); [|eauto].
  destruct (FindPreviousMatchingLine_spec lines p size_is_int current Hc Hle)
    as (r & -> & _).
  simpl. destruct (r =? -1); simpl; [|eauto].
  assert (Hsz : is_int (size lines))
    by (unfold is_int, INT_MIN, INT_MAX, size in *; lia).
  rewrite (to_int_id _ Hsz).
  destruct (FindPreviousMatchingLine_spec lines p size_is_int (size lines)
              Hsz (Z.le_refl _)) as (r' & -> & _).
  simpl. eauto.
Qed.

Lemma UpdateMatchFromPattern_total (fv : t) :
  wf doc fv -> exists line,
    UpdateMatchFromPattern doc fv = Ok (set_matchingLine line fv).
Proof.
  intros Hwf. unfold UpdateMatchFromPattern, Document.FindNextMatchingLine.
  destruct (FindNextMatchingLine_spec lines (pattern_ fv) size_is_int
              (topLine_ fv) doc_not_empty (wf_is_int fv Hwf))
    as (r & Hr & _).
  rewrite Hr. simpl. eauto.
Qed.

Lemma CmdNextMatch_total (fv : t) :
  wf doc fv -> exists line, CmdNextMatch doc fv = Ok (set_topLine line fv).
Proof.
  intros Hwf. unfold CmdNextMatch, Document.LocateNextMatch.
  destruct (LocateNextMatch_total (topLine_ fv) (pattern_ fv)
              (wf_is_int fv Hwf)) as (r & ->).
  simpl. eauto.
Qed.

Lemma CmdPreviousMatch_total (fv : t) :
  wf doc fv ->
  exists line, CmdPreviousMatch doc fv = Ok (set_topLine line fv).
Proof.
  intros Hwf. unfold CmdPreviousMatch, Document.LocatePreviousMatch.
  destruct (LocatePreviousMatch_total (topLine_ fv) (pattern_ fv)
              (wf_is_int fv Hwf)) as (r & ->).
  - unfold wf in Hwf. lia.
  - simpl. eauto.
Qed.

Lemma CmdBackspaceCapture_total (fv : t) :
  wf doc fv -> exists fv', CmdBackspaceCapture doc fv = Ok fv'.
Proof.
  intros Hwf. unfold CmdBackspaceCapture.
  destruct (isCapturing_ fv); [|eauto].
  destruct (negb _); [|eauto].
  destruct (UpdateMatchFromPattern_total
              (set_pattern (pop_back (pattern_ fv)) fv) Hwf) as (l & ->).
  eauto.
Qed.

Lemma CmdPreviousFilteredPage_total (fv : t) :
  wf doc fv ->
  exists line, CmdPreviousFilteredPage doc term fv = Ok (set_topLine line fv).
Proof.
  intros Hwf. unfold CmdPreviousFilteredPage.
  destruct (PreviousFilteredPage_loop_spec (pattern_ fv) (ViewHeight term)
              (topLine_ fv) Hwf) as (line & hits & -> & _).
  simpl. eauto.
Qed.

Lemma CmdNextFilteredPage_total (fv : t) :
  wf doc fv -> exists fv', CmdNextFilteredPage doc term fv = Ok fv'.
Proof.
  intros Hwf. unfold CmdNextFilteredPage.
  destruct (NextFilteredPage_loop_total (pattern_ fv) (ViewHeight term)
              (topLine_ fv) (wf_is_int fv Hwf)) as (line & hits & ->).
  simpl. eauto.
Qed.

Lemma CmdRightmostColumn_total (fv : t) :
  wf doc fv ->
  exists edge, CmdRightmostColumn doc term fv = Ok (set_leftEdge edge fv).
Proof.
  intros Hwf. unfold CmdRightmostColumn.
  destruct (RightmostColumn_loop_total (isFiltering_ fv) (pattern_ fv)
              (topLine_ fv) (ViewHeight term) 0) as ([[line n] len] & ->).
  - unfold wf in Hwf. lia.
  - simpl. destruct (len >? _); eauto.
Qed.

Lemma dispatch_total (fv : t) (e : Event.t) :
  wf doc fv -> exists fv', dispatch doc term fv e = Ok fv'.
Proof.
  intros Hwf. destruct (Event.is_character e) eqn:Hc.
  - unfold dispatch. rewrite Hc.
    destruct (isCapturing_ fv).
    + destruct (UpdateMatchFromPattern_total
                  (set_pattern (pattern_ fv ++ Event.character e) fv) Hwf)
        as (l & ->). eauto.
    + destruct (String.eqb _ "/"); [eauto|].
      destruct (String.eqb _ "n");
        [destruct (CmdNextMatch_total fv Hwf) as (l & ->); eauto|].
      destruct (String.eqb _ "p");
        [destruct (CmdPreviousMatch_total fv Hwf) as (l & ->); eauto|].
      eauto.
  - rewrite (dispatch_special doc term fv e Hc).
    destruct (classify e); simpl; eauto.
    + apply CmdBackspaceCapture_total, Hwf.
    + destruct (_ && _); [|eauto].
      destruct (CmdPreviousMatch_total fv Hwf) as (l & ->); eauto.
    + destruct (_ && _); [|eauto].
      destruct (CmdNextMatch_total fv Hwf) as (l & ->); eauto.
    + destruct (negb _); [eauto|].
      destruct (CmdPreviousFilteredPage_total fv Hwf) as (l & ->); eauto.
    + destruct (negb _); [eauto|].
      apply CmdNextFilteredPage_total, Hwf.
    + destruct (CmdRightmostColumn_total fv Hwf) as (l & ->); eauto.
Qed.

(** On a document with at least one line, every event returns, and it
    leaves both offsets inside their ranges. *)
Lemma OnEvent_clamps (fv : t) (e : Event.t) :
  wf doc fv ->
  exists fv',
    OnEvent doc term fv e = Ok fv'
    /\ 0 <= leftEdge_ fv' <= dimx term - 1
    /\ 0 <= topLine_ fv' <= size lines - 1.
Proof.
  intros Hwf. unfold OnEvent.
  destruct (dispatch_total fv e Hwf) as (fv1 & ->). simpl.
  destruct (clamp_view_ok fv1) as (l & tl & -> & Hl & Ht & _).
  eexists. split; [reflexivity|]. simpl. lia.
Qed.

Lemma OnEvent_wf (fv fv' : t) (e : Event.t) :
  wf doc fv -> OnEvent doc term fv e = Ok fv' -> wf doc fv'.
Proof.
  intros Hwf He.
  destruct (OnEvent_clamps fv e Hwf) as (fv2 & He2 & _ & Ht).
  rewrite He in He2. injection He2 as <-.
  unfold wf. lia.
Qed.

(** *** The filtered page up *)

Lemma scan_back_hit (pattern : string) (n : nat) :
  forall line l,
    0 <= line <= size lines ->
    scan_back lines pattern (S n) line = Some l ->
    matches_at lines pattern l = true /\ 0 <= l < line - 1.
Proof.
  induction n as [|n IH]; intros line l Hline Hscan;
    simpl in Hscan;
    destruct (FindPreviousMatchingLine_spec lines pattern size_is_int
                (line - 1)) as (r & Hfind & Hres);
    try (unfold is_int, INT_MIN, INT_MAX in *; lia);
    rewrite Hfind in Hscan;
    (destruct Hres as [[-> _] | (Hr1 & Hr2 & _)]; [discriminate Hscan|]);
    (destruct (Z.eqb_spec r (-1)); [lia|]).
  - injection Hscan as <-. split; [assumption | lia].
  - destruct (IH r l ltac:(lia) Hscan) as [Hm Hl].
    split; [assumption | lia].
Qed.

Lemma PgUp_filtered (fv : t) :
  wf doc fv -> isFiltering_ fv = true -> 1 <= dimy term <= INT_MAX ->
  exists fv',
    OnEvent doc term fv keyevents.PgUp = Ok fv'
    /\ topLine_ fv'
       = match scan_back lines (pattern_ fv) (Z.to_nat (dimy term - 1))
                 (topLine_ fv)
         with
         | Some l => l
         | None => 0
         end.
Proof.
  intros Hwf Hf Hh. unfold OnEvent.
  rewrite dispatch_special by reflexivity.
  change (classify keyevents.PgUp) with K_PgUp. simpl run_key.
  rewrite Hf. simpl negb. cbv iota.
  unfold CmdPreviousFilteredPage, ViewHeight.
  destruct (PreviousFilteredPage_loop_spec (pattern_ fv) (dimy term)
              (topLine_ fv) Hwf) as (line & hits & -> & Hpos & _).
  assert (HH : to_int (dimy term - 1) = dimy term - 1)
    by (apply to_int_id; unfold is_int, INT_MIN, INT_MAX in *; lia).
  rewrite HH in *. specialize (Hpos ltac:(lia)).
  cbn [bind].
  match goal with
  | |- context [clamp_view doc term ?x] =>
      destruct (clamp_view_ok x) as (l & tl & -> & _ & _ & Hid & _)
  end.
  eexists. split; [reflexivity|]. cbn [topLine_ set_topLine set_leftEdge] in *.
  destruct (scan_back lines (pattern_ fv) (Z.to_nat (dimy term - 1))
              (topLine_ fv)) as [l0|].
  - destruct Hpos as (-> & -> & Hl0). rewrite Z.eqb_refl in *.
    apply Hid. unfold wf in Hwf. lia.
  - destruct (Z.eqb_spec hits (dimy term - 1)); [contradiction|].
    apply Hid. lia.
Qed.

(** *** Return with nothing found *)

Lemma Return_unresolved (fv : t) :
  isCapturing_ fv = true -> matchingLine_ fv = -1 ->
  exists fv',
    OnEvent doc term fv Event.Return = Ok fv'
    /\ topLine_ fv' = 0 /\ isCapturing_ fv' = false.
Proof.
  intros Hc Hm. unfold OnEvent.
  rewrite dispatch_special by reflexivity.
  change (classify Event.Return) with K_Return. simpl run_key.
  unfold CmdEndCapture. rewrite Hc, Hm. cbn [bind].
  match goal with
  | |- context [clamp_view doc term ?x] =>
      destruct (clamp_view_ok x) as (l & tl & -> & _ & _ & _ & Hlo)
  end.
  eexists. split; [reflexivity|]. simpl in *. split; [|reflexivity].
  apply Hlo. lia.
Qed.

(** *** Backspace to the empty pattern *)

Lemma FindNextMatchingLine_empty_pattern (current : Z) :
  0 <= current < size lines - 1 ->
  FindNextMatchingLine lines current "" = Ok (current + 1).
Proof.
  intros Hc.
  assert (Hnext : matches_at lines "" (current + 1) = true).
  { unfold matches_at. destruct (Z.leb_spec 0 (current + 1)); [|lia]. simpl.
    destruct (nth_error lines (Z.to_nat (current + 1))) eqn:E;
      [apply contains_empty|].
    apply nth_error_None in E. unfold size in *. lia. }
  destruct (FindNextMatchingLine_spec lines "" size_is_int current
              doc_not_empty)
    as (r & -> & [[-> Hnone] | (Hr1 & Hr2 & Hr3 & Hbetween)]).
  - unfold is_int, INT_MIN, INT_MAX in *. lia.
  - rewrite (Hnone ltac:(lia) (current + 1)) in Hnext by lia. discriminate.
  - destruct (Z.eq_dec r (current + 1)) as [->|Hne]; [reflexivity|].
    rewrite (Hbetween (current + 1)) in Hnext by lia. discriminate.
Qed.

Lemma Backspace_last_character (fv : t) (c : ascii) :
  isCapturing_ fv = true -> pattern_ fv = String c "" ->
  0 <= topLine_ fv < size lines - 1 ->
  exists fv1 fv2,
    OnEvent doc term fv Event.Backspace = Ok fv1
    /\ pattern_ fv1 = ""
    /\ matchingLine_ fv1 = topLine_ fv + 1
    /\ topLine_ fv1 = topLine_ fv
    /\ isCapturing_ fv1 = true
    /\ OnEvent doc term fv1 Event.Return = Ok fv2
    /\ topLine_ fv2 = topLine_ fv + 1
    /\ isCapturing_ fv2 = false.
Proof.
  intros Hc Hp Ht.
  assert (Hback : exists l,
    OnEvent doc term fv Event.Backspace
    = Ok (set_topLine (topLine_ fv)
            (set_leftEdge l
               (set_matchingLine (topLine_ fv + 1) (set_pattern "" fv))))).
  { unfold OnEvent.
    rewrite dispatch_special by reflexivity.
    change (classify Event.Backspace) with K_Backspace. simpl run_key.
    unfold CmdBackspaceCapture. rewrite Hc, Hp. simpl.
    unfold UpdateMatchFromPattern, Document.FindNextMatchingLine.
    cbn [topLine_ pattern_ set_pattern].
    rewrite (FindNextMatchingLine_empty_pattern _ Ht). cbn [bind].
    match goal with
    | |- context [clamp_view doc term ?x] =>
        destruct (clamp_view_ok x) as (l & tl & -> & _ & _ & Hid & _)
    end.
    cbn [topLine_ set_matchingLine set_pattern] in Hid.
    rewrite (Hid ltac:(lia)). exists l. reflexivity. }
  destruct Hback as (l & Hback).
  set (fv1 := set_topLine (topLine_ fv)
                (set_leftEdge l
                   (set_matchingLine (topLine_ fv + 1) (set_pattern "" fv))))
    in *.
  assert (Hret : exists l',
    OnEvent doc term fv1 Event.Return
    = Ok (set_topLine (topLine_ fv + 1)
            (set_leftEdge l' (CmdEndCapture fv1)))).
  { unfold OnEvent.
    rewrite dispatch_special by reflexivity.
    change (classify Event.Return) with K_Return. simpl run_key.
    cbn [bind].
    destruct (clamp_view_ok (CmdEndCapture fv1))
      as (l' & tl' & -> & _ & _ & Hid & _).
    unfold CmdEndCapture, fv1 in Hid.
    cbn [pattern_ matchingLine_ topLine_ isCapturing_ set_topLine
         set_leftEdge set_matchingLine set_pattern set_isCapturing] in Hid.
    rewrite Hc in Hid.
    cbn [pattern_ matchingLine_ topLine_ isCapturing_ set_topLine
         set_leftEdge set_matchingLine set_pattern set_isCapturing] in Hid.
    rewrite (Hid ltac:(lia)). exists l'. reflexivity. }
  destruct Hret as (l' & Hret).
  exists fv1. eexists. split; [exact Hback|].
  repeat (split; [first [reflexivity | exact Hc]|]).
  split; [exact Hret|].
  unfold CmdEndCapture, fv1.
  cbn [pattern_ matchingLine_ topLine_ isCapturing_ set_topLine
       set_leftEdge set_matchingLine set_pattern set_isCapturing].
  rewrite Hc. split; reflexivity.
Qed.

End Viewer.

(** ** Sequences of events *)

(** From a viewer on a line of a document that is not empty, every
    sequence of events returns a viewer on a line of the document; the
    initial viewer is one. *)
Lemma run_wf (doc : Document.t) (term : Dimensions) (events : list Event.t) :
  1 <= size (Document.lines_ doc) <= INT_MAX ->
  1 <= dimx term <= INT_MAX ->
  forall fv, wf doc fv ->
    exists fv', run doc term fv events = Ok fv' /\ wf doc fv'.
Proof.
  intros [Hd1 Hd2] Hw.
  induction events as [|e events IH]; intros fv Hwf; simpl.
  - exists fv. split; [reflexivity | exact Hwf].
  - destruct (OnEvent_clamps doc term Hd1 Hd2 Hw fv e Hwf) as (fv1 & He & _).
    rewrite He. simpl. apply IH.
    exact (OnEvent_wf doc term Hd1 Hd2 Hw fv fv1 e Hwf He).
Qed.

Lemma init_wf (doc : Document.t) :
  1 <= size (Document.lines_ doc) -> wf doc FileViewer.init.
Proof. unfold wf. simpl. lia. Qed.

(** The capture of the specification's scenario: [/], then the five
    characters of "alpha", find line 2; Return goes there, Escape stays. *)
Example capture_alpha :
  run d5 t80x3 FileViewer.init
    (map Event.Character ["/"; "a"; "l"; "p"; "h"; "a"])
  = Ok (FileViewer.mk 0 0 2 "alpha" true true false).
Proof. reflexivity. Qed.

Example capture_alpha_Return :
  run d5 t80x3 FileViewer.init
    (map Event.Character ["/"; "a"; "l"; "p"; "h"; "a"] ++ [Event.Return])
  = Ok (FileViewer.mk 2 0 2 "alpha" false true false).
Proof. reflexivity. Qed.

Example capture_alpha_Escape :
  run d5 t80x3 FileViewer.init
    (map Event.Character ["/"; "a"; "l"; "p"; "h"; "a"] ++ [Event.Escape])
  = Ok (FileViewer.mk 0 0 (-1) "" false true false).
Proof. reflexivity. Qed.

(** ** The budgets of the loops suffice

    Whatever the document, the terminal and the event, [OnEvent] does not
    end for lack of budget in one of its loops: a fault it returns is a
    fault of the source. *)

Lemma FindPreviousMatchingLine_within_budget
    (lines : list string) (current : Z) (p : string) :
  within_budget (FindPreviousMatchingLine lines current p).
Proof.
  unfold within_budget, FindPreviousMatchingLine, advance.
  destruct (current <? 1); [discriminate|].
  destruct (_ && _); simpl; [|discriminate].
  destruct (negb _); discriminate.
Qed.

Lemma FindNextMatchingLine_within_budget
    (lines : list string) (current : Z) (p : string) :
  within_budget (FindNextMatchingLine lines current p).
Proof.
  unfold within_budget, FindNextMatchingLine, advance.
  destruct (_ >=? _); [discriminate|].
  destruct (_ && _); simpl; [|discriminate].
  destruct (negb _); discriminate.
Qed.

Lemma LocatePreviousMatch_within_budget
    (lines : list string) (current : Z) (p : string) :
  within_budget (LocatePreviousMatch lines current p).
Proof.
  unfold LocatePreviousMatch.
  destruct (negb (empty p)); [|apply within_budget_Ok].
  apply within_budget_bind;
    [apply FindPreviousMatchingLine_within_budget|].
  intros line _. apply within_budget_bind; [|intros; apply within_budget_Ok].
  destruct (line =? -1);
    [apply FindPreviousMatchingLine_within_budget | apply within_budget_Ok].
Qed.

Lemma LocateNextMatch_within_budget
    (lines : list string) (current : Z) (p : string) :
  within_budget (LocateNextMatch lines current p).
Proof.
  unfold LocateNextMatch.
  destruct (negb (empty p)); [|apply within_budget_Ok].
  apply within_budget_bind; [apply FindNextMatchingLine_within_budget|].
  intros line _. apply within_budget_bind; [|intros; apply within_budget_Ok].
  destruct (line =? -1);
    [apply FindNextMatchingLine_within_budget | apply within_budget_Ok].
Qed.

Lemma at_within_budget (doc : Document.t) (line : Z) :
  within_budget (Document.at_ doc line).
Proof.
  unfold within_budget, Document.at_.
  destruct (_ <? _); [|discriminate].
  destruct (nth_error _ _); discriminate.
Qed.

Lemma clamp_within_budget (v lo hi : Z) : within_budget (clamp v lo hi).
Proof. unfold within_budget, clamp. destruct (hi <? lo); discriminate. Qed.

Section Budget.

Import FileViewer.

Variable doc : Document.t.
Variable term : Dimensions.

Lemma hits_increment (viewHeight hits : Z) :
  is_int hits -> hits < to_int (viewHeight - 1) ->
  to_int (hits + 1) = hits + 1.
Proof.
  intros Hh Hlt. apply to_int_id.
  pose proof (to_int_range (viewHeight - 1)).
  unfold is_int, INT_MIN, INT_MAX in *. lia.
Qed.

Lemma PreviousFilteredPage_loop_within_budget
    (pattern : string) (viewHeight top : Z) :
  within_budget (PreviousFilteredPage_loop doc pattern viewHeight top 0).
Proof.
  unfold PreviousFilteredPage_loop.
  apply while_within_budget
    with (inv := fun '(line, hits) => is_int hits)
         (measure := fun '(line, hits) =>
            if line =? -1 then O
            else Z.to_nat (to_int (viewHeight - 1) - hits)).
  - intros [line hits] Hh Hcond.
    apply andb_prop in Hcond. destruct Hcond as [Hcond Hlt].
    apply andb_prop in Hcond. destruct Hcond as [Hne _].
    apply Z.ltb_lt in Hlt.
    apply negb_true_iff in Hne. rewrite Hne.
    pose proof (FindPreviousMatchingLine_within_budget (Document.lines_ doc)
                  (to_int (line - 1)) pattern) as Hb.
    unfold Document.FindPreviousMatchingLine.
    destruct (FindPreviousMatchingLine _ _ _) as [r|f]; simpl;
      [|split; [intros ->; apply Hb; reflexivity | lia]].
    destruct (r =? -1); simpl; [split; [exact Hh | lia]|].
    rewrite (hits_increment _ _ Hh Hlt).
    unfold is_int, INT_MIN, INT_MAX in *.
    pose proof (to_int_range (viewHeight - 1)) as Hr.
    unfold is_int, INT_MIN, INT_MAX in Hr. split; lia.
  - vm_compute. split; discriminate.
  - destruct (top =? -1); [lia|]. rewrite Z.sub_0_r. lia.
Qed.

Lemma NextFilteredPage_loop_within_budget
    (pattern : string) (viewHeight top : Z) :
  within_budget (NextFilteredPage_loop doc pattern viewHeight top 0).
Proof.
  unfold NextFilteredPage_loop.
  apply while_within_budget
    with (inv := fun '(line, hits) => is_int hits)
         (measure := fun '(line, hits) =>
            if line =? -1 then O
            else Z.to_nat (to_int (viewHeight - 1) - hits)).
  - intros [line hits] Hh Hcond.
    apply andb_prop in Hcond. destruct Hcond as [Hcond Hlt].
    apply andb_prop in Hcond. destruct Hcond as [Hne _].
    apply Z.ltb_lt in Hlt.
    apply negb_true_iff in Hne. rewrite Hne.
    pose proof (FindNextMatchingLine_within_budget (Document.lines_ doc)
                  (to_int (line + 1)) pattern) as Hb.
    unfold Document.FindNextMatchingLine.
    destruct (FindNextMatchingLine _ _ _) as [r|f]; simpl;
      [|split; [intros ->; apply Hb; reflexivity | lia]].
    destruct (r =? -1); simpl; [split; [exact Hh | lia]|].
    rewrite (hits_increment _ _ Hh Hlt).
    unfold is_int, INT_MIN, INT_MAX in *.
    pose proof (to_int_range (viewHeight - 1)) as Hr.
    unfold is_int, INT_MIN, INT_MAX in Hr. split; lia.
  - vm_compute. split; discriminate.
  - destruct (top =? -1); [lia|]. rewrite Z.sub_0_r. lia.
Qed.

Lemma RightmostColumn_loop_within_budget
    (isFiltering : bool) (pattern : string) (line numLines length : Z) :
  is_int line ->
  within_budget
    (RightmostColumn_loop doc isFiltering pattern line numLines length).
Proof.
  intros Hline. unfold RightmostColumn_loop.
  apply while_within_budget
    with (inv := fun '(line, _, _) => is_int line)
         (measure := fun '(line, _, _) =>
            Z.to_nat (Document.Size doc - line)).
  - intros [[ln n] len] Hln Hcond.
    apply andb_prop in Hcond. destruct Hcond as [_ Hlt].
    apply Z.ltb_lt in Hlt.
    pose proof (to_int_range (size (Document.lines_ doc))) as Hsz.
    fold (Document.Size doc) in Hsz.
    assert (Hnext : to_int (ln + 1) = ln + 1)
      by (apply to_int_id; unfold is_int, INT_MIN, INT_MAX in *; lia).
    rewrite Hnext.
    assert (Hgoal : is_int (ln + 1)
              /\ (Z.to_nat (Document.Size doc - (ln + 1))
                  < Z.to_nat (Document.Size doc - ln))%nat)
      by (unfold is_int, INT_MIN, INT_MAX in *; lia).
    assert (Hat : forall f, Document.at_ doc ln = Fault f ->
              f <> FuelExhausted /\ (0 < Z.to_nat (Document.Size doc - ln))%nat).
    { intros f Hf. split; [|lia].
      pose proof (at_within_budget doc ln) as Hb. unfold within_budget in Hb.
      congruence. }
    destruct (negb isFiltering); simpl.
    + destruct (Document.at_ doc ln); simpl;
        [exact Hgoal | apply Hat; reflexivity].
    + destruct (negb (empty pattern)); simpl; [|exact Hgoal].
      destruct (Document.at_ doc ln); simpl; [|apply Hat; reflexivity].
      destruct (contains pattern a); simpl; exact Hgoal.
  - exact Hline.
  - lia.
Qed.

Lemma dispatch_within_budget (fv : t) (e : Event.t) :
  is_int (topLine_ fv) -> within_budget (dispatch doc term fv e).
Proof.
  intros Htop. destruct (Event.is_character e) eqn:Hc.
  - unfold dispatch. rewrite Hc.
    destruct (isCapturing_ fv).
    + apply within_budget_bind;
        [apply FindNextMatchingLine_within_budget
        | intros; apply within_budget_Ok].
    + destruct (String.eqb _ "/"); [apply within_budget_Ok|].
      destruct (String.eqb _ "n");
        [apply within_budget_bind;
           [apply LocateNextMatch_within_budget
           | intros; apply within_budget_Ok]|].
      destruct (String.eqb _ "p");
        [apply within_budget_bind;
           [apply LocatePreviousMatch_within_budget
           | intros; apply within_budget_Ok]|].
      apply within_budget_Ok.
  - rewrite (dispatch_special doc term fv e Hc).
    destruct (classify e); simpl; try apply within_budget_Ok.
    + unfold CmdBackspaceCapture.
      destruct (isCapturing_ fv); [|apply within_budget_Ok].
      destruct (negb _); [|apply within_budget_Ok].
      apply within_budget_bind;
        [apply FindNextMatchingLine_within_budget
        | intros; apply within_budget_Ok].
    + destruct (_ && _); [|apply within_budget_Ok].
      apply within_budget_bind;
        [apply LocatePreviousMatch_within_budget
        | intros; apply within_budget_Ok].
    + destruct (_ && _); [|apply within_budget_Ok].
      apply within_budget_bind;
        [apply LocateNextMatch_within_budget
        | intros; apply within_budget_Ok].
    + destruct (negb _); [apply within_budget_Ok|].
      apply within_budget_bind;
        [apply PreviousFilteredPage_loop_within_budget
        | intros [line hits] _; apply within_budget_Ok].
    + destruct (negb _); [apply within_budget_Ok|].
      apply within_budget_bind;
        [apply NextFilteredPage_loop_within_budget
        | intros [line hits] _; apply within_budget_Ok].
    + apply within_budget_bind;
        [apply RightmostColumn_loop_within_budget, Htop
        | intros [[line n] len] _; apply within_budget_Ok].
Qed.

Lemma OnEvent_within_budget (fv : t) (e : Event.t) :
  is_int (topLine_ fv) -> within_budget (OnEvent doc term fv e).
Proof.
  intros Htop. unfold OnEvent.
  apply within_budget_bind; [apply dispatch_within_budget, Htop|].
  intros fv1 _. unfold clamp_view.
  apply within_budget_bind; [apply clamp_within_budget|].
  intros l _. apply within_budget_bind; [apply clamp_within_budget|].
  intros tl _. apply within_budget_Ok.
Qed.

End Budget.

(** ** Navigation while capturing *)

Lemma navigation_events_classify (e : Event.t) :
  In e navigation_events ->
  Event.is_character e = false /\ navigation (classify e) = true.
Proof.
  unfold navigation_events. simpl.
  intros H. repeat (destruct H as [<-|H]; [split; reflexivity|]).
  contradiction.
Qed.

Section Capturing.

Import FileViewer.

Variable doc : Document.t.
Variable term : Dimensions.

Ltac fields :=
  cbn [topLine_ leftEdge_ matchingLine_ pattern_ isCapturing_
       showLineNumbers_ isFiltering_ set_topLine set_leftEdge
       set_matchingLine set_pattern set_isCapturing set_showLineNumbers
       set_isFiltering].

Lemma run_key_capturing (fv : t) (k : key) (b : bool) :
  navigation k = true ->
  run_key doc term (set_isCapturing b fv) k
  = fmap (set_isCapturing b) (run_key doc term fv k).
Proof.
  destruct k; try discriminate; intros _; destruct fv; simpl run_key;
    unfold fmap, CmdPreviousMatch, CmdNextMatch, CmdPreviousFilteredPage,
      CmdNextFilteredPage, CmdRightmostColumn; fields;
    try reflexivity.
  - destruct (_ && _); [|reflexivity].
    destruct (Document.LocatePreviousMatch _ _ _); reflexivity.
  - destruct (_ && _); [|reflexivity].
    destruct (Document.LocateNextMatch _ _ _); reflexivity.
  - destruct (negb _); [reflexivity|].
    destruct (PreviousFilteredPage_loop _ _ _ _ _) as [[line hits]|];
      reflexivity.
  - destruct (negb _); [reflexivity|].
    destruct (NextFilteredPage_loop _ _ _ _ _) as [[line hits]|];
      [|reflexivity].
    simpl. destruct (hits =? _); reflexivity.
  - destruct (RightmostColumn_loop _ _ _ _ _ _) as [[[line n] len]|];
      [|reflexivity].
    simpl. destruct (len >? _); reflexivity.
Qed.

Lemma run_key_navigation_keeps (fv fv1 : t) (k : key) :
  navigation k = true ->
  run_key doc term fv k = Ok fv1 ->
  pattern_ fv1 = pattern_ fv /\ matchingLine_ fv1 = matchingLine_ fv.
Proof.
  destruct k; try discriminate; intros _; destruct fv; simpl run_key;
    unfold CmdPreviousMatch, CmdNextMatch, CmdPreviousFilteredPage,
      CmdNextFilteredPage, CmdRightmostColumn; fields;
    try (intros [= <-]; split; reflexivity).
  - destruct (_ && _); [|intros [= <-]; split; reflexivity].
    destruct (Document.LocatePreviousMatch _ _ _); simpl;
      [intros [= <-]; split; reflexivity | discriminate].
  - destruct (_ && _); [|intros [= <-]; split; reflexivity].
    destruct (Document.LocateNextMatch _ _ _); simpl;
      [intros [= <-]; split; reflexivity | discriminate].
  - destruct (negb _); [intros [= <-]; split; reflexivity|].
    destruct (PreviousFilteredPage_loop _ _ _ _ _) as [[line hits]|]; simpl;
      [intros [= <-]; split; reflexivity | discriminate].
  - destruct (negb _); [intros [= <-]; split; reflexivity|].
    destruct (NextFilteredPage_loop _ _ _ _ _) as [[line hits]|]; simpl;
      [|discriminate].
    destruct (hits =? _); intros [= <-]; split; reflexivity.
  - destruct (RightmostColumn_loop _ _ _ _ _ _) as [[[line n] len]|]; simpl;
      [|discriminate].
    destruct (len >? _); intros [= <-]; split; reflexivity.
Qed.

Lemma clamp_view_capturing (fv : t) (b : bool) :
  clamp_view doc term (set_isCapturing b fv)
  = fmap (set_isCapturing b) (clamp_view doc term fv).
Proof.
  destruct fv. unfold clamp_view, fmap. fields.
  destruct (clamp _ _ _); [|reflexivity]. simpl.
  destruct (clamp _ _ _); reflexivity.
Qed.

Lemma clamp_view_keeps (fv fv' : t) :
  clamp_view doc term fv = Ok fv' ->
  pattern_ fv' = pattern_ fv /\ matchingLine_ fv' = matchingLine_ fv.
Proof.
  destruct fv. unfold clamp_view. fields.
  destruct (clamp _ _ _); [|discriminate]. simpl.
  destruct (clamp _ _ _); [|discriminate]. simpl.
  intros [= <-]. split; reflexivity.
Qed.

(** A navigation key does to a capturing viewer what it does to the
    same viewer when it is not capturing. *)
Lemma OnEvent_capturing (fv : t) (e : Event.t) (b : bool) :
  In e navigation_events ->
  OnEvent doc term (set_isCapturing b fv) e
  = fmap (set_isCapturing b) (OnEvent doc term fv e).
Proof.
  intros Hin. destruct (navigation_events_classify e Hin) as [Hc Hnav].
  unfold OnEvent. rewrite !dispatch_special by exact Hc.
  rewrite (run_key_capturing fv _ b Hnav). unfold fmap.
  destruct (run_key doc term fv (classify e)) as [fv1|]; [|reflexivity].
  simpl. apply clamp_view_capturing.
Qed.

Lemma OnEvent_navigation_keeps (fv fv' : t) (e : Event.t) :
  In e navigation_events ->
  OnEvent doc term fv e = Ok fv' ->
  pattern_ fv' = pattern_ fv /\ matchingLine_ fv' = matchingLine_ fv.
Proof.
  intros Hin. destruct (navigation_events_classify e Hin) as [Hc Hnav].
  unfold OnEvent. rewrite dispatch_special by exact Hc.
  destruct (run_key doc term fv (classify e)) as [fv1|] eqn:E;
    [|discriminate].
  simpl. intros Hcl.
  destruct (run_key_navigation_keeps fv fv1 _ Hnav E) as [<- <-].
  apply clamp_view_keeps, Hcl.
Qed.

End Capturing.

(** ** The filtered page up (C2) *)

(** C2, as stated, fails: on the five-line document, filtering on "gamma"
    from line 4 with two content rows, no line before line 3 matches, and
    the page up moves the first line from 4 to 0. *)
Lemma C2_page_up_counterexample : ~ page_up_keeps_topLine.
Proof.
  intros H.
  specialize (H d5 t80x3 (FileViewer.mk 4 0 (-1) "gamma" false true true)
                (FileViewer.mk 0 0 (-1) "gamma" false true true)).
  assert (0 = 4) as Habs; [|discriminate Habs].
  apply H.
  - vm_compute. split; discriminate.
  - vm_compute. split; discriminate.
  - vm_compute. split; discriminate.
  - unfold wf, size. simpl. lia.
  - reflexivity.
  - reflexivity.
  - reflexivity.
Qed.

(** C2, amended. The filtered page up scans backwards from the first
    line, each step taking the line [FindPreviousMatchingLine(line - 1)]
    finds; when all [viewHeight - 1] steps find a line, the first line
    becomes the last line found, a line before the old first line that
    contains the pattern; when a step finds none, the first line becomes
    0. *)
Theorem C2_filtered_page_up
    (doc : Document.t) (term : Dimensions) (fv : FileViewer.t) :
  1 <= size (Document.lines_ doc) <= INT_MAX ->
  1 <= dimx term <= INT_MAX ->
  1 <= dimy term <= INT_MAX ->
  wf doc fv ->
  FileViewer.isFiltering_ fv = true ->
  exists fv',
    FileViewer.OnEvent doc term fv keyevents.PgUp = Ok fv'
    /\ match scan_back (Document.lines_ doc) (FileViewer.pattern_ fv)
               (Z.to_nat (dimy term - 1)) (FileViewer.topLine_ fv)
       with
       | Some l =>
           FileViewer.topLine_ fv' = l
           /\ (2 <= dimy term ->
               matches_at (Document.lines_ doc) (FileViewer.pattern_ fv) l
               = true
               /\ l < FileViewer.topLine_ fv)
       | None => FileViewer.topLine_ fv' = 0
       end.
Proof.
  intros [Hd1 Hd2] Hw Hh Hwf Hf.
  destruct (PgUp_filtered doc term Hd1 Hd2 Hw fv Hwf Hf Hh) as (fv' & He & Ht).
  exists fv'. split; [exact He|].
  destruct (scan_back _ _ _ _) as [l|] eqn:Hscan; [|exact Ht].
  split; [exact Ht|]. intros H2.
  replace (Z.to_nat (dimy term - 1)) with (S (Z.to_nat (dimy term - 2)))
    in Hscan by lia.
  assert (Hrange : 0 <= FileViewer.topLine_ fv <= size (Document.lines_ doc))
    by (unfold wf in Hwf; lia).
  destruct (scan_back_hit doc Hd2 _ _ _ l Hrange Hscan) as [Hm Hl].
  split; [exact Hm | lia].
Qed.

Lemma C2_filtered_page_up_witness :
  exists fv',
    FileViewer.OnEvent d5 t80x3
      (FileViewer.mk 4 0 (-1) "alpha" false true true) keyevents.PgUp = Ok fv'
    /\ (FileViewer.topLine_ fv' = 0
        /\ (2 <= 3 -> matches_at doc5 "alpha" 0 = true /\ 0 < 4)).
Proof.
  apply (C2_filtered_page_up d5 t80x3
           (FileViewer.mk 4 0 (-1) "alpha" false true true)).
  - vm_compute. split; discriminate.
  - vm_compute. split; discriminate.
  - vm_compute. split; discriminate.
  - unfold wf, size. simpl. lia.
  - reflexivity.
Defined.

(** ** Return with nothing found (C3) *)

(** C3. After [/] on line 3 of the five-line document nothing has been
    found ([matchingLine_ = -1]); Return then ends the capture and moves
    the first line to 0: [CmdEndCapture] assigns the -1 and the closing
    clamp raises it to 0. *)
Theorem C3_Return_unresolved_jumps_to_top :
  FileViewer.OnEvent d5 t80x3 (FileViewer.mk 3 0 (-1) "" true true false)
    Event.Return
  = Ok (FileViewer.mk 0 0 (-1) "" false true false).
Proof. reflexivity. Qed.

(** ** The closing clamps (C4, C5) *)

(** C4. On the empty document no event ends with the two offsets in
    range: the closing [std::clamp(topLine_, 0, Size() - 1)] is called with
    the bounds 0 and -1. *)
Theorem C4_empty_document_clamp
    (term : Dimensions) (fv : FileViewer.t) (e : Event.t) :
  exists f, FileViewer.OnEvent empty_document term fv e = Fault f.
Proof.
  unfold FileViewer.OnEvent.
  destruct (FileViewer.dispatch empty_document term fv e) as [fv1|f];
    [|exists f; reflexivity].
  cbn [bind]. unfold FileViewer.clamp_view.
  destruct (clamp (FileViewer.leftEdge_ fv1) 0 _) as [l|f];
    [|exists f; reflexivity].
  cbn [bind]. exists ClampBounds.
  rewrite clamp_bad_bounds; [reflexivity|].
  vm_compute. reflexivity.
Qed.

(** C5. On the empty document the scans leave the vector: the forward
    scan from line 0 and the backward scan from line 1 move their iterator
    past the end, the locate operations with them; and the first event
    clamps the first line with the bounds 0 and -1. *)
Theorem C5_empty_document_searches :
  FindNextMatchingLine [] 0 "a" = Fault IteratorOutOfRange
  /\ FindPreviousMatchingLine [] 1 "a" = Fault IteratorOutOfRange
  /\ LocateNextMatch [] 0 "a" = Fault IteratorOutOfRange
  /\ LocatePreviousMatch [] 1 "a" = Fault IteratorOutOfRange
  /\ FileViewer.OnEvent empty_document t80x3 FileViewer.init
       (Event.Character "/") = Fault ClampBounds.
Proof. repeat split; reflexivity. Qed.

(** On the empty document the forward scan is defined from -1 only. *)
Lemma FindNextMatchingLine_empty_document (current : Z) (p : string) :
  is_int current -> current <> -1 ->
  FindNextMatchingLine [] current p = Fault IteratorOutOfRange.
Proof.
  intros Hc Hne. unfold FindNextMatchingLine, is_int, INT_MIN, INT_MAX in *.
  change (to_size_t (size [] - 1)) with (2 ^ 64 - 1).
  assert (Hlt : to_size_t current < 2 ^ 64 - 1).
  { destruct (Z.lt_ge_cases current 0).
    - rewrite to_size_t_neg by lia. lia.
    - rewrite to_size_t_id by lia. lia. }
  destruct (Z.geb_spec (to_size_t current) (2 ^ 64 - 1)); [lia|].
  unfold advance.
  assert (Hn : to_int (current + 1) <> 0).
  { destruct (Z.eq_dec current (2 ^ 31 - 1)) as [->|].
    - vm_compute. discriminate.
    - rewrite to_int_id by (unfold is_int, INT_MIN, INT_MAX; lia). lia. }
  simpl Z.of_nat.
  destruct (Z.leb_spec 0 (to_int (current + 1)));
    destruct (Z.leb_spec (to_int (current + 1)) 0); try reflexivity.
  lia.
Qed.

(** ** The filtered page down of the scenario (C6) *)

(** C6. On the five-line document, filtering on "alpha" from line 0 with
    a view three rows high, PageDown finds line 2, then line 4, counts two
    hits and sets the first line to 4. *)
Theorem C6_filtered_page_down_scenario
    (term : Dimensions) (fv : FileViewer.t) :
  1 <= dimx term <= INT_MAX ->
  dimy term = 3 ->
  FileViewer.isFiltering_ fv = true ->
  FileViewer.pattern_ fv = "alpha" ->
  FileViewer.topLine_ fv = 0 ->
  Document.FindNextMatchingLine d5 (0 + 1) "alpha" = Ok 2
  /\ Document.FindNextMatchingLine d5 (2 + 1) "alpha" = Ok 4
  /\ FileViewer.NextFilteredPage_loop d5 "alpha" 3 0 0 = Ok (4, 2)
  /\ exists fv',
       FileViewer.OnEvent d5 term fv keyevents.PgDown = Ok fv'
       /\ FileViewer.topLine_ fv' = 4.
Proof.
  intros Hw Hh Hf Hp Ht.
  split; [reflexivity|]. split; [reflexivity|]. split; [reflexivity|].
  unfold FileViewer.OnEvent.
  rewrite dispatch_special by reflexivity.
  change (classify keyevents.PgDown) with K_PgDown. simpl run_key.
  rewrite Hf. simpl negb. cbv iota.
  unfold FileViewer.CmdNextFilteredPage, FileViewer.ViewHeight.
  rewrite Hh, Hp, Ht.
  change (FileViewer.NextFilteredPage_loop d5 "alpha" 3 0 0) with (Ok (4, 2)).
  cbn [bind].
  change (2 =? to_int (3 - 1)) with true. cbv iota.
  assert (Hd1 : 1 <= size (Document.lines_ d5)) by (vm_compute; discriminate).
  assert (Hd2 : size (Document.lines_ d5) <= INT_MAX)
    by (vm_compute; discriminate).
  destruct (clamp_view_ok d5 term Hd1 Hd2 Hw (FileViewer.set_topLine 4 fv))
    as (l & tl & -> & _ & _ & Hid & _).
  eexists. split; [reflexivity|]. simpl in *.
  apply Hid. vm_compute. split; discriminate.
Qed.

Lemma C6_filtered_page_down_witness :
  Document.FindNextMatchingLine d5 (0 + 1) "alpha" = Ok 2
  /\ Document.FindNextMatchingLine d5 (2 + 1) "alpha" = Ok 4
  /\ FileViewer.NextFilteredPage_loop d5 "alpha" 3 0 0 = Ok (4, 2)
  /\ exists fv',
       FileViewer.OnEvent d5 t80x3
         (FileViewer.mk 0 0 (-1) "alpha" false true true) keyevents.PgDown
       = Ok fv'
       /\ FileViewer.topLine_ fv' = 4.
Proof.
  apply (C6_filtered_page_down_scenario t80x3
           (FileViewer.mk 0 0 (-1) "alpha" false true true)).
  - vm_compute. split; discriminate.
  - reflexivity.
  - reflexivity.
  - reflexivity.
  - reflexivity.
Defined.

(** ** Backspace to the empty pattern (C10) *)

(** C10. While capturing with a pattern of one character on a line
    before the last, Backspace empties the pattern and sets the pending
    match to the next line (every line contains the empty string); Return
    then ends the capture and moves the first line there. *)
Theorem C10_backspace_to_empty_pattern
    (doc : Document.t) (term : Dimensions) (fv : FileViewer.t) (c : ascii) :
  1 <= size (Document.lines_ doc) <= INT_MAX ->
  1 <= dimx term <= INT_MAX ->
  FileViewer.isCapturing_ fv = true ->
  FileViewer.pattern_ fv = String c "" ->
  0 <= FileViewer.topLine_ fv < size (Document.lines_ doc) - 1 ->
  exists fv1 fv2,
    FileViewer.OnEvent doc term fv Event.Backspace = Ok fv1
    /\ FileViewer.pattern_ fv1 = ""
    /\ FileViewer.matchingLine_ fv1 = FileViewer.topLine_ fv + 1
    /\ FileViewer.topLine_ fv1 = FileViewer.topLine_ fv
    /\ FileViewer.isCapturing_ fv1 = true
    /\ FileViewer.OnEvent doc term fv1 Event.Return = Ok fv2
    /\ FileViewer.topLine_ fv2 = FileViewer.topLine_ fv + 1
    /\ FileViewer.isCapturing_ fv2 = false.
Proof.
  intros [Hd1 Hd2] Hw Hc Hp Ht.
  exact (Backspace_last_character doc term Hd1 Hd2 Hw fv c Hc Hp Ht).
Qed.

Lemma C10_backspace_to_empty_pattern_witness :
  exists fv1 fv2,
    FileViewer.OnEvent d5 t80x3 (FileViewer.mk 1 0 (-1) "z" true true false)
      Event.Backspace = Ok fv1
    /\ FileViewer.pattern_ fv1 = ""
    /\ FileViewer.matchingLine_ fv1 = 1 + 1
    /\ FileViewer.topLine_ fv1 = 1
    /\ FileViewer.isCapturing_ fv1 = true
    /\ FileViewer.OnEvent d5 t80x3 fv1 Event.Return = Ok fv2
    /\ FileViewer.topLine_ fv2 = 1 + 1
    /\ FileViewer.isCapturing_ fv2 = false.
Proof.
  apply (C10_backspace_to_empty_pattern d5 t80x3
           (FileViewer.mk 1 0 (-1) "z" true true false) "z"%char).
  - vm_compute. split; discriminate.
  - vm_compute. split; discriminate.
  - reflexivity.
  - reflexivity.
  - unfold size. simpl. lia.
Defined.

(** * More of the viewer *)

(** ** The scans and the wrap-around searches *)

(** X1. On a document that is not empty, the forward scan from a line
    [current >= 0] returns the first line after [current] that contains
    the pattern, and -1 exactly when no line after [current] does. *)
Theorem X1_FindNextMatchingLine_first_after
    (lines : list string) (p : string) (current : Z) :
  1 <= size lines <= INT_MAX ->
  0 <= current <= INT_MAX ->
  exists r,
    FindNextMatchingLine lines current p = Ok r
    /\ ((r = -1 /\ forall k, current < k -> matches_at lines p k = false)
        \/ (current < r < size lines
            /\ matches_at lines p r = true
            /\ forall k, current < k < r -> matches_at lines p k = false)).
Proof.
  intros [Hd1 Hd2] Hc.
  destruct (FindNextMatchingLine_spec lines p Hd2 current Hd1)
    as (r & Hr & [[-> Hnone] | (Hr1 & Hr2 & Hr3 & Hr4)]).
  - unfold is_int, INT_MIN, INT_MAX in *. lia.
  - exists (-1). split; [exact Hr|]. left. split; [reflexivity|].
    apply Hnone. lia.
  - exists r. split; [exact Hr|]. right. repeat split; try lia; assumption.
Qed.

Lemma X1_FindNextMatchingLine_witness :
  exists r,
    FindNextMatchingLine doc5 0 "alpha" = Ok r
    /\ ((r = -1 /\ forall k, 0 < k -> matches_at doc5 "alpha" k = false)
        \/ (0 < r < size doc5
            /\ matches_at doc5 "alpha" r = true
            /\ forall k, 0 < k < r -> matches_at doc5 "alpha" k = false)).
Proof.
  apply (X1_FindNextMatchingLine_first_after doc5 "alpha" 0).
  - vm_compute. split; discriminate.
  - vm_compute. split; discriminate.
Defined.

(** X2. The backward scan from a line [current <= size] returns the last
    line before [current] that contains the pattern, and -1 exactly when
    no line before [current] does. *)
Theorem X2_FindPreviousMatchingLine_last_before
    (lines : list string) (p : string) (current : Z) :
  size lines <= INT_MAX ->
  INT_MIN <= current <= size lines ->
  exists r,
    FindPreviousMatchingLine lines current p = Ok r
    /\ ((r = -1 /\ forall k, k < current -> matches_at lines p k = false)
        \/ (0 <= r < current
            /\ matches_at lines p r = true
            /\ forall k, r < k < current -> matches_at lines p k = false)).
Proof.
  intros Hd Hc.
  apply (FindPreviousMatchingLine_spec lines p Hd current).
  - unfold is_int, INT_MIN, INT_MAX in *. lia.
  - lia.
Qed.

Lemma X2_FindPreviousMatchingLine_witness :
  exists r,
    FindPreviousMatchingLine doc5 4 "alpha" = Ok r
    /\ ((r = -1 /\ forall k, k < 4 -> matches_at doc5 "alpha" k = false)
        \/ (0 <= r < 4
            /\ matches_at doc5 "alpha" r = true
            /\ forall k, r < k < 4 -> matches_at doc5 "alpha" k = false)).
Proof.
  apply (X2_FindPreviousMatchingLine_last_before doc5 "alpha" 4).
  - vm_compute. discriminate.
  - vm_compute. split; discriminate.
Defined.

Lemma LocateNextMatch_spec (lines : list string) (p : string) (current : Z) :
  1 <= size lines -> size lines <= INT_MAX ->
  empty p = false ->
  0 <= current < size lines ->
  exists r,
    LocateNextMatch lines current p = Ok r
    /\ ((r = current
         /\ forall k, current < k -> matches_at lines p k = false)
        \/ (current < r < size lines
            /\ matches_at lines p r = true
            /\ forall k, current < k < r -> matches_at lines p k = false)).
Proof.
  intros Hd1 Hd2 Hp Hc. unfold LocateNextMatch. rewrite Hp. simpl.
  destruct (FindNextMatchingLine_spec lines p Hd2 current Hd1)
    as (r & -> & [[-> Hnone] | (Hr1 & Hr2 & Hr3 & Hr4)]).
  - unfold is_int, INT_MIN, INT_MAX in *. lia.
  - simpl. rewrite FindNextMatchingLine_minus_one. simpl.
    exists current. split; [reflexivity|]. left. split; [reflexivity|].
    apply Hnone. lia.
  - simpl. destruct (Z.eqb_spec r (-1)); [lia|]. simpl.
    destruct (Z.eqb_spec r (-1)); [lia|]. simpl.
    exists r. split; [reflexivity|]. right. repeat split; try lia; assumption.
Qed.

Lemma LocatePreviousMatch_spec
    (lines : list string) (p : string) (current : Z) :
  size lines <= INT_MAX ->
  empty p = false ->
  0 <= current <= size lines ->
  exists r,
    LocatePreviousMatch lines current p = Ok r
    /\ ((0 <= r < current
         /\ matches_at lines p r = true
         /\ forall k, r < k < current -> matches_at lines p k = false)
        \/ (current <= r < size lines
            /\ matches_at lines p r = true
            /\ (forall k, k < current -> matches_at lines p k = false)
            /\ forall k, r < k -> matches_at lines p k = false)
        \/ (r = current /\ forall k, matches_at lines p k = false)).
Proof.
  intros Hd Hp Hc. unfold LocatePreviousMatch. rewrite Hp. simpl.
  destruct (FindPreviousMatchingLine_spec lines p Hd current)
    as (r & -> & [[-> Hnone] | (Hr1 & Hr2 & Hr3)]).
  - unfold is_int, INT_MIN, INT_MAX in *. lia.
  - lia.
  - simpl.
    assert (Hsz : is_int (size lines))
      by (unfold is_int, INT_MIN, INT_MAX, size in *; lia).
    rewrite (to_int_id _ Hsz).
    destruct (FindPreviousMatchingLine_spec lines p Hd (size lines) Hsz
                (Z.le_refl _))
      as (r & -> & [[-> Hnone'] | (Hr1 & Hr2 & Hr3)]); simpl.
    + exists current. split; [reflexivity|]. right. right.
      split; [reflexivity|]. intros k.
      destruct (Z.lt_ge_cases k (size lines));
        [apply Hnone'; assumption | apply matches_at_outside; lia].
    + destruct (Z.eqb_spec r (-1)); [lia|]. simpl.
      exists r. split; [reflexivity|]. right. left.
      assert (current <= r).
      { destruct (Z.lt_ge_cases r current) as [Hlt|]; [|assumption].
        rewrite (Hnone r Hlt) in Hr2. discriminate. }
      repeat split; try lia; try assumption.
      intros k Hk. destruct (Z.lt_ge_cases k (size lines));
        [apply Hr3; lia | apply matches_at_outside; lia].
  - simpl. destruct (Z.eqb_spec r (-1)); [lia|]. simpl.
    destruct (Z.eqb_spec r (-1)); [lia|]. simpl.
    exists r. split; [reflexivity|]. left. repeat split; try lia; assumption.
Qed.

(** X3. With a pattern that is not empty, on a document that is not
    empty, [LocateNextMatch] from a line of the document returns the first
    line after it that contains the pattern, and the line it was given when
    no line after it does. *)
Theorem X3_LocateNextMatch_first_after_or_same
    (lines : list string) (p : string) (current : Z) :
  1 <= size lines <= INT_MAX ->
  empty p = false ->
  0 <= current < size lines ->
  exists r,
    LocateNextMatch lines current p = Ok r
    /\ ((r = current
         /\ forall k, current < k -> matches_at lines p k = false)
        \/ (current < r < size lines
            /\ matches_at lines p r = true
            /\ forall k, current < k < r -> matches_at lines p k = false)).
Proof.
  intros [Hd1 Hd2] Hp Hc. exact (LocateNextMatch_spec lines p current Hd1 Hd2 Hp Hc).
Qed.

Lemma X3_LocateNextMatch_witness :
  exists r,
    LocateNextMatch doc5 2 "alpha" = Ok r
    /\ ((r = 2 /\ forall k, 2 < k -> matches_at doc5 "alpha" k = false)
        \/ (2 < r < size doc5
            /\ matches_at doc5 "alpha" r = true
            /\ forall k, 2 < k < r -> matches_at doc5 "alpha" k = false)).
Proof.
  apply (X3_LocateNextMatch_first_after_or_same doc5 "alpha" 2).
  - vm_compute. split; discriminate.
  - reflexivity.
  - vm_compute. split; [discriminate | reflexivity].
Defined.

(** X4. With a pattern that is not empty, [LocatePreviousMatch] from
    [0 <= current <= size] returns the last line before [current] that
    contains the pattern; when no line before [current] does, it wraps to
    the last line of the whole document that does; and when no line at all
    does, it returns [current]. *)
Theorem X4_LocatePreviousMatch_wraps
    (lines : list string) (p : string) (current : Z) :
  size lines <= INT_MAX ->
  empty p = false ->
  0 <= current <= size lines ->
  exists r,
    LocatePreviousMatch lines current p = Ok r
    /\ ((0 <= r < current
         /\ matches_at lines p r = true
         /\ forall k, r < k < current -> matches_at lines p k = false)
        \/ (current <= r < size lines
            /\ matches_at lines p r = true
            /\ (forall k, k < current -> matches_at lines p k = false)
            /\ forall k, r < k -> matches_at lines p k = false)
        \/ (r = current /\ forall k, matches_at lines p k = false)).
Proof.
  intros Hd Hp Hc. exact (LocatePreviousMatch_spec lines p current Hd Hp Hc).
Qed.

Lemma X4_LocatePreviousMatch_witness :
  exists r,
    LocatePreviousMatch doc5 0 "alpha" = Ok r
    /\ ((0 <= r < 0
         /\ matches_at doc5 "alpha" r = true
         /\ forall k, r < k < 0 -> matches_at doc5 "alpha" k = false)
        \/ (0 <= r < size doc5
            /\ matches_at doc5 "alpha" r = true
            /\ (forall k, k < 0 -> matches_at doc5 "alpha" k = false)
            /\ forall k, r < k -> matches_at doc5 "alpha" k = false)
        \/ (r = 0 /\ forall k, matches_at doc5 "alpha" k = false)).
Proof.
  apply (X4_LocatePreviousMatch_wraps doc5 "alpha" 0).
  - vm_compute. discriminate.
  - reflexivity.
  - vm_compute. split; discriminate.
Defined.

(** ** Events on a view inside the document *)

Lemma clamp_max_min (v lo hi : Z) :
  lo <= hi -> clamp v lo hi = Ok (Z.max lo (Z.min v hi)).
Proof.
  intros H. unfold clamp. destruct (Z.ltb_spec hi lo); [lia|].
  f_equal. destruct (Z.ltb_spec v lo); [lia|].
  destruct (Z.ltb_spec hi v); lia.
Qed.

Lemma append_nil_r (s : string) : (s ++ "")%string = s.
Proof. induction s as [|c s IH]; simpl; [reflexivity | now rewrite IH]. Qed.

Lemma append_assoc (s1 s2 s3 : string) :
  ((s1 ++ s2) ++ s3)%string = (s1 ++ (s2 ++ s3))%string.
Proof. induction s1 as [|c s1 IH]; simpl; [reflexivity | now rewrite IH]. Qed.

Lemma run_app (doc : Document.t) (term : Dimensions) (es1 es2 : list Event.t) :
  forall fv,
    run doc term fv (es1 ++ es2)
    = (fv' <- run doc term fv es1 ;; run doc term fv' es2).
Proof.
  induction es1 as [|e es1 IH]; intros fv; simpl; [reflexivity|].
  destruct (FileViewer.OnEvent doc term fv e) as [fv1|f]; simpl;
    [apply IH | reflexivity].
Qed.

Section InView.

Import FileViewer.

Variable doc : Document.t.
Variable term : Dimensions.
Hypothesis doc_term_fit : fits doc term.

Local Abbreviation lines := (Document.lines_ doc).

Lemma fits_Size : Document.Size doc = size lines.
Proof. destruct doc_term_fit as [[H1 H2] _]. exact (Size_eq doc H1 H2). Qed.

(** The two closing statements of [OnEvent], as one formula. *)
Lemma clamp_view_eq (fv : t) :
  clamp_view doc term fv
  = Ok (set_topLine (Z.max 0 (Z.min (topLine_ fv) (size lines - 1)))
          (set_leftEdge (Z.max 0 (Z.min (leftEdge_ fv) (dimx term - 1))) fv)).
Proof.
  destruct doc_term_fit as [[H1 H2] [H3 H4]].
  unfold clamp_view, ViewWidth. rewrite fits_Size. unfold INT_MAX in *.
  rewrite (to_int_id (dimx term - 1))
    by (unfold is_int, INT_MIN, INT_MAX; lia).
  rewrite (to_int_id (size lines - 1))
    by (unfold is_int, INT_MIN, INT_MAX; lia).
  rewrite clamp_max_min by lia. cbn [bind].
  rewrite clamp_max_min by lia. reflexivity.
Qed.

Lemma clamp_view_in_view (fv : t) :
  in_view doc term fv -> clamp_view doc term fv = Ok fv.
Proof.
  intros [Ht Hl]. rewrite clamp_view_eq.
  rewrite (Z.min_l (topLine_ fv)) by lia. rewrite (Z.max_r 0 (topLine_ fv)) by lia.
  rewrite (Z.min_l (leftEdge_ fv)) by lia.
  rewrite (Z.max_r 0 (leftEdge_ fv)) by lia.
  destruct fv. reflexivity.
Qed.

Lemma OnEvent_special (fv : t) (e : Event.t) :
  Event.is_character e = false ->
  OnEvent doc term fv e
  = (fv' <- run_key doc term fv (classify e) ;; clamp_view doc term fv').
Proof.
  intros Hc. unfold OnEvent. rewrite (dispatch_special doc term fv e Hc).
  reflexivity.
Qed.

Lemma in_view_wf (fv : t) : in_view doc term fv -> wf doc fv.
Proof. intros [H _]. exact H. Qed.

Lemma OnEvent_in_view (fv : t) (e : Event.t) :
  wf doc fv ->
  exists fv', OnEvent doc term fv e = Ok fv' /\ in_view doc term fv'.
Proof.
  intros Hwf. destruct doc_term_fit as [[H1 H2] H3].
  destruct (OnEvent_clamps doc term H1 H2 H3 fv e Hwf) as (fv' & He & Hl & Ht).
  exists fv'. split; [exact He|]. unfold in_view. lia.
Qed.

Lemma run_in_view (events : list Event.t) :
  forall fv, in_view doc term fv ->
    exists fv', run doc term fv events = Ok fv' /\ in_view doc term fv'.
Proof.
  induction events as [|e events IH]; intros fv Hv; simpl.
  - exists fv. split; [reflexivity | exact Hv].
  - destruct (OnEvent_in_view fv e (in_view_wf fv Hv)) as (fv1 & -> & Hv1).
    simpl. apply IH, Hv1.
Qed.

Lemma OnEvent_ignored (fv : t) (e : Event.t) :
  in_view doc term fv -> ignored fv e = true ->
  OnEvent doc term fv e = Ok fv.
Proof.
  intros Hv Hi. unfold ignored in Hi.
  destruct (Event.is_character e) eqn:Hc.
  - unfold OnEvent, dispatch. rewrite Hc.
    repeat (apply andb_prop in Hi; destruct Hi as [Hi ?]).
    apply negb_true_iff in Hi. rewrite Hi.
    repeat match goal with
           | H : negb ?b = true |- _ => apply negb_true_iff in H; rewrite H
           end.
    simpl. apply clamp_view_in_view, Hv.
  - rewrite (OnEvent_special fv e Hc).
    destruct (classify e); try discriminate; simpl.
    + unfold CmdEndCapture. apply negb_true_iff in Hi. rewrite Hi.
      apply clamp_view_in_view, Hv.
    + unfold CmdCancelCapture. apply negb_true_iff in Hi. rewrite Hi.
      apply clamp_view_in_view, Hv.
    + unfold CmdBackspaceCapture.
      destruct (isCapturing_ fv); simpl in *;
        [rewrite Hi; simpl|]; apply clamp_view_in_view, Hv.
    + apply clamp_view_in_view, Hv.
Qed.

(** *** Typing a pattern *)

Lemma OnEvent_typing (fv : t) (ch : string) :
  in_view doc term fv -> isCapturing_ fv = true ->
  exists r,
    FindNextMatchingLine lines (topLine_ fv) (pattern_ fv ++ ch) = Ok r
    /\ OnEvent doc term fv (Event.Character ch)
       = Ok (set_matchingLine r (set_pattern (pattern_ fv ++ ch) fv)).
Proof.
  intros Hv Hc. destruct doc_term_fit as [[H1 H2] H3].
  destruct (FindNextMatchingLine_spec lines (pattern_ fv ++ ch) H2
              (topLine_ fv) H1 (wf_is_int doc H2 fv (in_view_wf fv Hv)))
    as (r & Hr & _).
  exists r. split; [exact Hr|].
  unfold OnEvent, dispatch. cbn [Event.is_character Event.Character].
  rewrite Hc. unfold UpdateMatchFromPattern, Document.FindNextMatchingLine.
  cbn [topLine_ pattern_ set_pattern].
  change (Event.character (Event.Character ch)) with ch.
  rewrite Hr. cbn [bind].
  apply clamp_view_in_view. exact Hv.
Qed.

Lemma run_typing (chars : list string) :
  forall fv,
    in_view doc term fv -> isCapturing_ fv = true ->
    exists r,
      run doc term fv (map Event.Character chars)
      = Ok (set_matchingLine r
              (set_pattern (pattern_ fv ++ String.concat "" chars) fv))
      /\ (chars = [] -> r = matchingLine_ fv)
      /\ (chars <> [] ->
          FindNextMatchingLine lines (topLine_ fv)
            (pattern_ fv ++ String.concat "" chars) = Ok r).
Proof.
  induction chars as [|ch chars IH]; intros fv Hv Hc.
  - exists (matchingLine_ fv). simpl. rewrite append_nil_r.
    split; [destruct fv; reflexivity|]. split; [reflexivity | congruence].
  - destruct (OnEvent_typing fv ch Hv Hc) as (r1 & Hr1 & He).
    simpl map. simpl run. rewrite He. cbn [bind].
    set (fv1 := set_matchingLine r1 (set_pattern (pattern_ fv ++ ch) fv)).
    destruct (IH fv1 Hv Hc) as (r & Hrun & Hnil & Hcons).
    assert (Hcat : (pattern_ fv ++ String.concat "" (ch :: chars))%string
                   = (pattern_ fv1 ++ String.concat "" chars)%string).
    { unfold fv1. cbn [pattern_ set_pattern set_matchingLine].
      rewrite append_assoc. f_equal.
      destruct chars; simpl; [now rewrite append_nil_r | reflexivity]. }
    exists r. rewrite Hcat. split; [|split; [discriminate|]].
    + rewrite Hrun. unfold fv1. destruct fv. reflexivity.
    + intros _. destruct chars as [|ch' chars'].
      * rewrite (Hnil eq_refl). unfold fv1.
        cbn [pattern_ set_pattern set_matchingLine matchingLine_ topLine_].
        simpl String.concat. rewrite append_nil_r. exact Hr1.
      * apply Hcons. discriminate.
Qed.

End InView.

(** Sizes inside the [int] range fit the viewer. *)
Lemma bounded_fits (doc : Document.t) (term : Dimensions) :
  1 <= size (Document.lines_ doc) -> bounded doc term -> fits doc term.
Proof.
  intros Hd (Hs & [Hx1 Hx2] & [Hy1 Hy2] & _).
  unfold fits, FileViewer.xFactor_, FileViewer.yFactor_, INT_MAX in *. lia.
Qed.

Lemma bounded_height (doc : Document.t) (term : Dimensions) :
  bounded doc term -> 1 <= dimy term <= INT_MAX.
Proof.
  intros (_ & _ & [Hy1 Hy2] & _).
  unfold FileViewer.yFactor_, INT_MAX in *. lia.
Qed.

(** With sizes inside the [int] range and the viewer in view, the sums
    of the line, column and page commands and the products of
    [CanvasSize] stay inside the range: [to_int] is the identity
    there. *)
Lemma commands_without_overflow
    (doc : Document.t) (term : Dimensions) (fv : FileViewer.t) :
  1 <= size (Document.lines_ doc) ->
  bounded doc term ->
  in_view doc term fv ->
  FileViewer.CmdNextLine fv
  = FileViewer.set_topLine (FileViewer.topLine_ fv + 1) fv
  /\ FileViewer.CmdPreviousLine fv
     = FileViewer.set_topLine (FileViewer.topLine_ fv - 1) fv
  /\ FileViewer.CmdNextColumn fv
     = FileViewer.set_leftEdge (FileViewer.leftEdge_ fv + 1) fv
  /\ FileViewer.CmdPreviousColumn fv
     = FileViewer.set_leftEdge (FileViewer.leftEdge_ fv - 1) fv
  /\ FileViewer.CmdNextPage term fv
     = FileViewer.set_topLine (FileViewer.topLine_ fv + (dimy term - 1)) fv
  /\ FileViewer.CmdPreviousPage term fv
     = FileViewer.set_topLine (FileViewer.topLine_ fv - (dimy term - 1)) fv
  /\ FileViewer.CmdEndOfDocument doc term fv
     = FileViewer.set_topLine
         (size (Document.lines_ doc) - (dimy term - 1)) fv
  /\ FileViewer.CanvasSize term
     = (dimx term * FileViewer.xFactor_, dimy term * FileViewer.yFactor_).
Proof.
  intros Hd Hb [Ht Hl].
  pose proof (fits_Size doc term (bounded_fits doc term Hd Hb)) as HS.
  destruct Hb as (Hs & [Hx1 Hx2] & [Hy1 Hy2] & _).
  unfold FileViewer.CmdNextLine, FileViewer.CmdPreviousLine,
    FileViewer.CmdNextColumn, FileViewer.CmdPreviousColumn,
    FileViewer.CmdNextPage, FileViewer.CmdPreviousPage,
    FileViewer.CmdEndOfDocument, FileViewer.CanvasSize, FileViewer.ViewHeight.
  rewrite HS.
  unfold FileViewer.xFactor_, FileViewer.yFactor_, INT_MAX in *.
  rewrite (to_int_id (dimy term - 1))
    by (unfold is_int, INT_MIN, INT_MAX; lia).
  rewrite !to_int_id by (unfold is_int, INT_MIN, INT_MAX; lia).
  repeat split; reflexivity.
Qed.

(** [bounded] for a given document and terminal, by computation. *)
Ltac bounded_by_computation :=
  unfold bounded;
  split; [vm_compute; discriminate|];
  split; [split; vm_compute; discriminate|];
  split; [split; vm_compute; discriminate|];
  repeat (constructor; [vm_compute; discriminate|]); constructor.

(** X5. On a document that is not empty, with sizes inside the [int]
    range, from a viewer whose first line is a line of the document and
    whose left edge is a column of the terminal, every event returns a
    viewer whose first line is a line of the document and whose left edge
    is a column of the terminal. *)
Theorem X5_OnEvent_keeps_the_view
    (doc : Document.t) (term : Dimensions) (fv : FileViewer.t) (e : Event.t) :
  1 <= size (Document.lines_ doc) ->
  bounded doc term ->
  in_view doc term fv ->
  exists fv',
    FileViewer.OnEvent doc term fv e = Ok fv' /\ in_view doc term fv'.
Proof.
  intros Hd Hb Hv.
  exact (OnEvent_in_view doc term (bounded_fits doc term Hd Hb) fv e
           (proj1 Hv)).
Qed.

Lemma X5_OnEvent_keeps_the_view_witness :
  exists fv',
    FileViewer.OnEvent d5 t80x3 (FileViewer.mk 4 79 7 "" false true false)
      keyevents.PgDown = Ok fv'
    /\ in_view d5 t80x3 fv'.
Proof.
  apply (X5_OnEvent_keeps_the_view d5 t80x3
           (FileViewer.mk 4 79 7 "" false true false) keyevents.PgDown).
  - vm_compute. discriminate.
  - bounded_by_computation.
  - vm_compute. repeat split; discriminate.
Defined.

(** X6. On a document that is not empty, with sizes inside the [int]
    range, every sequence of events from the viewer as constructed
    returns, with the first line on a line of the document and the left
    edge on a column of the terminal. *)
Theorem X6_every_run_stays_in_view
    (doc : Document.t) (term : Dimensions) (events : list Event.t) :
  1 <= size (Document.lines_ doc) ->
  bounded doc term ->
  exists fv',
    run doc term FileViewer.init events = Ok fv' /\ in_view doc term fv'.
Proof.
  intros Hd Hb. pose proof (bounded_fits doc term Hd Hb) as Hfit.
  apply (run_in_view doc term Hfit).
  destruct Hfit as [[H1 _] [H2 _]]. unfold in_view. simpl. lia.
Qed.

Lemma X6_every_run_stays_in_view_witness :
  exists fv',
    run d5 t80x3 FileViewer.init
      [keyevents.CtrlEnd; Event.ArrowDown; keyevents.End_; Event.ArrowRight]
    = Ok fv'
    /\ in_view d5 t80x3 fv'.
Proof.
  apply (X6_every_run_stays_in_view d5 t80x3).
  - vm_compute. discriminate.
  - bounded_by_computation.
Defined.

(** X7. An event the viewer has no command for changes nothing when the
    view is inside the document: a special event outside the table, among
    them Ctrl+PageUp and Ctrl+PageDown; Return, Escape and Backspace when
    nothing is being captured; Backspace on an empty pattern; a character
    other than [/], [n], [p] when nothing is being captured. *)
Theorem X7_ignored_events_change_nothing
    (doc : Document.t) (term : Dimensions) (fv : FileViewer.t) (e : Event.t) :
  fits doc term ->
  in_view doc term fv ->
  ignored fv e = true \/ e = keyevents.CtrlPgUp \/ e = keyevents.CtrlPgDown ->
  FileViewer.OnEvent doc term fv e = Ok fv.
Proof.
  intros Hfit Hv He. apply (OnEvent_ignored doc term Hfit fv e Hv).
  destruct He as [He | [-> | ->]]; [exact He | reflexivity | reflexivity].
Qed.

Lemma X7_ignored_events_witness :
  FileViewer.OnEvent d5 t80x3 (FileViewer.mk 3 5 2 "alpha" false true true)
    Event.Return
  = Ok (FileViewer.mk 3 5 2 "alpha" false true true).
Proof.
  apply (X7_ignored_events_change_nothing d5 t80x3
           (FileViewer.mk 3 5 2 "alpha" false true true) Event.Return).
  - vm_compute. repeat split; discriminate.
  - vm_compute. repeat split; discriminate.
  - left. reflexivity.
Defined.

(** ** A capture from [/] to Escape or Return *)

Section Capture.

Import FileViewer.

Variable doc : Document.t.
Variable term : Dimensions.
Hypothesis doc_term_fit : fits doc term.

Lemma run_capture (fv : t) (chars : list string) :
  in_view doc term fv -> isCapturing_ fv = false ->
  exists r,
    run doc term fv (Event.Character "/" :: map Event.Character chars)
    = Ok (set_matchingLine r
            (set_pattern (String.concat "" chars) (set_isCapturing true fv)))
    /\ (chars <> [] ->
        FindNextMatchingLine (Document.lines_ doc) (topLine_ fv)
          (String.concat "" chars) = Ok r).
Proof.
  intros Hv Hc.
  assert (Hslash : OnEvent doc term fv (Event.Character "/")
                   = Ok (CmdStartCapture fv)).
  { unfold OnEvent, dispatch. cbn [Event.is_character Event.Character].
    rewrite Hc. change (Event.character (Event.Character "/")) with "/".
    cbn [String.eqb Ascii.eqb Bool.eqb andb bind].
    apply (clamp_view_in_view doc term doc_term_fit). exact Hv. }
  simpl run. rewrite Hslash. cbn [bind].
  destruct (run_typing doc term doc_term_fit chars (CmdStartCapture fv) Hv
              eq_refl) as (r & Hrun & _ & Hfind).
  exists r. split.
  - rewrite Hrun. destruct fv. reflexivity.
  - exact Hfind.
Qed.

Lemma Escape_cancels (fv : t) :
  in_view doc term fv -> isCapturing_ fv = true ->
  OnEvent doc term fv Event.Escape
  = Ok (set_matchingLine (-1) (set_pattern "" (set_isCapturing false fv))).
Proof.
  intros Hv Hc.
  rewrite (OnEvent_special doc term fv Event.Escape eq_refl).
  change (classify Event.Escape) with K_Escape. simpl run_key.
  unfold CmdCancelCapture. rewrite Hc. cbn [bind].
  apply (clamp_view_in_view doc term doc_term_fit). exact Hv.
Qed.

Lemma Return_commits (fv : t) :
  in_view doc term fv -> isCapturing_ fv = true ->
  0 <= matchingLine_ fv < size (Document.lines_ doc) ->
  OnEvent doc term fv Event.Return
  = Ok (set_topLine (matchingLine_ fv) (set_isCapturing false fv)).
Proof.
  intros Hv Hc Hm.
  rewrite (OnEvent_special doc term fv Event.Return eq_refl).
  change (classify Event.Return) with K_Return. simpl run_key.
  unfold CmdEndCapture. rewrite Hc. cbn [bind].
  apply (clamp_view_in_view doc term doc_term_fit).
  destruct Hv as [_ Hl]. split; [exact Hm | exact Hl].
Qed.

End Capture.

(** X8. A capture that Escape ends leaves the view where it was: from a
    viewer that is not capturing, [/], any characters and Escape give the
    same first line, left edge and flags, with the pattern empty and no
    pending match. *)
Theorem X8_cancelled_capture_restores_the_view
    (doc : Document.t) (term : Dimensions) (fv : FileViewer.t)
    (chars : list string) :
  fits doc term ->
  in_view doc term fv ->
  FileViewer.isCapturing_ fv = false ->
  run doc term fv
    (Event.Character "/" :: map Event.Character chars ++ [Event.Escape])
  = Ok (FileViewer.mk (FileViewer.topLine_ fv) (FileViewer.leftEdge_ fv) (-1)
          "" false (FileViewer.showLineNumbers_ fv)
          (FileViewer.isFiltering_ fv)).
Proof.
  intros Hfit Hv Hc.
  change (Event.Character "/" :: map Event.Character chars ++ [Event.Escape])
    with ((Event.Character "/" :: map Event.Character chars)
          ++ [Event.Escape])%list.
  rewrite run_app.
  destruct (run_capture doc term Hfit fv chars Hv Hc) as (r & -> & _).
  cbn [bind]. simpl run.
  rewrite (Escape_cancels doc term Hfit); [reflexivity | exact Hv | reflexivity].
Qed.

Lemma X8_cancelled_capture_witness :
  run d5 t80x3 (FileViewer.mk 1 3 4 "beta" false true true)
    (Event.Character "/" :: map Event.Character ["g"; "a"] ++ [Event.Escape])
  = Ok (FileViewer.mk 1 3 (-1) "" false true true).
Proof.
  apply (X8_cancelled_capture_restores_the_view d5 t80x3
           (FileViewer.mk 1 3 4 "beta" false true true) ["g"; "a"]).
  - vm_compute. repeat split; discriminate.
  - vm_compute. repeat split; discriminate.
  - reflexivity.
Defined.

(** X9. A capture that Return ends goes to the match: from a viewer that
    is not capturing, after [/] and at least one character, when the
    forward scan from the first line finds a line [r] for the typed
    pattern, Return makes [r] the first line, keeps the typed pattern and
    ends the capture. *)
Theorem X9_committed_capture_goes_to_the_match
    (doc : Document.t) (term : Dimensions) (fv : FileViewer.t)
    (chars : list string) (r : Z) :
  fits doc term ->
  in_view doc term fv ->
  FileViewer.isCapturing_ fv = false ->
  chars <> [] ->
  FindNextMatchingLine (Document.lines_ doc) (FileViewer.topLine_ fv)
    (String.concat "" chars) = Ok r ->
  r <> -1 ->
  run doc term fv
    (Event.Character "/" :: map Event.Character chars ++ [Event.Return])
  = Ok (FileViewer.mk r (FileViewer.leftEdge_ fv) r (String.concat "" chars)
          false (FileViewer.showLineNumbers_ fv)
          (FileViewer.isFiltering_ fv)).
Proof.
  intros Hfit Hv Hc Hne Hfind Hr.
  change (Event.Character "/" :: map Event.Character chars ++ [Event.Return])
    with ((Event.Character "/" :: map Event.Character chars)
          ++ [Event.Return])%list.
  rewrite run_app.
  destruct (run_capture doc term Hfit fv chars Hv Hc) as (r' & -> & Hfind').
  rewrite (Hfind' Hne) in Hfind. injection Hfind as ->.
  cbn [bind]. simpl run.
  rewrite (Return_commits doc term Hfit); [reflexivity | exact Hv | reflexivity|].
  cbn [FileViewer.matchingLine_ FileViewer.set_matchingLine].
  destruct Hfit as [[H1 H2] _].
  destruct (FindNextMatchingLine_spec (Document.lines_ doc)
              (String.concat "" chars) H2 (FileViewer.topLine_ fv) H1
              (wf_is_int doc H2 fv (proj1 Hv)))
    as (r0 & Hr0 & [[Hm1 _] | (Ha & Hb & _)]);
    rewrite (Hfind' Hne) in Hr0; injection Hr0 as Heq; lia.
Qed.

Lemma X9_committed_capture_witness :
  run d5 t80x3 FileViewer.init
    (Event.Character "/" :: map Event.Character ["a"; "l"; "p"; "h"; "a"]
     ++ [Event.Return])
  = Ok (FileViewer.mk 2 0 2 (String.concat "" ["a"; "l"; "p"; "h"; "a"])
          false true false).
Proof.
  apply (X9_committed_capture_goes_to_the_match d5 t80x3 FileViewer.init
           ["a"; "l"; "p"; "h"; "a"] 2).
  - vm_compute. repeat split; discriminate.
  - vm_compute. repeat split; discriminate.
  - reflexivity.
  - discriminate.
  - reflexivity.
  - discriminate.
Defined.

(** ** The navigation keys on a view inside the document *)

Section Navigation.

Import FileViewer.

Variable doc : Document.t.
Variable term : Dimensions.
Hypothesis doc_term_fit : fits doc term.

Local Abbreviation lines := (Document.lines_ doc).

Lemma clamp_view_set_topLine (fv : t) (v : Z) :
  in_view doc term fv ->
  clamp_view doc term (set_topLine v fv)
  = Ok (set_topLine (Z.max 0 (Z.min v (size lines - 1))) fv).
Proof.
  intros [_ Hl]. rewrite (clamp_view_eq doc term doc_term_fit).
  cbn [topLine_ leftEdge_ set_topLine].
  rewrite (Z.min_l (leftEdge_ fv)) by lia.
  rewrite (Z.max_r 0 (leftEdge_ fv)) by lia.
  destruct fv. reflexivity.
Qed.

Lemma clamp_view_set_leftEdge (fv : t) (v : Z) :
  in_view doc term fv ->
  clamp_view doc term (set_leftEdge v fv)
  = Ok (set_leftEdge (Z.max 0 (Z.min v (dimx term - 1))) fv).
Proof.
  intros [Ht _]. rewrite (clamp_view_eq doc term doc_term_fit).
  cbn [topLine_ leftEdge_ set_leftEdge].
  rewrite (Z.min_l (topLine_ fv)) by lia.
  rewrite (Z.max_r 0 (topLine_ fv)) by lia.
  destruct fv. reflexivity.
Qed.

Lemma in_view_ints (fv : t) :
  in_view doc term fv ->
  0 <= topLine_ fv < 2 ^ 31 - 1 /\ 0 <= leftEdge_ fv < 2 ^ 31 - 1.
Proof.
  destruct doc_term_fit as [[_ H2] [_ H4]]. unfold INT_MAX in *.
  intros [Ht Hl]. lia.
Qed.

Ltac special_event k :=
  match goal with
  | |- OnEvent doc term ?fv ?e = _ =>
      rewrite (OnEvent_special doc term fv e eq_refl);
      change (classify e) with k; simpl run_key
  end.

Lemma toggles (fv : t) :
  in_view doc term fv ->
  OnEvent doc term fv keyevents.CtrlL
  = Ok (set_showLineNumbers (negb (showLineNumbers_ fv)) fv)
  /\ OnEvent doc term fv keyevents.CtrlT
     = Ok (set_isFiltering (negb (isFiltering_ fv)) fv).
Proof.
  intros Hv. split.
  - special_event K_CtrlL. cbn [bind].
    apply (clamp_view_in_view doc term doc_term_fit). exact Hv.
  - special_event K_CtrlT. cbn [bind].
    apply (clamp_view_in_view doc term doc_term_fit). exact Hv.
Qed.

Lemma vertical_arrows (fv : t) :
  in_view doc term fv ->
  isFiltering_ fv = false \/ pattern_ fv = "" ->
  OnEvent doc term fv Event.ArrowDown
  = Ok (set_topLine (Z.min (topLine_ fv + 1) (size lines - 1)) fv)
  /\ OnEvent doc term fv Event.ArrowUp
     = Ok (set_topLine (Z.max (topLine_ fv - 1) 0) fv).
Proof.
  intros Hv Hf. pose proof (in_view_ints fv Hv) as [Hi _].
  assert (Hcond : isFiltering_ fv && negb (empty (pattern_ fv)) = false)
    by (destruct Hf as [-> | ->]; [reflexivity | apply andb_false_r]).
  destruct Hv as [Ht Hl]. split.
  - special_event K_ArrowDown. rewrite Hcond. cbn [bind]. unfold CmdNextLine.
    rewrite to_int_id by (unfold is_int, INT_MIN, INT_MAX; lia).
    rewrite clamp_view_set_topLine by (split; assumption).
    do 2 f_equal. lia.
  - special_event K_ArrowUp. rewrite Hcond. cbn [bind]. unfold CmdPreviousLine.
    rewrite to_int_id by (unfold is_int, INT_MIN, INT_MAX; lia).
    rewrite clamp_view_set_topLine by (split; assumption).
    do 2 f_equal. lia.
Qed.

Lemma horizontal_keys (fv : t) :
  in_view doc term fv ->
  OnEvent doc term fv Event.ArrowRight
  = Ok (set_leftEdge (Z.min (leftEdge_ fv + 1) (dimx term - 1)) fv)
  /\ OnEvent doc term fv Event.ArrowLeft
     = Ok (set_leftEdge (Z.max (leftEdge_ fv - 1) 0) fv)
  /\ OnEvent doc term fv keyevents.Home = Ok (set_leftEdge 0 fv).
Proof.
  intros Hv. pose proof (in_view_ints fv Hv) as [_ Hi].
  destruct doc_term_fit as [_ Hw].
  destruct Hv as [Ht Hl]. repeat split.
  - special_event K_ArrowRight. cbn [bind]. unfold CmdNextColumn.
    rewrite to_int_id by (unfold is_int, INT_MIN, INT_MAX; lia).
    rewrite clamp_view_set_leftEdge by (split; assumption).
    do 2 f_equal. lia.
  - special_event K_ArrowLeft. cbn [bind]. unfold CmdPreviousColumn.
    rewrite to_int_id by (unfold is_int, INT_MIN, INT_MAX; lia).
    rewrite clamp_view_set_leftEdge by (split; assumption).
    do 2 f_equal. lia.
  - special_event K_Home. cbn [bind]. unfold CmdLeftmostColumn.
    rewrite clamp_view_set_leftEdge by (split; assumption).
    do 2 f_equal. lia.
Qed.

Lemma plain_pages (fv : t) :
  in_view doc term fv ->
  isFiltering_ fv = false ->
  1 <= dimy term ->
  size lines + dimy term <= INT_MAX ->
  OnEvent doc term fv keyevents.PgDown
  = Ok (set_topLine (Z.min (topLine_ fv + (dimy term - 1)) (size lines - 1)) fv)
  /\ OnEvent doc term fv keyevents.PgUp
     = Ok (set_topLine (Z.max (topLine_ fv - (dimy term - 1)) 0) fv).
Proof.
  intros Hv Hf Hh Hsum. pose proof (in_view_ints fv Hv) as [Hi _].
  destruct doc_term_fit as [[Hs0 Hs] _]. unfold INT_MAX in *.
  assert (HH : to_int (dimy term - 1) = dimy term - 1)
    by (apply to_int_id; unfold is_int, INT_MIN, INT_MAX; lia).
  destruct Hv as [Ht Hl]. split.
  - special_event K_PgDown. rewrite Hf. cbn [negb bind].
    unfold CmdNextPage, ViewHeight. rewrite HH.
    rewrite to_int_id by (unfold is_int, INT_MIN, INT_MAX; lia).
    rewrite clamp_view_set_topLine by (split; assumption).
    do 2 f_equal. lia.
  - special_event K_PgUp. rewrite Hf. cbn [negb bind].
    unfold CmdPreviousPage, ViewHeight. rewrite HH.
    rewrite to_int_id by (unfold is_int, INT_MIN, INT_MAX; lia).
    rewrite clamp_view_set_topLine by (split; assumption).
    do 2 f_equal. lia.
Qed.

Lemma document_ends (fv : t) :
  in_view doc term fv ->
  1 <= dimy term <= INT_MAX ->
  OnEvent doc term fv keyevents.CtrlHome = Ok (set_topLine 0 fv)
  /\ OnEvent doc term fv keyevents.CtrlEnd
     = Ok (set_topLine
             (Z.max 0 (Z.min (size lines - (dimy term - 1)) (size lines - 1)))
             fv).
Proof.
  intros Hv Hh.
  destruct doc_term_fit as [[Hs0 Hs] _]. unfold INT_MAX in *.
  assert (HH : to_int (dimy term - 1) = dimy term - 1)
    by (apply to_int_id; unfold is_int, INT_MIN, INT_MAX; lia).
  split.
  - special_event K_CtrlHome. cbn [bind]. unfold CmdStartOfDocument.
    rewrite clamp_view_set_topLine by exact Hv.
    do 2 f_equal. lia.
  - special_event K_CtrlEnd. cbn [bind]. unfold CmdEndOfDocument, ViewHeight.
    rewrite HH, (fits_Size doc term doc_term_fit).
    rewrite to_int_id by (unfold is_int, INT_MIN, INT_MAX; lia).
    rewrite clamp_view_set_topLine by exact Hv. reflexivity.
Qed.

Lemma next_match_keys (fv : t) :
  in_view doc term fv ->
  empty (pattern_ fv) = false ->
  exists r,
    LocateNextMatch lines (topLine_ fv) (pattern_ fv) = Ok r
    /\ 0 <= r < size lines
    /\ (isCapturing_ fv = false ->
        OnEvent doc term fv (Event.Character "n") = Ok (set_topLine r fv))
    /\ (isFiltering_ fv = true ->
        OnEvent doc term fv Event.ArrowDown = Ok (set_topLine r fv)).
Proof.
  intros Hv Hp. destruct doc_term_fit as [[H1 H2] _].
  destruct (LocateNextMatch_spec lines (pattern_ fv) (topLine_ fv) H1 H2 Hp
              (proj1 Hv)) as (r & Hr & Hdesc).
  assert (Hrange : 0 <= r < size lines)
    by (destruct Hv as [Ht _]; destruct Hdesc as [[-> _] | [? _]]; lia).
  assert (Hclamp : clamp_view doc term (set_topLine r fv)
                   = Ok (set_topLine r fv)).
  { rewrite clamp_view_set_topLine by exact Hv. do 2 f_equal. lia. }
  exists r. split; [exact Hr|]. split; [exact Hrange|]. split.
  - intros Hc. unfold OnEvent, dispatch.
    cbn [Event.is_character Event.Character]. rewrite Hc.
    change (Event.character (Event.Character "n")) with "n".
    cbn [String.eqb Ascii.eqb Bool.eqb andb].
    unfold CmdNextMatch, Document.LocateNextMatch. rewrite Hr. cbn [bind].
    exact Hclamp.
  - intros Hf. special_event K_ArrowDown. rewrite Hf, Hp. cbn [negb andb].
    unfold CmdNextMatch, Document.LocateNextMatch. rewrite Hr. cbn [bind].
    exact Hclamp.
Qed.

Lemma previous_match_keys (fv : t) :
  in_view doc term fv ->
  empty (pattern_ fv) = false ->
  exists r,
    LocatePreviousMatch lines (topLine_ fv) (pattern_ fv) = Ok r
    /\ 0 <= r < size lines
    /\ (isCapturing_ fv = false ->
        OnEvent doc term fv (Event.Character "p") = Ok (set_topLine r fv))
    /\ (isFiltering_ fv = true ->
        OnEvent doc term fv Event.ArrowUp = Ok (set_topLine r fv)).
Proof.
  intros Hv Hp. destruct doc_term_fit as [[H1 H2] _].
  destruct (LocatePreviousMatch_spec lines (pattern_ fv) (topLine_ fv) H2 Hp)
    as (r & Hr & Hdesc); [destruct Hv; lia|].
  assert (Hrange : 0 <= r < size lines)
    by (destruct Hv as [Ht _];
        destruct Hdesc as [[? _] | [[? _] | [-> _]]]; lia).
  assert (Hclamp : clamp_view doc term (set_topLine r fv)
                   = Ok (set_topLine r fv)).
  { rewrite clamp_view_set_topLine by exact Hv. do 2 f_equal. lia. }
  exists r. split; [exact Hr|]. split; [exact Hrange|]. split.
  - intros Hc. unfold OnEvent, dispatch.
    cbn [Event.is_character Event.Character]. rewrite Hc.
    change (Event.character (Event.Character "p")) with "p".
    cbn [String.eqb Ascii.eqb Bool.eqb andb].
    unfold CmdPreviousMatch, Document.LocatePreviousMatch. rewrite Hr.
    cbn [bind]. exact Hclamp.
  - intros Hf. special_event K_ArrowUp. rewrite Hf, Hp. cbn [negb andb].
    unfold CmdPreviousMatch, Document.LocatePreviousMatch. rewrite Hr.
    cbn [bind]. exact Hclamp.
Qed.

End Navigation.

(** X10. Ctrl+L flips the line-number flag and Ctrl+T the filter flag,
    and nothing else, whether a pattern is being captured or not; pressing
    either key twice gives the viewer back. *)
Theorem X10_toggles_are_involutions
    (doc : Document.t) (term : Dimensions) (fv : FileViewer.t) :
  fits doc term ->
  in_view doc term fv ->
  FileViewer.OnEvent doc term fv keyevents.CtrlL
  = Ok (FileViewer.set_showLineNumbers
          (negb (FileViewer.showLineNumbers_ fv)) fv)
  /\ FileViewer.OnEvent doc term fv keyevents.CtrlT
     = Ok (FileViewer.set_isFiltering (negb (FileViewer.isFiltering_ fv)) fv)
  /\ run doc term fv [keyevents.CtrlL; keyevents.CtrlL] = Ok fv
  /\ run doc term fv [keyevents.CtrlT; keyevents.CtrlT] = Ok fv.
Proof.
  intros Hfit Hv.
  destruct (toggles doc term Hfit fv Hv) as [HL HT].
  split; [exact HL|]. split; [exact HT|]. split; simpl run.
  - rewrite HL. cbn [bind].
    destruct (toggles doc term Hfit
                (FileViewer.set_showLineNumbers
                   (negb (FileViewer.showLineNumbers_ fv)) fv) Hv) as [-> _].
    cbn [bind]. destruct fv as [? ? ? ? ? [] ?]; reflexivity.
  - rewrite HT. cbn [bind].
    destruct (toggles doc term Hfit
                (FileViewer.set_isFiltering
                   (negb (FileViewer.isFiltering_ fv)) fv) Hv) as [_ ->].
    cbn [bind]. destruct fv as [? ? ? ? ? ? []]; reflexivity.
Qed.

Lemma X10_toggles_witness :
  let fv := FileViewer.mk 1 0 (-1) "al" true true false in
  FileViewer.OnEvent d5 t80x3 fv keyevents.CtrlL
  = Ok (FileViewer.set_showLineNumbers
          (negb (FileViewer.showLineNumbers_ fv)) fv)
  /\ FileViewer.OnEvent d5 t80x3 fv keyevents.CtrlT
     = Ok (FileViewer.set_isFiltering (negb (FileViewer.isFiltering_ fv)) fv)
  /\ run d5 t80x3 fv [keyevents.CtrlL; keyevents.CtrlL] = Ok fv
  /\ run d5 t80x3 fv [keyevents.CtrlT; keyevents.CtrlT] = Ok fv.
Proof.
  apply (X10_toggles_are_involutions d5 t80x3
           (FileViewer.mk 1 0 (-1) "al" true true false)).
  - vm_compute. repeat split; discriminate.
  - vm_compute. repeat split; discriminate.
Defined.

(** X11. When the viewer is not filtering, or its pattern is empty,
    ArrowDown moves the first line down by one and stops on the last line
    of the document; ArrowUp moves it up by one and stops on line 0.
    Nothing else changes. *)
Theorem X11_vertical_arrows_stop_at_the_ends
    (doc : Document.t) (term : Dimensions) (fv : FileViewer.t) :
  fits doc term ->
  in_view doc term fv ->
  FileViewer.isFiltering_ fv = false \/ FileViewer.pattern_ fv = "" ->
  FileViewer.OnEvent doc term fv Event.ArrowDown
  = Ok (FileViewer.set_topLine
          (Z.min (FileViewer.topLine_ fv + 1)
                 (size (Document.lines_ doc) - 1)) fv)
  /\ FileViewer.OnEvent doc term fv Event.ArrowUp
     = Ok (FileViewer.set_topLine (Z.max (FileViewer.topLine_ fv - 1) 0) fv).
Proof. intros Hfit Hv Hf. exact (vertical_arrows doc term Hfit fv Hv Hf). Qed.

Lemma X11_vertical_arrows_witness :
  let fv := FileViewer.mk 4 0 (-1) "" false true false in
  FileViewer.OnEvent d5 t80x3 fv Event.ArrowDown
  = Ok (FileViewer.set_topLine (Z.min (4 + 1) (size doc5 - 1)) fv)
  /\ FileViewer.OnEvent d5 t80x3 fv Event.ArrowUp
     = Ok (FileViewer.set_topLine (Z.max (4 - 1) 0) fv).
Proof.
  apply (X11_vertical_arrows_stop_at_the_ends d5 t80x3
           (FileViewer.mk 4 0 (-1) "" false true false)).
  - vm_compute. repeat split; discriminate.
  - vm_compute. repeat split; discriminate.
  - left. reflexivity.
Defined.

(** X12. ArrowRight moves the left edge right by one column and stops on
    the last column of the terminal; ArrowLeft moves it left by one and
    stops on column 0; Home sets it to 0.  Nothing else changes. *)
Theorem X12_horizontal_keys_stop_at_the_ends
    (doc : Document.t) (term : Dimensions) (fv : FileViewer.t) :
  fits doc term ->
  in_view doc term fv ->
  FileViewer.OnEvent doc term fv Event.ArrowRight
  = Ok (FileViewer.set_leftEdge
          (Z.min (FileViewer.leftEdge_ fv + 1) (dimx term - 1)) fv)
  /\ FileViewer.OnEvent doc term fv Event.ArrowLeft
     = Ok (FileViewer.set_leftEdge (Z.max (FileViewer.leftEdge_ fv - 1) 0) fv)
  /\ FileViewer.OnEvent doc term fv keyevents.Home
     = Ok (FileViewer.set_leftEdge 0 fv).
Proof. intros Hfit Hv. exact (horizontal_keys doc term Hfit fv Hv). Qed.

Lemma X12_horizontal_keys_witness :
  let fv := FileViewer.mk 0 79 (-1) "" false true false in
  FileViewer.OnEvent d5 t80x3 fv Event.ArrowRight
  = Ok (FileViewer.set_leftEdge (Z.min (79 + 1) (80 - 1)) fv)
  /\ FileViewer.OnEvent d5 t80x3 fv Event.ArrowLeft
     = Ok (FileViewer.set_leftEdge (Z.max (79 - 1) 0) fv)
  /\ FileViewer.OnEvent d5 t80x3 fv keyevents.Home
     = Ok (FileViewer.set_leftEdge 0 fv).
Proof.
  apply (X12_horizontal_keys_stop_at_the_ends d5 t80x3
           (FileViewer.mk 0 79 (-1) "" false true false)).
  - vm_compute. repeat split; discriminate.
  - vm_compute. repeat split; discriminate.
Defined.

(** X13. When the viewer is not filtering, PageDown moves the first line
    down by [viewHeight - 1] lines and stops on the last line of the
    document; PageUp moves it up by as many and stops on line 0. *)
Theorem X13_plain_pages_stop_at_the_ends
    (doc : Document.t) (term : Dimensions) (fv : FileViewer.t) :
  fits doc term ->
  in_view doc term fv ->
  FileViewer.isFiltering_ fv = false ->
  1 <= dimy term ->
  size (Document.lines_ doc) + dimy term <= INT_MAX ->
  FileViewer.OnEvent doc term fv keyevents.PgDown
  = Ok (FileViewer.set_topLine
          (Z.min (FileViewer.topLine_ fv + (dimy term - 1))
                 (size (Document.lines_ doc) - 1)) fv)
  /\ FileViewer.OnEvent doc term fv keyevents.PgUp
     = Ok (FileViewer.set_topLine
             (Z.max (FileViewer.topLine_ fv - (dimy term - 1)) 0) fv).
Proof.
  intros Hfit Hv Hf Hh Hsum.
  exact (plain_pages doc term Hfit fv Hv Hf Hh Hsum).
Qed.

Lemma X13_plain_pages_witness :
  let fv := FileViewer.mk 1 0 (-1) "" false true false in
  FileViewer.OnEvent d5 t80x3 fv keyevents.PgDown
  = Ok (FileViewer.set_topLine (Z.min (1 + (3 - 1)) (size doc5 - 1)) fv)
  /\ FileViewer.OnEvent d5 t80x3 fv keyevents.PgUp
     = Ok (FileViewer.set_topLine (Z.max (1 - (3 - 1)) 0) fv).
Proof.
  apply (X13_plain_pages_stop_at_the_ends d5 t80x3
           (FileViewer.mk 1 0 (-1) "" false true false)).
  - vm_compute. repeat split; discriminate.
  - vm_compute. repeat split; discriminate.
  - reflexivity.
  - vm_compute. discriminate.
  - vm_compute. discriminate.
Defined.

(** X14. Ctrl+Home makes line 0 the first line.  Ctrl+End makes
    [size - (viewHeight - 1)] the first line, so that the last
    [viewHeight - 1] lines of the document fill the content rows; it stops
    on line 0 when the document is shorter than that, and on the last line
    when [viewHeight] is 1. *)
Theorem X14_document_ends
    (doc : Document.t) (term : Dimensions) (fv : FileViewer.t) :
  fits doc term ->
  in_view doc term fv ->
  1 <= dimy term <= INT_MAX ->
  FileViewer.OnEvent doc term fv keyevents.CtrlHome
  = Ok (FileViewer.set_topLine 0 fv)
  /\ FileViewer.OnEvent doc term fv keyevents.CtrlEnd
     = Ok (FileViewer.set_topLine
             (Z.max 0 (Z.min (size (Document.lines_ doc) - (dimy term - 1))
                             (size (Document.lines_ doc) - 1))) fv).
Proof. intros Hfit Hv Hh. exact (document_ends doc term Hfit fv Hv Hh). Qed.

Lemma X14_document_ends_witness :
  let fv := FileViewer.mk 1 0 (-1) "" false true false in
  FileViewer.OnEvent d5 t80x3 fv keyevents.CtrlHome
  = Ok (FileViewer.set_topLine 0 fv)
  /\ FileViewer.OnEvent d5 t80x3 fv keyevents.CtrlEnd
     = Ok (FileViewer.set_topLine
             (Z.max 0 (Z.min (size doc5 - (3 - 1)) (size doc5 - 1))) fv).
Proof.
  apply (X14_document_ends d5 t80x3
           (FileViewer.mk 1 0 (-1) "" false true false)).
  - vm_compute. repeat split; discriminate.
  - vm_compute. repeat split; discriminate.
  - vm_compute. split; discriminate.
Defined.

(** X15. With a pattern that is not empty, [n] (when nothing is being
    captured) and ArrowDown (when filtering) do the same: the first line
    becomes the first line after it that contains the pattern, and stays
    where it is when no line after it does. *)
Theorem X15_next_match_keys
    (doc : Document.t) (term : Dimensions) (fv : FileViewer.t) :
  fits doc term ->
  in_view doc term fv ->
  empty (FileViewer.pattern_ fv) = false ->
  exists r,
    ((r = FileViewer.topLine_ fv
      /\ forall k, FileViewer.topLine_ fv < k ->
           matches_at (Document.lines_ doc) (FileViewer.pattern_ fv) k = false)
     \/ (FileViewer.topLine_ fv < r < size (Document.lines_ doc)
         /\ matches_at (Document.lines_ doc) (FileViewer.pattern_ fv) r = true
         /\ forall k, FileViewer.topLine_ fv < k < r ->
              matches_at (Document.lines_ doc) (FileViewer.pattern_ fv) k
              = false))
    /\ (FileViewer.isCapturing_ fv = false ->
        FileViewer.OnEvent doc term fv (Event.Character "n")
        = Ok (FileViewer.set_topLine r fv))
    /\ (FileViewer.isFiltering_ fv = true ->
        FileViewer.OnEvent doc term fv Event.ArrowDown
        = Ok (FileViewer.set_topLine r fv)).
Proof.
  intros Hfit Hv Hp.
  destruct (next_match_keys doc term Hfit fv Hv Hp)
    as (r & Hr & _ & Hn & Hdown).
  destruct Hfit as [[H1 H2] _].
  destruct (LocateNextMatch_spec (Document.lines_ doc) (FileViewer.pattern_ fv)
              (FileViewer.topLine_ fv) H1 H2 Hp (proj1 Hv))
    as (r' & Hr' & Hdesc).
  rewrite Hr in Hr'. injection Hr' as <-.
  exists r. split; [exact Hdesc|]. split; assumption.
Qed.

Lemma X15_next_match_keys_witness :
  let fv := FileViewer.mk 0 0 (-1) "alpha" false true true in
  exists r,
    ((r = 0 /\ forall k, 0 < k -> matches_at doc5 "alpha" k = false)
     \/ (0 < r < size doc5
         /\ matches_at doc5 "alpha" r = true
         /\ forall k, 0 < k < r -> matches_at doc5 "alpha" k = false))
    /\ (false = false ->
        FileViewer.OnEvent d5 t80x3 fv (Event.Character "n")
        = Ok (FileViewer.set_topLine r fv))
    /\ (true = true ->
        FileViewer.OnEvent d5 t80x3 fv Event.ArrowDown
        = Ok (FileViewer.set_topLine r fv)).
Proof.
  apply (X15_next_match_keys d5 t80x3
           (FileViewer.mk 0 0 (-1) "alpha" false true true)).
  - vm_compute. repeat split; discriminate.
  - vm_compute. repeat split; discriminate.
  - reflexivity.
Defined.

(** X16. With a pattern that is not empty, [p] (when nothing is being
    captured) and ArrowUp (when filtering) do the same: the first line
    becomes the last line before it that contains the pattern; when no
    line before it does, the last line of the whole document that does;
    and it stays where it is when no line of the document does. *)
Theorem X16_previous_match_keys
    (doc : Document.t) (term : Dimensions) (fv : FileViewer.t) :
  fits doc term ->
  in_view doc term fv ->
  empty (FileViewer.pattern_ fv) = false ->
  exists r,
    ((0 <= r < FileViewer.topLine_ fv
      /\ matches_at (Document.lines_ doc) (FileViewer.pattern_ fv) r = true
      /\ forall k, r < k < FileViewer.topLine_ fv ->
           matches_at (Document.lines_ doc) (FileViewer.pattern_ fv) k = false)
     \/ (FileViewer.topLine_ fv <= r < size (Document.lines_ doc)
         /\ matches_at (Document.lines_ doc) (FileViewer.pattern_ fv) r = true
         /\ (forall k, k < FileViewer.topLine_ fv ->
               matches_at (Document.lines_ doc) (FileViewer.pattern_ fv) k
               = false)
         /\ forall k, r < k ->
              matches_at (Document.lines_ doc) (FileViewer.pattern_ fv) k
              = false)
     \/ (r = FileViewer.topLine_ fv
         /\ forall k,
              matches_at (Document.lines_ doc) (FileViewer.pattern_ fv) k
              = false))
    /\ (FileViewer.isCapturing_ fv = false ->
        FileViewer.OnEvent doc term fv (Event.Character "p")
        = Ok (FileViewer.set_topLine r fv))
    /\ (FileViewer.isFiltering_ fv = true ->
        FileViewer.OnEvent doc term fv Event.ArrowUp
        = Ok (FileViewer.set_topLine r fv)).
Proof.
  intros Hfit Hv Hp.
  destruct (previous_match_keys doc term Hfit fv Hv Hp)
    as (r & Hr & _ & Hn & Hup).
  destruct Hfit as [[H1 H2] _].
  destruct (LocatePreviousMatch_spec (Document.lines_ doc)
              (FileViewer.pattern_ fv) (FileViewer.topLine_ fv) H2 Hp)
    as (r' & Hr' & Hdesc); [destruct Hv; lia|].
  rewrite Hr in Hr'. injection Hr' as <-.
  exists r. split; [exact Hdesc|]. split; assumption.
Qed.

Lemma X16_previous_match_keys_witness :
  let fv := FileViewer.mk 0 0 (-1) "alpha" false true true in
  exists r,
    ((0 <= r < 0
      /\ matches_at doc5 "alpha" r = true
      /\ forall k, r < k < 0 -> matches_at doc5 "alpha" k = false)
     \/ (0 <= r < size doc5
         /\ matches_at doc5 "alpha" r = true
         /\ (forall k, k < 0 -> matches_at doc5 "alpha" k = false)
         /\ forall k, r < k -> matches_at doc5 "alpha" k = false)
     \/ (r = 0 /\ forall k, matches_at doc5 "alpha" k = false))
    /\ (false = false ->
        FileViewer.OnEvent d5 t80x3 fv (Event.Character "p")
        = Ok (FileViewer.set_topLine r fv))
    /\ (true = true ->
        FileViewer.OnEvent d5 t80x3 fv Event.ArrowUp
        = Ok (FileViewer.set_topLine r fv)).
Proof.
  apply (X16_previous_match_keys d5 t80x3
           (FileViewer.mk 0 0 (-1) "alpha" false true true)).
  - vm_compute. repeat split; discriminate.
  - vm_compute. repeat split; discriminate.
  - reflexivity.
Defined.

(** ** The filtered page down *)

Section FilteredPageDown.

Import FileViewer.

Variable doc : Document.t.
Variable term : Dimensions.
Hypothesis doc_term_fit : fits doc term.

Local Abbreviation lines := (Document.lines_ doc).

Lemma NextFilteredPage_loop_spec (pattern : string) (viewHeight top : Z) :
  0 <= top < size lines ->
  0 <= to_int (viewHeight - 1) ->
  exists line hits,
    NextFilteredPage_loop doc pattern viewHeight top 0 = Ok (line, hits)
    /\ match scan_forward lines pattern (Z.to_nat (to_int (viewHeight - 1))) top
       with
       | Some l =>
           line = l /\ hits = to_int (viewHeight - 1) /\ top <= l < size lines
       | None => hits <> to_int (viewHeight - 1)
       end.
Proof.
  intros Htop HH0. destruct doc_term_fit as [[Hd1 Hd2] _].
  unfold NextFilteredPage_loop. rewrite (fits_Size doc term doc_term_fit).
  set (H := to_int (viewHeight - 1)) in *.
  set (goal := scan_forward lines pattern (Z.to_nat H) top).
  match goal with
  | |- context [while ?ff ?cc ?bb ?ss] =>
      destruct (while_inv cc bb
        (fun '(line, hits) =>
           0 <= hits <= H
           /\ ((top <= line < size lines
                /\ scan_forward lines pattern (Z.to_nat (H - hits)) line = goal)
               \/ (line = -1 /\ hits < H /\ goal = None)))
        (fun '(line, hits) =>
           if line =? -1 then O else Z.to_nat (H - hits)))
        with (fuel := ff) (s := ss) as ([line hits] & Hr & Hinv & Hc)
  end.
  - intros [line hits] (Hh & Hcases) Hcond.
    apply andb_prop in Hcond. destruct Hcond as [Hcond Hlt].
    apply andb_prop in Hcond. destruct Hcond as [Hne Hsz].
    apply Z.ltb_lt in Hlt, Hsz.
    apply negb_true_iff in Hne. apply Z.eqb_neq in Hne.
    destruct Hcases as [[Hline Hscan] | [? _]]; [|lia].
    unfold Document.FindNextMatchingLine.
    assert (Hint : is_int (line + 1))
      by (unfold is_int, INT_MIN, INT_MAX in *; lia).
    rewrite (to_int_id _ Hint).
    replace (Z.to_nat (H - hits)) with (S (Z.to_nat (H - (hits + 1))))
      in Hscan by lia.
    simpl in Hscan.
    destruct (FindNextMatchingLine_spec lines pattern Hd2 (line + 1) Hd1 Hint)
      as (r & Hfind & [[-> _] | (Hr1 & Hr2 & _)]);
      rewrite Hfind in *; simpl.
    + exists (-1, hits). split; [reflexivity|]. split.
      * split; [lia|]. right. repeat split; try lia. symmetry. exact Hscan.
      * simpl. destruct (Z.eqb_spec line (-1)); lia.
    + destruct (Z.eqb_spec r (-1)) as [|_]; [lia|]. simpl.
      assert (Hinc : to_int (hits + 1) = hits + 1).
      { apply to_int_id. pose proof (to_int_range (viewHeight - 1)) as HR.
        fold H in HR. unfold is_int, INT_MIN, INT_MAX in *. lia. }
      rewrite Hinc.
      exists (r, hits + 1). split; [reflexivity|]. split.
      * split; [lia|]. left. split; [lia | exact Hscan].
      * destruct (Z.eqb_spec r (-1)); [lia|].
        destruct (Z.eqb_spec line (-1)); lia.
  - split; [lia|]. left. split; [lia|]. rewrite Z.sub_0_r. reflexivity.
  - destruct (top =? -1); [lia|]. rewrite Z.sub_0_r. lia.
  - exists line, hits. split; [exact Hr|].
    destruct Hinv as (Hh & [[Hline Hscan] | (-> & Hlt & ->)]); [|lia].
    assert (hits = H) as ->.
    { destruct (Z.eqb_spec line (-1)); [lia|].
      destruct (Z.ltb_spec line (size lines)); [|lia].
      destruct (Z.ltb_spec hits H); [discriminate | lia]. }
    rewrite Z.sub_diag in Hscan. simpl in Hscan. rewrite <- Hscan.
    repeat split; lia.
Qed.

Lemma scan_forward_hit (pattern : string) (n : nat) :
  forall line l,
    0 <= line < size lines ->
    scan_forward lines pattern (S n) line = Some l ->
    matches_at lines pattern l = true /\ line + 1 < l < size lines.
Proof.
  destruct doc_term_fit as [[Hd1 Hd2] _].
  induction n as [|n IH]; intros line l Hline Hscan;
    simpl in Hscan;
    destruct (FindNextMatchingLine_spec lines pattern Hd2 (line + 1) Hd1)
      as (r & Hfind & Hres);
    try (unfold is_int, INT_MIN, INT_MAX in *; lia);
    rewrite Hfind in Hscan;
    (destruct Hres as [[-> _] | (Hr1 & Hr2 & Hr3 & _)];
     [discriminate Hscan|]);
    (destruct (Z.eqb_spec r (-1)); [lia|]).
  - injection Hscan as <-. split; [assumption | lia].
  - destruct (IH r l ltac:(lia) Hscan) as [Hm Hl].
    split; [assumption | lia].
Qed.

Lemma PgDown_filtered (fv : t) :
  in_view doc term fv ->
  isFiltering_ fv = true ->
  1 <= dimy term <= INT_MAX ->
  OnEvent doc term fv keyevents.PgDown
  = Ok (match scan_forward lines (pattern_ fv) (Z.to_nat (dimy term - 1))
                (topLine_ fv)
        with
        | Some l => set_topLine l fv
        | None => fv
        end).
Proof.
  intros Hv Hf Hh.
  rewrite (OnEvent_special doc term fv keyevents.PgDown eq_refl).
  change (classify keyevents.PgDown) with K_PgDown. simpl run_key.
  rewrite Hf. cbn [negb]. unfold CmdNextFilteredPage, ViewHeight.
  assert (HH : to_int (dimy term - 1) = dimy term - 1)
    by (apply to_int_id; unfold is_int, INT_MIN, INT_MAX in *; lia).
  destruct (NextFilteredPage_loop_spec (pattern_ fv) (dimy term) (topLine_ fv)
              (proj1 Hv) ltac:(lia)) as (line & hits & -> & Hres).
  rewrite HH in *. cbn [bind].
  destruct (scan_forward lines (pattern_ fv) (Z.to_nat (dimy term - 1))
              (topLine_ fv)) as [l|].
  - destruct Hres as (-> & -> & Hl). rewrite Z.eqb_refl.
    rewrite (clamp_view_set_topLine doc term doc_term_fit fv l Hv).
    pose proof (proj1 Hv) as Ht. do 2 f_equal. lia.
  - destruct (Z.eqb_spec hits (dimy term - 1)); [contradiction|].
    apply (clamp_view_in_view doc term doc_term_fit). exact Hv.
Qed.

End FilteredPageDown.

(** X17. The filtered PageDown scans forward from the first line, each
    step taking the line [FindNextMatchingLine(line + 1)] finds; when all
    [viewHeight - 1] steps find a line, the last line found becomes the
    first line, a line that contains the pattern and lies at least two
    lines further down; when a step finds none, the viewer stays
    as it is. *)
Theorem X17_filtered_page_down
    (doc : Document.t) (term : Dimensions) (fv : FileViewer.t) :
  fits doc term ->
  in_view doc term fv ->
  FileViewer.isFiltering_ fv = true ->
  1 <= dimy term <= INT_MAX ->
  match scan_forward (Document.lines_ doc) (FileViewer.pattern_ fv)
          (Z.to_nat (dimy term - 1)) (FileViewer.topLine_ fv)
  with
  | Some l =>
      FileViewer.OnEvent doc term fv keyevents.PgDown
      = Ok (FileViewer.set_topLine l fv)
      /\ (2 <= dimy term ->
          matches_at (Document.lines_ doc) (FileViewer.pattern_ fv) l = true
          /\ FileViewer.topLine_ fv + 1 < l < size (Document.lines_ doc))
  | None => FileViewer.OnEvent doc term fv keyevents.PgDown = Ok fv
  end.
Proof.
  intros Hfit Hv Hf Hh.
  rewrite (PgDown_filtered doc term Hfit fv Hv Hf Hh).
  destruct (scan_forward _ _ _ _) as [l|] eqn:Hscan; [|reflexivity].
  split; [reflexivity|]. intros H2.
  replace (Z.to_nat (dimy term - 1)) with (S (Z.to_nat (dimy term - 2)))
    in Hscan by lia.
  exact (scan_forward_hit doc term Hfit _ _ _ l (proj1 Hv) Hscan).
Qed.

Lemma X17_filtered_page_down_witness :
  let fv := FileViewer.mk 0 0 (-1) "alpha" false true true in
  FileViewer.OnEvent d5 (mkDimensions 80 2) fv keyevents.PgDown
  = Ok (FileViewer.set_topLine 2 fv)
  /\ (2 <= 2 -> matches_at doc5 "alpha" 2 = true /\ 0 + 1 < 2 < size doc5).
Proof.
  apply (X17_filtered_page_down d5 (mkDimensions 80 2)
           (FileViewer.mk 0 0 (-1) "alpha" false true true)).
  - vm_compute. repeat split; discriminate.
  - vm_compute. repeat split; discriminate.
  - reflexivity.
  - vm_compute. split; discriminate.
Defined.

(** ** The End key *)

Lemma skipn_nth_error {A : Type} (l : list A) :
  forall i x, nth_error l i = Some x -> skipn i l = x :: skipn (S i) l.
Proof.
  induction l as [|y l IH]; intros [|i] x H; simpl in *; try discriminate.
  - injection H as ->. reflexivity.
  - apply IH, H.
Qed.

Lemma longest_range (rows : list string) : 0 <= longest rows <= INT_MAX.
Proof.
  induction rows as [|l rows IH]; simpl.
  - vm_compute. split; discriminate.
  - pose proof (to_int_range (Z.of_nat (String.length l))) as Hr.
    unfold is_int in Hr. lia.
Qed.

Section EndKey.

Import FileViewer.

Variable doc : Document.t.
Variable term : Dimensions.
Hypothesis doc_term_fit : fits doc term.

Local Abbreviation lines := (Document.lines_ doc).

Lemma at_nth (line : Z) :
  0 <= line < size lines ->
  exists l, Document.at_ doc line = Ok l
            /\ nth_error lines (Z.to_nat line) = Some l.
Proof.
  intros H. destruct doc_term_fit as [[_ Hd2] _].
  unfold Document.at_, INT_MAX in *.
  rewrite to_size_t_id by lia.
  destruct (Z.ltb_spec line (size lines)); [|lia].
  destruct (nth_error lines (Z.to_nat line)) eqn:E; [eauto|].
  apply nth_error_None in E. unfold size in *. lia.
Qed.

Lemma RightmostColumn_loop_spec (fv : t) (viewHeight : Z) :
  in_view doc term fv ->
  is_int viewHeight ->
  exists line numLines,
    RightmostColumn_loop doc (isFiltering_ fv) (pattern_ fv) (topLine_ fv)
      viewHeight 0
    = Ok (line, numLines, longest (End_rows lines viewHeight fv)).
Proof.
  intros Hv Hh. destruct doc_term_fit as [[Hd1 Hd2] _].
  unfold RightmostColumn_loop. rewrite (fits_Size doc term doc_term_fit).
  set (target := longest (End_rows lines viewHeight fv)).
  match goal with
  | |- context [while ?ff ?cc ?bb ?ss] =>
      destruct (while_inv cc bb
        (fun '(line, n, len) =>
           0 <= line <= size lines /\ is_int n /\ 0 <= len
           /\ Z.max len
                (longest (firstn (Z.to_nat n)
                            (filter (counted fv)
                               (skipn (Z.to_nat line) lines))))
              = target)
        (fun '(line, _, _) => Z.to_nat (size lines - line)))
        with (fuel := ff) (s := ss)
        as ([[line n] len] & Hr & (Hline & Hn & Hlen & Hinv) & Hc)
  end.
  - intros [[line n] len] (Hline & Hn & Hlen & Hinv) Hcond.
    apply andb_prop in Hcond. destruct Hcond as [Hpos Hlt].
    apply Z.ltb_lt in Hlt. apply Z.gtb_lt in Hpos. cbv beta iota.
    destruct (at_nth line) as (l & Hl & Hnth); [lia|]. rewrite Hl.
    rewrite (skipn_nth_error _ _ _ Hnth) in Hinv.
    assert (Hnext : to_int (line + 1) = line + 1)
      by (apply to_int_id; unfold is_int, INT_MIN, INT_MAX in *; lia).
    assert (Hdec : to_int (n - 1) = n - 1)
      by (apply to_int_id; unfold is_int, INT_MIN, INT_MAX in *; lia).
    rewrite Hnext, Hdec.
    replace (S (Z.to_nat line)) with (Z.to_nat (line + 1)) in Hinv by lia.
    assert (Hcounted :
              (if negb (isFiltering_ fv) then Ok true
               else if negb (empty (pattern_ fv))
                    then x <- Ok l ;; Ok (contains (pattern_ fv) x)
                    else Ok false)
              = Ok (counted fv l)).
    { unfold counted. destruct (negb (isFiltering_ fv)); [reflexivity|].
      destruct (negb (empty (pattern_ fv))); reflexivity. }
    rewrite Hcounted. cbn [bind]. simpl filter in Hinv.
    destruct (counted fv l); cbn [bind].
    + eexists. split; [reflexivity|].
      replace (Z.to_nat n) with (S (Z.to_nat (n - 1))) in Hinv by lia.
      simpl in Hinv.
      pose proof (to_int_range (Z.of_nat (String.length l))) as Hr.
      unfold is_int, INT_MIN, INT_MAX in *.
      repeat split; try lia.
    + eexists. split; [reflexivity|].
      unfold is_int, INT_MIN, INT_MAX in *. repeat split; try lia.
  - destruct Hv as [Ht _].
    split; [lia|]. split; [exact Hh|]. split; [lia|].
    subst target. unfold End_rows.
    pose proof (longest_range
      (firstn (Z.to_nat viewHeight)
         (filter (counted fv) (skipn (Z.to_nat (topLine_ fv)) lines)))).
    lia.
  - lia.
  - exists line, n. rewrite Hr. do 2 f_equal.
    assert (Hnil : firstn (Z.to_nat n)
                     (filter (counted fv) (skipn (Z.to_nat line) lines)) = []).
    { destruct (Z.gtb_spec n 0) as [Hpos|Hnp].
      - destruct (Z.ltb_spec line (size lines)); [discriminate|].
        rewrite skipn_all2 by (unfold size in *; lia).
        simpl. apply firstn_nil.
      - replace (Z.to_nat n) with O by lia. reflexivity. }
    rewrite Hnil in Hinv. simpl in Hinv. lia.
Qed.

Lemma End_key (fv : t) :
  in_view doc term fv ->
  is_int (dimy term) ->
  let margin := if showLineNumbers_ fv then lineNumberMargin_ else 0 in
  let length := longest (End_rows lines (dimy term) fv) in
  OnEvent doc term fv keyevents.End_
  = Ok (set_leftEdge
          (Z.max 0
             (Z.min (if length >? dimx term - margin
                     then to_int (length - dimx term + margin)
                     else 0)
                    (dimx term - 1))) fv).
Proof.
  intros Hv Hh margin length.
  rewrite (OnEvent_special doc term fv keyevents.End_ eq_refl).
  change (classify keyevents.End_) with K_End. simpl run_key.
  unfold CmdRightmostColumn, ViewHeight, ViewWidth.
  destruct (RightmostColumn_loop_spec fv (dimy term) Hv Hh)
    as (line & n & ->).
  cbn [bind]. fold margin. fold length.
  pose proof (longest_range (End_rows lines (dimy term) fv)) as HL.
  fold length in HL.
  destruct doc_term_fit as [_ Hw]. unfold INT_MAX in *.
  assert (Hm : 0 <= margin <= 8)
    by (unfold margin, lineNumberMargin_; destruct (showLineNumbers_ fv); lia).
  rewrite (to_int_id (dimx term - margin))
    by (unfold is_int, INT_MIN, INT_MAX; lia).
  rewrite (to_int_id (length - dimx term))
    by (unfold is_int, INT_MIN, INT_MAX; lia).
  destruct (length >? dimx term - margin);
    apply (clamp_view_set_leftEdge doc term (conj (proj1 (doc_term_fit)) Hw));
    exact Hv.
Qed.

End EndKey.

(** X18. The End key measures the first [viewHeight] lines it counts from
    the first line on: all lines when the viewer is not filtering, the
    lines that contain the pattern when it is.  When the longest of them
    is wider than the terminal less the line-number margin, the left edge
    becomes its length less that width, so that its end is on the last
    column, and stops on the last column of the terminal; otherwise the
    left edge becomes 0.  Nothing else changes. *)
Theorem X18_End_key_shows_the_end_of_the_longest_line
    (doc : Document.t) (term : Dimensions) (fv : FileViewer.t) :
  fits doc term ->
  in_view doc term fv ->
  INT_MIN <= dimy term <= INT_MAX ->
  let margin :=
    if FileViewer.showLineNumbers_ fv then FileViewer.lineNumberMargin_ else 0
  in
  let length := longest (End_rows (Document.lines_ doc) (dimy term) fv) in
  FileViewer.OnEvent doc term fv keyevents.End_
  = Ok (FileViewer.set_leftEdge
          (Z.max 0
             (Z.min (if length >? dimx term - margin
                     then to_int (length - dimx term + margin)
                     else 0)
                    (dimx term - 1))) fv).
Proof. intros Hfit Hv Hh. exact (End_key doc term Hfit fv Hv Hh). Qed.

Lemma X18_End_key_witness :
  FileViewer.OnEvent (Document.mk ["ab"; "abcdefghijklmnopqrstuvwxyz"; "c"])
    (mkDimensions 20 3) (FileViewer.mk 0 0 (-1) "" false true false)
    keyevents.End_
  = Ok (FileViewer.mk 0 14 (-1) "" false true false).
Proof.
  apply (X18_End_key_shows_the_end_of_the_longest_line
           (Document.mk ["ab"; "abcdefghijklmnopqrstuvwxyz"; "c"])
           (mkDimensions 20 3) (FileViewer.mk 0 0 (-1) "" false true false)).
  - vm_compute. repeat split; discriminate.
  - vm_compute. repeat split; discriminate.
  - vm_compute. split; discriminate.
Defined.

(** ** Navigation while capturing (C9) *)

Lemma Forall_firstn {A : Type} (P : A -> Prop) (l : list A) :
  forall n, Forall P l -> Forall P (firstn n l).
Proof.
  induction l as [|x l IH]; intros [|n] H; simpl; try constructor.
  - inversion H; assumption.
  - apply IH. inversion H; assumption.
Qed.

Lemma Forall_skipn {A : Type} (P : A -> Prop) (l : list A) :
  forall n, Forall P l -> Forall P (skipn n l).
Proof.
  induction l as [|x l IH]; intros [|n] H; simpl; try assumption.
  apply IH. inversion H; assumption.
Qed.

Lemma longest_short (rows : list string) (b : Z) :
  0 <= b <= INT_MAX ->
  Forall (fun line => Z.of_nat (String.length line) <= b) rows ->
  0 <= longest rows <= b.
Proof.
  intros Hb H. induction H as [|l rows Hl _ IH]; simpl.
  - lia.
  - rewrite to_int_id by (unfold is_int, INT_MIN, INT_MAX in *; lia). lia.
Qed.

Section NavigationTable.

Import FileViewer.

Variable doc : Document.t.
Variable term : Dimensions.
Hypothesis doc_not_empty : 1 <= size (Document.lines_ doc).
Hypothesis doc_term_bounded : bounded doc term.

Local Abbreviation lines := (Document.lines_ doc).

Lemma table_fits : fits doc term.
Proof. exact (bounded_fits doc term doc_not_empty doc_term_bounded). Qed.

Lemma table_height : 1 <= dimy term <= INT_MAX.
Proof. exact (bounded_height doc term doc_term_bounded). Qed.

Lemma End_rows_short (fv : t) :
  0 <= longest (End_rows lines (dimy term) fv) <= INT_MAX - lineNumberMargin_.
Proof.
  destruct doc_term_bounded as (_ & _ & _ & Hl).
  apply longest_short; [vm_compute; split; discriminate|].
  unfold End_rows. apply Forall_firstn.
  apply (incl_Forall (incl_filter _ _)). apply Forall_skipn.
  revert Hl. apply Forall_impl. intros l.
  unfold xFactor_, lineNumberMargin_, INT_MAX. lia.
Qed.

Lemma End_key_bounded (fv : t) :
  in_view doc term fv ->
  OnEvent doc term fv keyevents.End_
  = Ok (set_leftEdge (Z.min (End_edge doc term fv) (dimx term - 1)) fv).
Proof.
  intros Hv. pose proof table_height as Hh.
  rewrite (End_key doc term table_fits fv Hv)
    by (unfold is_int, INT_MIN, INT_MAX in *; lia).
  pose proof (End_rows_short fv) as HL. unfold End_edge.
  destruct table_fits as [_ Hw].
  set (margin := if showLineNumbers_ fv then lineNumberMargin_ else 0) in *.
  set (length := longest (End_rows lines (dimy term) fv)) in *.
  assert (Hm : 0 <= margin <= 8)
    by (unfold margin, lineNumberMargin_; destruct (showLineNumbers_ fv); lia).
  unfold lineNumberMargin_, INT_MAX in *.
  do 2 f_equal.
  destruct (Z.gtb_spec length (dimx term - margin)).
  - rewrite to_int_id by (unfold is_int, INT_MIN, INT_MAX; lia). lia.
  - lia.
Qed.

Lemma PgUp_filtered_eq (fv : t) :
  in_view doc term fv ->
  isFiltering_ fv = true ->
  OnEvent doc term fv keyevents.PgUp
  = Ok (set_topLine
          (match scan_back lines (pattern_ fv) (Z.to_nat (dimy term - 1))
                   (topLine_ fv)
           with
           | Some l => l
           | None => 0
           end) fv).
Proof.
  intros Hv Hf. pose proof table_height as Hh.
  pose proof table_fits as Hfit.
  rewrite (OnEvent_special doc term fv keyevents.PgUp eq_refl).
  change (classify keyevents.PgUp) with K_PgUp. simpl run_key.
  rewrite Hf. cbn [negb]. unfold CmdPreviousFilteredPage, ViewHeight.
  destruct (PreviousFilteredPage_loop_spec doc (proj2 (proj1 Hfit))
              (pattern_ fv) (dimy term) (topLine_ fv) (proj1 Hv))
    as (line & hits & -> & Hpos & _).
  assert (HH : to_int (dimy term - 1) = dimy term - 1)
    by (apply to_int_id; unfold is_int, INT_MIN, INT_MAX in *; lia).
  rewrite HH in *. specialize (Hpos ltac:(lia)). cbn [bind].
  rewrite (clamp_view_set_topLine doc term Hfit fv _ Hv).
  pose proof (proj1 Hv) as Ht.
  destruct (scan_back lines (pattern_ fv) (Z.to_nat (dimy term - 1))
              (topLine_ fv)) as [l|].
  - destruct Hpos as (-> & -> & Hl). rewrite Z.eqb_refl.
    do 2 f_equal. lia.
  - destruct (Z.eqb_spec hits (dimy term - 1)); [contradiction|].
    do 2 f_equal. lia.
Qed.

Lemma plain_or_filtering (fv : t) :
  (isFiltering_ fv = false \/ pattern_ fv = "")
  \/ (isFiltering_ fv = true /\ empty (pattern_ fv) = false).
Proof.
  destruct (isFiltering_ fv); [|left; left; reflexivity].
  destruct (pattern_ fv); [left; right; reflexivity|].
  right. split; reflexivity.
Qed.

(** Every navigation key does what the table says. *)
Lemma OnEvent_navigates (fv : t) (e : Event.t) :
  in_view doc term fv ->
  In e navigation_events ->
  exists fv', OnEvent doc term fv e = Ok fv' /\ navigates doc term fv e fv'.
Proof.
  intros Hv Hin. pose proof table_fits as Hfit.
  pose proof table_height as Hh.
  assert (Hsum : size lines + dimy term <= INT_MAX)
    by exact (proj1 doc_term_bounded).
  unfold navigation_events in Hin. simpl in Hin.
  destruct Hin as [<-|[<-|[<-|[<-|[<-|[<-|[<-|[<-|[<-|[<-|[]]]]]]]]]]].
  - (* ArrowUp *)
    destruct (plain_or_filtering fv) as [Hplain | [Hf Hp]].
    + eexists. split; [apply (vertical_arrows doc term Hfit fv Hv Hplain)|].
      constructor. exact Hplain.
    + destruct (previous_match_keys doc term Hfit fv Hv Hp)
        as (r & Hr & _ & _ & Hup).
      destruct (LocatePreviousMatch_spec lines (pattern_ fv) (topLine_ fv)
                  (proj2 (proj1 Hfit)) Hp)
        as (r' & Hr' & Hdesc); [destruct Hv; lia|].
      rewrite Hr in Hr'. injection Hr' as <-.
      exists (set_topLine r fv). split; [exact (Hup Hf)|].
      apply navigates_ArrowUp_filtering; assumption.
  - (* ArrowDown *)
    destruct (plain_or_filtering fv) as [Hplain | [Hf Hp]].
    + eexists. split; [apply (vertical_arrows doc term Hfit fv Hv Hplain)|].
      constructor. exact Hplain.
    + destruct (next_match_keys doc term Hfit fv Hv Hp)
        as (r & Hr & _ & _ & Hdown).
      destruct (LocateNextMatch_spec lines (pattern_ fv) (topLine_ fv)
                  (proj1 (proj1 Hfit)) (proj2 (proj1 Hfit)) Hp (proj1 Hv))
        as (r' & Hr' & Hdesc).
      rewrite Hr in Hr'. injection Hr' as <-.
      exists (set_topLine r fv). split; [exact (Hdown Hf)|].
      apply navigates_ArrowDown_filtering; assumption.
  - (* ArrowLeft *)
    eexists. split; [apply (horizontal_keys doc term Hfit fv Hv)|].
    constructor.
  - (* ArrowRight *)
    eexists. split; [apply (horizontal_keys doc term Hfit fv Hv)|].
    constructor.
  - (* Ctrl+Home *)
    eexists. split; [apply (document_ends doc term Hfit fv Hv Hh)|].
    constructor.
  - (* Ctrl+End *)
    eexists. split; [apply (document_ends doc term Hfit fv Hv Hh)|].
    constructor.
  - (* PageUp *)
    destruct (isFiltering_ fv) eqn:Hf.
    + eexists. split; [apply (PgUp_filtered_eq fv Hv Hf)|].
      apply navigates_PgUp_filtering. exact Hf.
    + eexists. split;
        [apply (plain_pages doc term Hfit fv Hv Hf (proj1 Hh) Hsum)|].
      apply navigates_PgUp. exact Hf.
  - (* PageDown *)
    destruct (isFiltering_ fv) eqn:Hf.
    + eexists. split; [apply (PgDown_filtered doc term Hfit fv Hv Hf Hh)|].
      apply navigates_PgDown_filtering. exact Hf.
    + eexists. split;
        [apply (plain_pages doc term Hfit fv Hv Hf (proj1 Hh) Hsum)|].
      apply navigates_PgDown. exact Hf.
  - (* Home *)
    eexists. split; [apply (horizontal_keys doc term Hfit fv Hv)|].
    constructor.
  - (* End *)
    eexists. split; [apply (End_key_bounded fv Hv)|]. constructor.
Qed.

End NavigationTable.

(** A move of the table changes the first line or the left edge and
    nothing else. *)
Lemma navigates_keeps
    (doc : Document.t) (term : Dimensions) (fv fv' : FileViewer.t)
    (e : Event.t) :
  navigates doc term fv e fv' ->
  FileViewer.pattern_ fv' = FileViewer.pattern_ fv
  /\ FileViewer.matchingLine_ fv' = FileViewer.matchingLine_ fv
  /\ FileViewer.isCapturing_ fv' = FileViewer.isCapturing_ fv
  /\ FileViewer.showLineNumbers_ fv' = FileViewer.showLineNumbers_ fv
  /\ FileViewer.isFiltering_ fv' = FileViewer.isFiltering_ fv.
Proof.
  intros H. destruct H; try (destruct (scan_forward _ _ _ _));
    destruct fv; repeat split; reflexivity.
Qed.

(** C9. While the viewer is capturing, every navigation key (the arrows,
    Home, End, PageUp, PageDown, Ctrl+Home, Ctrl+End) is carried out.  On
    a document that is not empty, with sizes inside the [int] range, from
    a capturing viewer whose first line is a line of the document and
    whose left edge is a column of the terminal, the event returns the
    viewer that the table [navigates] gives for the key: ArrowDown and
    ArrowUp move the first line by one, stopping at the last and the first
    line, or to the next and previous line that contains the pattern when
    the viewer is filtering on a pattern that is not empty, and so on for
    the other keys.  That viewer is the one the same key gives when the
    viewer is not capturing, up to the capturing flag; the pattern, the
    pending match and the capturing flag stay as they were. *)
Theorem C9_navigation_while_capturing
    (doc : Document.t) (term : Dimensions) (fv : FileViewer.t) (e : Event.t) :
  1 <= size (Document.lines_ doc) ->
  bounded doc term ->
  in_view doc term fv ->
  FileViewer.isCapturing_ fv = true ->
  In e navigation_events ->
  exists fv',
    FileViewer.OnEvent doc term fv e = Ok fv'
    /\ navigates doc term fv e fv'
    /\ FileViewer.OnEvent doc term (FileViewer.set_isCapturing false fv) e
       = Ok (FileViewer.set_isCapturing false fv')
    /\ FileViewer.pattern_ fv' = FileViewer.pattern_ fv
    /\ FileViewer.matchingLine_ fv' = FileViewer.matchingLine_ fv
    /\ FileViewer.isCapturing_ fv' = true.
Proof.
  intros Hd Hb Hv Hc Hin.
  destruct (OnEvent_navigates doc term Hd Hb fv e Hv Hin) as (fv' & Hev & Hnav).
  exists fv'. split; [exact Hev|]. split; [exact Hnav|]. split.
  - rewrite (OnEvent_capturing doc term fv e false Hin), Hev. reflexivity.
  - destruct (navigates_keeps doc term fv fv' e Hnav) as (Hp & Hm & Hcap & _).
    rewrite Hcap. repeat split; assumption.
Qed.

Lemma C9_navigation_while_capturing_witness :
  exists fv',
    FileViewer.OnEvent d5 t80x3 (FileViewer.mk 1 0 2 "alp" true true false)
      Event.ArrowDown = Ok fv'
    /\ navigates d5 t80x3 (FileViewer.mk 1 0 2 "alp" true true false)
         Event.ArrowDown fv'
    /\ FileViewer.OnEvent d5 t80x3
         (FileViewer.set_isCapturing false
            (FileViewer.mk 1 0 2 "alp" true true false)) Event.ArrowDown
       = Ok (FileViewer.set_isCapturing false fv')
    /\ FileViewer.pattern_ fv' = "alp"
    /\ FileViewer.matchingLine_ fv' = 2
    /\ FileViewer.isCapturing_ fv' = true.
Proof.
  apply (C9_navigation_while_capturing d5 t80x3
           (FileViewer.mk 1 0 2 "alp" true true false) Event.ArrowDown).
  - vm_compute. discriminate.
  - bounded_by_computation.
  - vm_compute. repeat split; discriminate.
  - reflexivity.
  - simpl. right. left. reflexivity.
Defined.

(** ** Reading the document *)

Lemma getline_terminated (file : string) :
  file <> "" ->
  terminated file
  = (fst (Document.getline file)
     ++ String "010" (terminated (snd (Document.getline file))))%string
  /\ has_newline (fst (Document.getline file)) = false
  /\ (String.length (snd (Document.getline file)) < String.length file)%nat.
Proof.
  induction file as [|c file IH]; [congruence|]. intros _.
  simpl Document.getline.
  destruct (Ascii.eqb c "010") eqn:Ec.
  - apply Ascii.eqb_eq in Ec. subst c. simpl fst. simpl snd.
    split; [|split; [reflexivity | simpl; lia]].
    destruct file; reflexivity.
  - destruct file as [|c' file'].
    + simpl. rewrite Ec. repeat split. lia.
    + destruct IH as (IH1 & IH2 & IH3); [discriminate|].
      destruct (Document.getline (String c' file')) as [l r] eqn:Eg.
      simpl fst in *. simpl snd in *.
      split; [|split].
      * change (terminated (String c (String c' file')))
          with (String c (terminated (String c' file'))).
        rewrite IH1. reflexivity.
      * simpl. rewrite Ec, IH2. reflexivity.
      * simpl in *. lia.
Qed.

Lemma unlines_app (ls1 ls2 : list string) :
  unlines (ls1 ++ ls2) = (unlines ls1 ++ unlines ls2)%string.
Proof.
  induction ls1 as [|l ls1 IH]; simpl; [reflexivity|].
  rewrite IH, append_assoc. reflexivity.
Qed.

Lemma Document_reads (content : string) :
  exists d,
    Document.Document (Some content) = Ok d
    /\ unlines (Document.lines_ d) = terminated content
    /\ Forall (fun l => has_newline l = false) (Document.lines_ d).
Proof.
  unfold Document.Document.
  match goal with
  | |- context [while ?ff ?cc ?bb ?ss] =>
      destruct (while_inv cc bb
        (fun '(file, ls) =>
           (unlines ls ++ terminated file)%string = terminated content
           /\ Forall (fun l => has_newline l = false) ls)
        (fun '(file, _) => String.length file))
        with (fuel := ff) (s := ss) as ([file ls] & Hr & (Hinv & Hnl) & Hc)
  end.
  - intros [file ls] (Hinv & Hnl) Hcond.
    assert (Hne : file <> "") by (destruct file; [discriminate | congruence]).
    destruct (getline_terminated file Hne) as (H1 & H2 & H3).
    destruct (Document.getline file) as [l r]. simpl fst in *. simpl snd in *.
    eexists. split; [reflexivity|]. split; [split|exact H3].
    + rewrite unlines_app. simpl unlines.
      rewrite append_assoc. rewrite <- Hinv, H1.
      f_equal. rewrite append_assoc. reflexivity.
    + apply Forall_app. split; [exact Hnl|]. constructor; [exact H2|constructor].
  - split; [reflexivity | constructor].
  - lia.
  - rewrite Hr. cbn [bind]. eexists. split; [reflexivity|].
    destruct file; [|discriminate]. simpl Document.lines_.
    split; [|exact Hnl]. simpl in Hinv. rewrite append_nil_r in Hinv.
    exact Hinv.
Qed.

(** X19. The constructor reads the lines of the file: written back, each
    followed by a newline, they are the content of the file with its last
    line closed, and no line holds a newline.  A file that cannot be
    opened and a file without content give the document without lines,
    not an error. *)
Theorem X19_Document_reads_the_lines (content : string) :
  Document.Document None = Ok empty_document
  /\ Document.Document (Some "") = Ok empty_document
  /\ exists d,
       Document.Document (Some content) = Ok d
       /\ unlines (Document.lines_ d) = terminated content
       /\ Forall (fun l => has_newline l = false) (Document.lines_ d).
Proof.
  split; [reflexivity|]. split; [reflexivity|]. apply Document_reads.
Qed.

(** ** Rendering *)

Lemma index_ge (p : string) (s : string) :
  forall n m, index n p s = Some m -> (n <= m)%nat.
Proof.
  induction s as [|b s IH]; intros n m H; simpl in H.
  - destruct n; [|discriminate]. destruct p; [|discriminate]. lia.
  - destruct n as [|n].
    + lia.
    + destruct (index n p s) as [m'|] eqn:E; [|discriminate].
      injection H as <-. apply IH in E. lia.
Qed.

Lemma index_lt_length (p : string) (s : string) :
  p <> "" -> forall n m, index n p s = Some m -> (m < String.length s)%nat.
Proof.
  intros Hp. induction s as [|b s IH]; intros n m H; cbn [index] in H.
  - destruct n; [|discriminate]. destruct p; [congruence | discriminate].
  - destruct n as [|n].
    + destruct (prefix p (String b s)).
      * injection H as <-. simpl. lia.
      * destruct (index 0 p s) as [m'|] eqn:E; [|discriminate].
        injection H as <-. apply IH in E. simpl. lia.
    + destruct (index n p s) as [m'|] eqn:E; [|discriminate].
      injection H as <-. apply IH in E. simpl. lia.
Qed.

Lemma empty_false (p : string) : empty p = false -> p <> "".
Proof. destruct p; [discriminate | congruence]. Qed.


Section Rendering.

Import FileViewer.

Variable doc : Document.t.
Variable term : Dimensions.
Variable fv : t.

Local Abbreviation lines := (Document.lines_ doc).
Local Abbreviation p := (pattern_ fv).

Lemma Render_highlights_none (line : string) (row : Z) (C : Canvas) :
  Render_highlights fv line row None C = Ok C.
Proof. reflexivity. Qed.

Lemma Render_highlights_spec (line : string) (row : Z) (C : Canvas) :
  empty p = false ->
  exists ws,
    Render_highlights fv line row (str_find line p) C
    = Ok (mkCanvas (canvas_width C) (canvas_height C)
            (canvas_texts C ++ map (highlight_text fv row) ws))
    /\ leftmost_matches p line 0 ws.
Proof.
  intros Hp. pose proof (empty_false p Hp) as Hne.
  unfold Render_highlights.
  match goal with
  | |- context [while ?ff ?cc ?bb ?ss] =>
      destruct (while_inv cc bb
        (fun '(where_, C') =>
           exists done from,
             where_ = index from p line
             /\ C' = mkCanvas (canvas_width C) (canvas_height C)
                       (canvas_texts C ++ map (highlight_text fv row) done)
             /\ forall rest, leftmost_matches p line from rest ->
                             leftmost_matches p line 0 (done ++ rest))
        (fun '(where_, _) =>
           match where_ with
           | Some w => (S (String.length line) - w)%nat
           | None => O
           end))
        with (fuel := ff) (s := ss)
        as ([where_ C'] & Hr & (done & from & Hw & HC & Hrest) & Hc)
  end.
  - intros [where_ C'] (done & from & Hw & HC & Hrest) Hcond.
    destruct where_ as [w|]; [|discriminate]. symmetry in Hw.
    pose proof (index_ge _ _ _ _ Hw) as Hge.
    pose proof (index_lt_length _ _ Hne _ _ Hw) as Hlt.
    eexists. split; [reflexivity|]. split.
    + exists (done ++ [w])%list, (w + String.length p)%nat.
      split; [reflexivity|]. split.
      * subst C'. unfold DrawText. cbn [canvas_width canvas_height canvas_texts].
        rewrite map_app, app_assoc. simpl map.
        unfold highlight_text at 2.
        rewrite (index_correct1 _ _ _ _ Hw). reflexivity.
      * intros rest Hrest'. rewrite <- app_assoc. apply Hrest. simpl.
        split; [exact Hge|]. split; [exact (index_correct1 _ _ _ _ Hw)|].
        split; [|exact Hrest'].
        intros q Hq. apply (index_correct2 _ _ _ _ Hw); lia.
    + unfold str_find_from.
      destruct (index (w + String.length p) p line) as [w'|] eqn:Hw'; [|lia].
      apply index_ge in Hw'.
      assert (0 < String.length p)%nat by (destruct p; [congruence | simpl; lia]).
      lia.
  - exists [], O. split; [reflexivity|]. split.
    + destruct C. simpl. rewrite app_nil_r. reflexivity.
    + intros rest Hrest. exact Hrest.
  - unfold str_find. destruct (index 0 p line); lia.
  - rewrite Hr. cbn [bind]. exists done. subst C'. split; [reflexivity|].
    rewrite <- (app_nil_r done). apply Hrest. simpl.
    destruct where_; [discriminate|]. symmetry in Hw.
    intros q Hq. apply (index_correct3 _ q _ _ Hw Hne). exact Hq.
Qed.

End Rendering.


Lemma skipn_numbered_from (n : nat) :
  forall (a : nat) (l : list string),
    skipn n (combine (seq a (List.length l)) l)
    = combine (seq (a + n) (List.length (skipn n l))) (skipn n l).
Proof.
  induction n as [|n IH]; intros a l.
  - simpl. rewrite Nat.add_0_r. reflexivity.
  - destruct l as [|x l]; [reflexivity|]. simpl.
    rewrite IH. replace (S a + n)%nat with (a + S n)%nat by lia. reflexivity.
Qed.

Section RenderLines.

Import FileViewer.

Variable term : Dimensions.
Variable fv : t.
Hypothesis height_is_int : 1 <= dimy term <= INT_MAX.

Local Abbreviation p := (pattern_ fv).

Lemma shown_condition (line : string) :
  let where_ := if empty p then None else str_find line p in
  let found := match where_ with Some _ => true | None => false end in
  negb (isFiltering_ fv) || empty p || found = visible fv line
  /\ found = negb (empty p) && contains p line.
Proof.
  unfold visible, contains. destruct (empty p); simpl.
  - rewrite !orb_true_r. split; reflexivity.
  - destruct (str_find line p); split; reflexivity.
Qed.

Lemma Render_highlights_texts (line : string) (row : Z) (C : Canvas) :
  exists ws,
    Render_highlights fv line row
      (if empty p then None else str_find line p) C
    = Ok (mkCanvas (canvas_width C) (canvas_height C)
            (canvas_texts C ++ map (highlight_text fv row) ws))
    /\ (if empty p then ws = [] else leftmost_matches p line 0 ws).
Proof.
  destruct (empty p) eqn:Hp.
  - exists []. rewrite Render_highlights_none. destruct C. simpl.
    rewrite app_nil_r. split; reflexivity.
  - destruct (Render_highlights_spec fv line row C Hp) as (ws & Hr & Hm).
    exists ws. split; [exact Hr | exact Hm].
Qed.

Lemma Render_lines_spec (rest : list string) :
  forall (i : nat) (row ln : Z) (A C : Canvas),
    0 <= row ->
    Z.of_nat i + Z.of_nat (List.length rest) <= INT_MAX ->
    (rest <> [] -> ln = Z.of_nat i + 1) ->
    let rows :=
      firstn (Z.to_nat (dimy term - 1 - row))
        (filter (fun r => visible fv (snd r))
           (combine (seq i (List.length rest)) rest)) in
    exists texts,
      Render_lines term fv rest row ln A C
      = Ok (mkCanvas (canvas_width A) (canvas_height A)
              (canvas_texts A ++ on_rows (number_text fv) row rows),
            mkCanvas (canvas_width C) (canvas_height C)
              (canvas_texts C ++ texts))
      /\ content_rows fv row rows texts.
Proof.
  assert (HH : to_int (ViewHeight term - 1) = dimy term - 1)
    by (unfold ViewHeight; apply to_int_id;
        unfold is_int, INT_MIN, INT_MAX in *; lia).
  induction rest as [|line rest IH]; intros i row ln A C Hrow Hlen Hln rows.
  - exists []. subst rows. simpl. rewrite firstn_nil. simpl.
    rewrite !app_nil_r. destruct A, C. split; [reflexivity | constructor].
  - cbn [Render_lines]. rewrite HH.
    destruct (Z.ltb_spec row (dimy term - 1)) as [Hlt|Hge].
    2:{ exists []. subst rows.
        replace (Z.to_nat (dimy term - 1 - row)) with O by lia.
        simpl. rewrite !app_nil_r. destruct A, C.
        split; [reflexivity | constructor]. }
    rewrite (Hln ltac:(discriminate)). clear Hln.
    assert (Hinc : to_int (row + 1) = row + 1)
      by (apply to_int_id; unfold is_int, INT_MIN, INT_MAX in *; lia).
    assert (Hnext : rest <> [] ->
              to_int (Z.of_nat i + 1 + 1) = Z.of_nat (S i) + 1).
    { intros Hne. destruct rest as [|x rest']; [congruence|].
      replace (Z.of_nat (S i) + 1) with (Z.of_nat i + 1 + 1) by lia.
      apply to_int_id. simpl List.length in Hlen.
      unfold is_int, INT_MIN, INT_MAX in *. lia. }
    assert (Hlen' : Z.of_nat (S i) + Z.of_nat (List.length rest) <= INT_MAX)
      by (simpl List.length in Hlen; lia).
    destruct (shown_condition line) as [Hvis Hfound].
    cbv zeta in Hvis, Hfound. rewrite Hvis, Hfound.
    subst rows. cbn [List.length seq combine filter snd].
    destruct (visible fv line) eqn:Ev.
    + destruct (Render_highlights_texts line row
                  (DrawText C (to_int (to_int (- leftEdge_ fv) * xFactor_))
                     (to_int (row * yFactor_)) line None)) as (ws & -> & Hws).
      cbn [bind]. rewrite Hinc.
      replace (Z.to_nat (dimy term - 1 - row))
        with (S (Z.to_nat (dimy term - 1 - (row + 1)))) by lia.
      cbn [firstn on_rows].
      match goal with
      | |- context [Render_lines term fv rest _ _ ?A1 ?C1] =>
          destruct (IH (S i) (row + 1) (to_int (Z.of_nat i + 1 + 1)) A1 C1
                      ltac:(lia) Hlen' Hnext) as (texts & -> & Hrows)
      end.
      exists (line_text fv row (i, line)
              :: map (highlight_text fv row) ws ++ texts)%list.
      cbn [canvas_width canvas_height canvas_texts DrawText].
      split.
      * rewrite <- !app_assoc. reflexivity.
      * constructor; assumption.
    + cbn [bind].
      destruct (IH (S i) row (to_int (Z.of_nat i + 1 + 1)) A C Hrow Hlen' Hnext)
        as (texts & -> & Hrows).
      exists texts. split; [reflexivity | exact Hrows].
Qed.

End RenderLines.

Section RenderFrame.

Import FileViewer.

Variable doc : Document.t.
Variable term : Dimensions.
Variable fv : t.
Hypothesis size_is_int : size (Document.lines_ doc) <= INT_MAX.
Hypothesis height_is_int : 1 <= dimy term <= INT_MAX.

Local Abbreviation lines := (Document.lines_ doc).

Lemma Render_outside :
  topLine_ fv < 0 \/ size lines < topLine_ fv ->
  Render doc term fv = Fault IteratorOutOfRange.
Proof.
  intros H. unfold Render, CanvasSize, advance, size in *.
  destruct (Z.leb_spec 0 (topLine_ fv));
    destruct (Z.leb_spec (topLine_ fv) (Z.of_nat (List.length lines)));
    try reflexivity.
  lia.
Qed.

Lemma Render_spec :
  0 <= topLine_ fv <= size lines ->
  exists numbers content,
    Render doc term fv
    = Ok (mkElement
            (mkCanvas
               (to_int ((if showLineNumbers_ fv then lineNumberMargin_ else 0)
                        * xFactor_))
               (to_int (to_int (dimy term * yFactor_) - yFactor_))
               numbers)
            (mkCanvas
               (to_int (to_int (dimx term * xFactor_)
                        - to_int ((if showLineNumbers_ fv
                                   then lineNumberMargin_ else 0) * xFactor_)))
               (to_int (to_int (dimy term * yFactor_) - yFactor_))
               content)
            (mkCanvas (to_int (dimx term * xFactor_)) yFactor_
               (mkText 0 0
                  (to_string (to_int (topLine_ fv + 1)) ++ "/"
                   ++ to_string (Document.Size doc))
                  (Some Aquamarine1)
                :: (if isCapturing_ fv
                    then [mkText 30 0 "/" (Some DarkGoldenrod)] else [])
                ++ [mkText 32 0 (pattern_ fv) (Some DarkGoldenrod)])))
    /\ numbers = on_rows (number_text fv) 0 (shown_rows lines (dimy term) fv)
    /\ content_rows fv 0 (shown_rows lines (dimy term) fv) content.
Proof.
  intros Ht. unfold Render, CanvasSize, advance, size in *.
  destruct (Z.leb_spec 0 (topLine_ fv)); [|lia].
  destruct (Z.leb_spec (topLine_ fv) (Z.of_nat (List.length lines))); [|lia].
  cbn [andb bind].
  set (it := Z.to_nat (topLine_ fv)).
  match goal with
  | |- context [Render_lines term fv ?rest ?row ?ln ?A ?C] =>
      destruct (Render_lines_spec term fv height_is_int rest it row ln A C)
        as (content & -> & Hf)
  end.
  - lia.
  - rewrite length_skipn. unfold INT_MAX in *. lia.
  - intros Hne.
    assert (it < List.length lines)%nat.
    { destruct (Nat.lt_ge_cases it (List.length lines)) as [|Hge];
        [assumption|].
      rewrite skipn_all2 in Hne by exact Hge. congruence. }
    rewrite to_int_id by (unfold is_int, INT_MIN, INT_MAX in *; lia).
    unfold it. lia.
  - cbn [bind canvas_width canvas_height canvas_texts] in *.
    assert (Hrows :
      firstn (Z.to_nat (dimy term - 1 - 0))
        (filter (fun r => visible fv (snd r))
           (combine (seq it (List.length (skipn it lines))) (skipn it lines)))
      = shown_rows lines (dimy term) fv).
    { unfold shown_rows, numbered. fold it.
      rewrite (skipn_numbered_from it 0 lines). rewrite Z.sub_0_r.
      reflexivity. }
    rewrite Hrows in *.
    eexists. exists content. split; [|split; [reflexivity | exact Hf]].
    unfold DrawText. cbn [canvas_width canvas_height canvas_texts].
    destruct (isCapturing_ fv); reflexivity.
Qed.

End RenderFrame.

(** X20. [Render] starts at [doc_->begin() + topLine_].  With sizes
    inside the [int] range and the left edge on a column of the terminal,
    it returns when the first line is between 0 and the size of the
    document, and moves the iterator outside the vector when it is
    not. *)
Theorem X20_Render_needs_the_first_line_in_range
    (doc : Document.t) (term : Dimensions) (fv : FileViewer.t) :
  bounded doc term ->
  0 <= FileViewer.leftEdge_ fv <= dimx term - 1 ->
  (0 <= FileViewer.topLine_ fv <= size (Document.lines_ doc) ->
   exists el, FileViewer.Render doc term fv = Ok el)
  /\ (INT_MIN <= FileViewer.topLine_ fv < 0
      \/ size (Document.lines_ doc) < FileViewer.topLine_ fv < INT_MAX ->
      FileViewer.Render doc term fv = Fault IteratorOutOfRange).
Proof.
  intros Hb Hl. pose proof (bounded_height doc term Hb) as Hh.
  assert (Hs : size (Document.lines_ doc) <= INT_MAX)
    by (destruct Hb as [Hs _]; lia).
  split.
  - intros Ht. destruct (Render_spec doc term fv Hs Hh Ht) as (n & c & -> & _).
    eexists. reflexivity.
  - intros Ht. apply Render_outside. lia.
Qed.

Lemma X20_Render_witness :
  (0 <= 5 <= size doc5 ->
   exists el,
     FileViewer.Render d5 t80x3 (FileViewer.mk 5 0 (-1) "" false true false)
     = Ok el)
  /\ (INT_MIN <= 5 < 0 \/ size doc5 < 5 < INT_MAX ->
      FileViewer.Render d5 t80x3 (FileViewer.mk 5 0 (-1) "" false true false)
      = Fault IteratorOutOfRange).
Proof.
  apply (X20_Render_needs_the_first_line_in_range d5 t80x3
           (FileViewer.mk 5 0 (-1) "" false true false)).
  - bounded_by_computation.
  - vm_compute. split; discriminate.
Defined.



(** X22. The highlights of a line: with a pattern that is not empty, the
    loop draws the pattern in [Yellow1] once for each match taken from the
    left, every match starting at or after the end of the one before, and
    after the last one the pattern does not occur again; it changes
    nothing else on the canvas. *)
Theorem X22_Render_highlights_leftmost_matches
    (fv : FileViewer.t) (line : string) (row : Z) (C : Canvas) :
  empty (FileViewer.pattern_ fv) = false ->
  exists ws,
    FileViewer.Render_highlights fv line row
      (str_find line (FileViewer.pattern_ fv)) C
    = Ok (mkCanvas (canvas_width C) (canvas_height C)
            (canvas_texts C ++ map (highlight_text fv row) ws))
    /\ leftmost_matches (FileViewer.pattern_ fv) line 0 ws.
Proof. intros Hp. exact (Render_highlights_spec fv line row C Hp). Qed.

Lemma X22_Render_highlights_witness :
  let fv := FileViewer.mk 0 1 (-1) "aa" false true false in
  exists ws,
    FileViewer.Render_highlights fv "xaaaaax" 0 (str_find "xaaaaax" "aa")
      (mkCanvas 10 4 [])
    = Ok (mkCanvas 10 4 ([] ++ map (highlight_text fv 0) ws))
    /\ leftmost_matches "aa" "xaaaaax" 0 ws.
Proof.
  apply (X22_Render_highlights_leftmost_matches
           (FileViewer.mk 0 1 (-1) "aa" false true false) "xaaaaax" 0
           (mkCanvas 10 4 [])).
  reflexivity.
Defined.



(** X24. On a document that is not empty, with sizes inside the [int]
    range, from a viewer whose first line is a line of the document and
    whose left edge is a column of the terminal, after every event the
    viewer can be rendered: the event returns and [Render] on the viewer
    it returns stays inside the document. *)
Theorem X24_Render_after_every_event
    (doc : Document.t) (term : Dimensions) (fv : FileViewer.t) (e : Event.t) :
  1 <= size (Document.lines_ doc) ->
  bounded doc term ->
  in_view doc term fv ->
  exists fv' el,
    FileViewer.OnEvent doc term fv e = Ok fv'
    /\ in_view doc term fv'
    /\ FileViewer.Render doc term fv' = Ok el.
Proof.
  intros Hd Hb Hv. pose proof (bounded_fits doc term Hd Hb) as Hfit.
  destruct (OnEvent_in_view doc term Hfit fv e (proj1 Hv))
    as (fv' & He & Hv').
  destruct Hfit as [[_ Hs] _].
  destruct (Render_spec doc term fv' Hs (bounded_height doc term Hb))
    as (n & c & Hr & _); [destruct Hv' as [Ht _]; lia|].
  exists fv'. eexists. split; [exact He|]. split; [exact Hv' | exact Hr].
Qed.

Lemma X24_Render_after_every_event_witness :
  exists fv' el,
    FileViewer.OnEvent d5 t80x3 (FileViewer.mk 4 0 (-1) "" false true false)
      keyevents.PgDown = Ok fv'
    /\ in_view d5 t80x3 fv'
    /\ FileViewer.Render d5 t80x3 fv' = Ok el.
Proof.
  apply (X24_Render_after_every_event d5 t80x3
           (FileViewer.mk 4 0 (-1) "" false true false) keyevents.PgDown).
  - vm_compute. discriminate.
  - bounded_by_computation.
  - vm_compute. repeat split; discriminate.
Defined.
